(** * DevInsight backend: metrics refresh, alerts, subscriptions and reports

    A shallow embedding of the Express/Mongoose controllers and services of
    the DevInsight backend, with the properties its specification states
    about them.

    Conventions of the embedding.
    - A Mongoose document is a pair of its [_id] and its schema fields; a
      collection is a finite map from [_id] to schema fields.  Mongoose's
      [createdAt]/[updatedAt] bookkeeping is kept only on [Report], whose
      [createdAt] the CSV exporter reads.
    - JavaScript numbers that hold counts are integers ([Z]); numbers that
      hold averages, thresholds and ratios are exact rationals ([Qc]).
    - A [Date] is its [getTime()] value, milliseconds since the epoch.
    - [async] code runs in a state-and-exception monad over a [World]: the
      database, the console, the mail outbox and a counter of awaited
      persistence/mail operations.  A fault oracle decides, per awaited
      operation, whether it rejects; the clock is a function of the same
      counter.
    - The GitHub data client ([services/github.service]) is consumed through
      its interface only and is a parameter of the development.
    - A call passes its arguments as JavaScript does: a method with one
      parameter reads the properties of the first argument, and a property
      the argument lacks is [undefined].  A named import of a name its
      module does not export is [undefined] too; [NamedImports] records
      which of these bindings are defined, and [src_imports] is the
      repository as it is. *)

From Stdlib Require Import Ascii QArith Qcanon Qround.
From stdpp Require Import base gmap list strings numbers pretty.
Close Scope Q_scope.
Close Scope Qc_scope.
Local Open Scope string_scope.

(** ** Basic types *)

Definition ObjectId := nat.
Definition Date := Z.

Definition num (z : Z) : Qc := Qc_of_Z z.

(** A loaded document: its identifier and its schema fields. *)
Definition Doc (A : Type) : Type := (ObjectId * A)%type.
Definition _id {A} (d : Doc A) : ObjectId := d.1.
Definition fields {A} (d : Doc A) : A := d.2.

(** Exceptions a JavaScript computation can throw. *)
Inductive exn :=
| Error (message : string)
| TypeError (message : string)
| UpstreamError (status : nat) (message : string)
| TransportError (message : string)
| ValidationError (message : string)
| ApiError (statusCode : nat) (message : string).

Inductive result (A : Type) :=
| Ok (a : A)
| Throw (e : exn).
Arguments Ok {A} a.
Arguments Throw {A} e.

(** ** Data model (models/*.model.ts) *)

Inductive Frequency := daily | weekly_ | monthly.
Inductive AlertType := noActivity_ | longOpenPRs_ | commitDrops_.
Inductive AlertStatus := active | resolved | dismissed.
Inductive ReportStatus := pending | sent | failed.

#[global] Instance Frequency_eq_dec : EqDecision Frequency.
Proof. solve_decision. Defined.
#[global] Instance AlertType_eq_dec : EqDecision AlertType.
Proof. solve_decision. Defined.
#[global] Instance AlertStatus_eq_dec : EqDecision AlertStatus.
Proof. solve_decision. Defined.
#[global] Instance ReportStatus_eq_dec : EqDecision ReportStatus.
Proof. solve_decision. Defined.

Module Commits.
Record t := mk { total : Z; weekly : list Z }.
End Commits.

Module PullRequests.
Record t := mk { open : Z; closed : Z; merged : Z }.
End PullRequests.

Module Issues.
Record t := mk { open : Z; closed : Z }.
End Issues.

Module Metrics.
Record t := mk {
    commits : Commits.t;
    pullRequests : PullRequests.t;
    issues : Issues.t;
    contributors : Z;
    mergeTime : Qc (* Average time in hours *)
  }.

Definition set_commits (c : Commits.t) (m : t) : t :=
    mk c (pullRequests m) (issues m) (contributors m) (mergeTime m).
Definition set_pullRequests (p : PullRequests.t) (m : t) : t :=
    mk (commits m) p (issues m) (contributors m) (mergeTime m).
Definition set_issues (i : Issues.t) (m : t) : t :=
    mk (commits m) (pullRequests m) i (contributors m) (mergeTime m).
Definition set_contributors (c : Z) (m : t) : t :=
    mk (commits m) (pullRequests m) (issues m) c (mergeTime m).
Definition set_mergeTime (h : Qc) (m : t) : t :=
    mk (commits m) (pullRequests m) (issues m) (contributors m) h.
End Metrics.

Module Alerts.
Record t := mk { noActivity : bool; longOpenPRs : bool; commitDrops : bool }.

Definition set_noActivity (b : bool) (a : t) : t :=
    mk b (longOpenPRs a) (commitDrops a).
Definition set_longOpenPRs (b : bool) (a : t) : t :=
    mk (noActivity a) b (commitDrops a).
Definition set_commitDrops (b : bool) (a : t) : t :=
    mk (noActivity a) (longOpenPRs a) b.
End Alerts.

Module Repository.
Record t := mk {
    owner : string;
    name : string;
    fullName : string;
    description : option string;
    url : string;
    apiUrl : string;
    stars : Z;
    forks : Z;
    openIssues : Z;
    watchers : Z;
    defaultBranch : string;
    lastFetched : Date;
    users : list ObjectId;
    metrics : Metrics.t;
    alerts : Alerts.t
  }.

Definition set_counters (s f o w : Z) (r : t) : t :=
    mk (owner r) (name r) (fullName r) (description r) (url r) (apiUrl r)
       s f o w (defaultBranch r) (lastFetched r) (users r) (metrics r)
       (alerts r).
Definition set_lastFetched (d : Date) (r : t) : t :=
    mk (owner r) (name r) (fullName r) (description r) (url r) (apiUrl r)
       (stars r) (forks r) (openIssues r) (watchers r) (defaultBranch r)
       d (users r) (metrics r) (alerts r).
Definition set_users (us : list ObjectId) (r : t) : t :=
    mk (owner r) (name r) (fullName r) (description r) (url r) (apiUrl r)
       (stars r) (forks r) (openIssues r) (watchers r) (defaultBranch r)
       (lastFetched r) us (metrics r) (alerts r).
Definition set_metrics (m : Metrics.t) (r : t) : t :=
    mk (owner r) (name r) (fullName r) (description r) (url r) (apiUrl r)
       (stars r) (forks r) (openIssues r) (watchers r) (defaultBranch r)
       (lastFetched r) (users r) m (alerts r).
Definition set_alerts (a : Alerts.t) (r : t) : t :=
    mk (owner r) (name r) (fullName r) (description r) (url r) (apiUrl r)
       (stars r) (forks r) (openIssues r) (watchers r) (defaultBranch r)
       (lastFetched r) (users r) (metrics r) a.
End Repository.

Module EmailReports.
Record t := mk { enabled : bool; frequency : Frequency; lastSent : option Date }.
End EmailReports.

Module User.
Record t := mk {
    githubId : string;
    username : string;
    email : string;
    avatarUrl : option string;
    accessToken : string;
    refreshToken : option string;
    emailReports : EmailReports.t;
    connectedRepos : list ObjectId
  }.

Definition set_connectedRepos (rs : list ObjectId) (u : t) : t :=
    mk (githubId u) (username u) (email u) (avatarUrl u) (accessToken u)
       (refreshToken u) (emailReports u) rs.
End User.

Module Alert.
Record t := mk {
    user : ObjectId;
    repository : ObjectId;
    type : AlertType;
    message : string;
    threshold : Qc;
    value : Qc;
    status : AlertStatus;
    resolvedAt : option Date
  }.

Definition set_status (s : AlertStatus) (a : t) : t :=
    mk (user a) (repository a) (type a) (message a) (threshold a) (value a)
       s (resolvedAt a).
Definition set_resolvedAt (d : option Date) (a : t) : t :=
    mk (user a) (repository a) (type a) (message a) (threshold a) (value a)
       (status a) d.
End Alert.

Module ReportData.
Record t := mk {
    commits : Z;
    pr_opened : Z;   (* data.pullRequests.opened *)
    pr_merged : Z;   (* data.pullRequests.merged *)
    pr_closed : Z;   (* data.pullRequests.closed *)
    is_opened : Z;   (* data.issues.opened *)
    is_closed : Z;   (* data.issues.closed *)
    contributors : Z;
    mergeTime : Qc
  }.

  (** Every field of the [data] sub-document has schema default 0. *)
Definition defaults : t := mk 0 0 0 0 0 0 0 (num 0).
End ReportData.

Module Report.
Record t := mk {
    user : ObjectId;
    repository : ObjectId;
    reportType : Frequency;
    startDate : Date;
    endDate : Date;
    data : ReportData.t;
    sentAt : option Date;
    status : ReportStatus;
    createdAt : Date
  }.

Definition set_status (s : ReportStatus) (r : t) : t :=
    mk (user r) (repository r) (reportType r) (startDate r) (endDate r)
       (data r) (sentAt r) s (createdAt r).
Definition set_sentAt (d : option Date) (r : t) : t :=
    mk (user r) (repository r) (reportType r) (startDate r) (endDate r)
       (data r) d (status r) (createdAt r).
End Report.

(** ** The database and the world *)

Module DB.
Record t := mk {
    users : gmap ObjectId User.t;
    repositories : gmap ObjectId Repository.t;
    alerts : gmap ObjectId Alert.t;
    reports : gmap ObjectId Report.t
  }.

Definition set_users (m : gmap ObjectId User.t) (d : t) : t :=
    mk m (repositories d) (alerts d) (reports d).
Definition set_repositories (m : gmap ObjectId Repository.t) (d : t) : t :=
    mk (users d) m (alerts d) (reports d).
Definition set_alerts (m : gmap ObjectId Alert.t) (d : t) : t :=
    mk (users d) (repositories d) m (reports d).
Definition set_reports (m : gmap ObjectId Report.t) (d : t) : t :=
    mk (users d) (repositories d) (alerts d) m.
End DB.

(** Console output: [console.log(msg)] and [console.error(msg, error)]. *)
Inductive LogLine :=
| Log (msg : string)
| LogError (msg : string) (e : exn).

(** The [mailOptions] the mail transport accepted; a property the caller
    left [undefined] is [None].  ([from] is [process.env.EMAIL_FROM] on every
    message.) *)
Record Email := mkEmail {
  to : option string;
  subject : option string;
  html : option string
}.

Record World := mkWorld {
  db : DB.t;
  console : list LogLine;
  outbox : list Email;
  tick : nat
}.

Definition set_db (d : DB.t) (w : World) : World :=
  mkWorld d (console w) (outbox w) (tick w).
Definition next_tick (w : World) : World :=
  mkWorld (db w) (console w) (outbox w) (S (tick w)).

(** ** The monad of asynchronous computations *)

Definition M (A : Type) : Type := World → World * result A.

Definition ret {A} (a : A) : M A := λ w, (w, Ok a).
Definition throw {A} (e : exn) : M A := λ w, (w, Throw e).
Definition bind {A B} (m : M A) (k : A → M B) : M B :=
  λ w, match m w with
       | (w', Ok a) => k a w'
       | (w', Throw e) => (w', Throw e)
       end.
(** [try { m } catch (error) { h error }] *)
Definition try_catch {A} (m : M A) (h : exn → M A) : M A :=
  λ w, match m w with
       | (w', Ok a) => (w', Ok a)
       | (w', Throw e) => h e w'
       end.

Notation "'let*' x ':=' m 'in' k" := (bind m (λ x, k))
  (at level 10, x name, m at level 100, k at level 200).
Notation "'exec' m 'in' k" := (bind m (λ _, k))
  (at level 10, m at level 100, k at level 200).

Definition console_log (msg : string) : M unit :=
  λ w, (mkWorld (db w) (console w ++ [Log msg]) (outbox w) (tick w), Ok tt).
Definition console_error (msg : string) (e : exn) : M unit :=
  λ w, (mkWorld (db w) (console w ++ [LogError msg e]) (outbox w) (tick w), Ok tt).

(** Lift a pure result (the settled value of a GitHub call). *)
Definition settle {A} (r : result A) : M A := λ w, (w, r).

(** ** HTTP responses

    A controller answers with [res.status(code).json(body)]. *)

Inductive Body :=
| Message (message : string)
| AlertJson (alert : Doc Alert.t)
| RepositoryJson (repo : Doc Repository.t)
| ReportJson (message : string) (report : Doc Report.t)
| Csv (filename : string) (content : string).

Record Response := mkResponse { statusCode : nat; body : Body }.

(** The shape every controller has:
    [try { ... } catch (error) { console.error(label, error);
      res.status(500).json({ message }) }]. *)
Definition controller (handler : M Response) (label message : string)
    : World → World * Response :=
  λ w, match handler w with
       | (w', Ok res) => (w', res)
       | (w', Throw error) =>
         (mkWorld (db w') (console w' ++ [LogError label error]) (outbox w') (tick w'),
          mkResponse 500 (Message message))
       end.

(** Request bodies carry strings; these are the values the schemas' enums
    accept. *)
Definition AlertStatus_of_string (s : string) : option AlertStatus :=
  if decide (s = "active") then Some active
  else if decide (s = "resolved") then Some resolved
  else if decide (s = "dismissed") then Some dismissed
  else None.

Definition AlertType_of_string (s : string) : option AlertType :=
  if decide (s = "noActivity") then Some noActivity_
  else if decide (s = "longOpenPRs") then Some longOpenPRs_
  else if decide (s = "commitDrops") then Some commitDrops_
  else None.

(** ** The GitHub data client (interface only)

    Each operation takes the credential, the owner and the repository name,
    and settles to a value or rejects.  [created_at]/[merged_at] are the
    timestamps the code obtains with [new Date(...).getTime()]; a [null]
    [merged_at] is [None]. *)

Module Github.
Record Repo := mkRepo {
  stargazers_count : Z;
  forks_count : Z;
  open_issues_count : Z;
  watchers_count : Z
}.
Record Week := mkWeek { total : Z }.
Record PullRequest := mkPullRequest { created_at : Date; merged_at : option Date }.
Record Issue := mkIssue { number : Z }.
Record Contributor := mkContributor { login : string }.
Inductive State := open | closed.
Record Service := mkService {
  getRepo : string → string → string → result Repo;
  getWeeklyCommitActivity : string → string → string → result (list Week);
  getRepoPullRequests : string → string → string → State → result (list PullRequest);
  getRepoIssues : string → string → string → State → result (list Issue);
  getRepoContributors : string → string → string → result (list Contributor)
}.
End Github.

(** [new Date(x).getTime()] for a possibly-null timestamp: [new Date(null)]
    is the epoch. *)
Definition getTime (d : option Date) : Z := default 0%Z d.

(** [arr.slice(-n)] *)
Definition slice_last {A} (n : nat) (l : list A) : list A :=
  drop (length l - n) l.

(** [arr.length] as a JavaScript number *)
Definition len {A} (l : list A) : Z := Z.of_nat (length l).

(** ** Property reads and named imports

    Reading a property of [undefined] throws; [new X()] with [X] undefined
    throws. *)
Definition TypeError_reading (property : string) : exn :=
  TypeError ("Cannot read properties of undefined (reading '" +:+ property +:+ "')").

Definition not_a_constructor (name : string) : exn :=
  TypeError (name +:+ " is not a constructor").

(** [import { X } from './m'] binds [X] to the export of [m] that is named
    [X]; when [m] has no export of that name the binding is [undefined].
    The record says, for the four names that services/cron.service and
    controllers/report.controller import this way, whether the binding is
    defined. *)
Record NamedImports := mkNamedImports {
  User_bound : bool;
  Repository_bound : bool;
  Report_bound : bool;
  EmailService_bound : bool
}.

(** The modules as they are: models/user.model, models/repository.model and
    models/report.model export their model as [default] only, and
    services/email.service exports [new EmailService()] as [default] and
    does not export the class. *)
Definition src_imports : NamedImports := mkNamedImports false false false false.

(** [`${x}`] for a possibly-undefined string. *)
Definition interpolate (x : option string) : string := default "undefined" x.

(** [x.toFixed(1)]: the integer [n] with [n / 10] closest to [x] (the larger
    one on a tie), printed with one decimal; the sign is printed apart. *)
Definition toFixed1 (x : Qc) : string :=
  let neg := bool_decide (x < num 0)%Qc in
  let ax := if neg then (- x)%Qc else x in
  let n := Qfloor (this (ax * num 10 + Q2Qc (1 # 2)%Q)%Qc) in
  (if neg then "-" else "")
  +:+ pretty (n `div` 10)%Z +:+ "." +:+ pretty (n `mod` 10)%Z.

Section Backend.

(** The fault oracle: whether the [n]-th awaited persistence or mail
    operation rejects, and with what. *)
Variable fault : nat → option exn.
(** The wall clock as seen at the [n]-th awaited operation. *)
Variable clock : nat → Date.
Variable githubService : Github.Service.

Definition await {A} (op : World → World * result A) : M A :=
  λ w, match fault (tick w) with
       | Some e => (next_tick w, Throw e)
       | None => op (next_tick w)
       end.

Definition Date_now : M Date := λ w, (w, Ok (clock (tick w))).

(** *** Persistence operations (Mongoose model calls) *)

Definition User_findById (id : ObjectId) : M (option (Doc User.t)) :=
  await (λ w, (w, Ok (pair id <$> DB.users (db w) !! id))).

Definition User_save (d : Doc User.t) : M unit :=
  await (λ w, (set_db (DB.set_users (<[_id d := fields d]> (DB.users (db w))) (db w)) w, Ok tt)).

Definition User_findByIdAndDelete (id : ObjectId) : M unit :=
  await (λ w, (set_db (DB.set_users (delete id (DB.users (db w))) (db w)) w, Ok tt)).

Definition Repository_findById (id : ObjectId) : M (option (Doc Repository.t)) :=
  await (λ w, (w, Ok (pair id <$> DB.repositories (db w) !! id))).

Definition Repository_save (d : Doc Repository.t) : M unit :=
  await (λ w, (set_db (DB.set_repositories (<[_id d := fields d]> (DB.repositories (db w))) (db w)) w, Ok tt)).

Definition Repository_findByIdAndDelete (id : ObjectId) : M unit :=
  await (λ w, (set_db (DB.set_repositories (delete id (DB.repositories (db w))) (db w)) w, Ok tt)).

(** *** controllers/repo.controller: the metrics refresh

    [updateRepoMetrics] mutates the loaded document between its awaited
    GitHub calls; each block of assignments is a function on the document's
    fields, named after the comment that heads it in the source. *)

(* Update basic repository info *)
Definition updateBasicInfo (githubRepo : Github.Repo) (repo : Repository.t) : Repository.t :=
  Repository.set_counters
    (Github.stargazers_count githubRepo) (Github.forks_count githubRepo)
    (Github.open_issues_count githubRepo) (Github.watchers_count githubRepo)
    repo.

(* Get weekly commit activity *)
Definition updateCommits (commitActivity : list Github.Week) (repo : Repository.t) : Repository.t :=
  let weekly := map Github.total commitActivity in
  let total := foldl (λ sum count, sum + count)%Z 0%Z weekly in
  Repository.set_metrics
    (Metrics.set_commits (Commits.mk total weekly) (Repository.metrics repo))
    repo.

(* Get pull requests *)
Definition updatePullRequests (openPRs closedPRs : list Github.PullRequest)
    (repo : Repository.t) : Repository.t :=
  Repository.set_metrics
    (Metrics.set_pullRequests
       (PullRequests.mk
          (len openPRs)
          (len (filter (λ pr, Github.merged_at pr = None) closedPRs))
          (len (filter (λ pr, is_Some (Github.merged_at pr)) closedPRs)))
       (Repository.metrics repo))
    repo.

(* Calculate average merge time for merged PRs *)
Definition updateMergeTime (closedPRs : list Github.PullRequest)
    (repo : Repository.t) : Repository.t :=
  let mergedPRs := filter (λ pr, is_Some (Github.merged_at pr)) closedPRs in
  if bool_decide (0 < length mergedPRs)%nat then
    let totalMergeTime :=
      foldl (λ sum pr,
               let createdAt := Github.created_at pr in
               let mergedAt := getTime (Github.merged_at pr) in
               (* Convert to hours *)
               sum + num (mergedAt - createdAt) / num (1000 * 60 * 60))%Qc
            (num 0) mergedPRs in
    Repository.set_metrics
      (Metrics.set_mergeTime (totalMergeTime / num (len mergedPRs))%Qc
         (Repository.metrics repo))
      repo
  else repo.

(* Get issues *)
Definition updateIssues (openIssues closedIssues : list Github.Issue)
    (repo : Repository.t) : Repository.t :=
  Repository.set_metrics
    (Metrics.set_issues (Issues.mk (len openIssues) (len closedIssues))
       (Repository.metrics repo))
    repo.

(* Get contributors *)
Definition updateContributors (contributors : list Github.Contributor)
    (repo : Repository.t) : Repository.t :=
  Repository.set_metrics
    (Metrics.set_contributors (len contributors) (Repository.metrics repo))
    repo.

(* 1. No activity in the past 7 days *)
Definition checkNoActivity (repo : Repository.t) : Repository.t :=
  let recentCommits :=
    head (slice_last 1 (Commits.weekly (Metrics.commits (Repository.metrics repo)))) in
  Repository.set_alerts
    (Alerts.set_noActivity (bool_decide (recentCommits = Some 0%Z))
       (Repository.alerts repo))
    repo.

(* 2. Long open PRs (more than 14 days) *)
Definition checkLongOpenPRs (now : Date) (openPRs : list Github.PullRequest)
    (repo : Repository.t) : Repository.t :=
  let longOpenPRs :=
    existsb (λ pr,
               let createdAt := Github.created_at pr in
               let daysDiff := (num (now - createdAt) / num (1000 * 60 * 60 * 24))%Qc in
               bool_decide (num 14 < daysDiff)%Qc)
            openPRs in
  Repository.set_alerts (Alerts.set_longOpenPRs longOpenPRs (Repository.alerts repo)) repo.

(* 3. Sudden drop in commits week over week *)
Definition checkCommitDrops (repo : Repository.t) : Repository.t :=
  let weekly := Commits.weekly (Metrics.commits (Repository.metrics repo)) in
  if bool_decide (2 ≤ length weekly)%nat then
    match head (slice_last 1 weekly), head (slice_last 2 weekly) with
    | Some currentWeek, Some previousWeek =>
      if bool_decide (0 < previousWeek)%Z && bool_decide (currentWeek = 0%Z) then
        Repository.set_alerts (Alerts.set_commitDrops true (Repository.alerts repo)) repo
      else if bool_decide (0 < previousWeek)%Z
              && bool_decide (num currentWeek / num previousWeek < num 3 / num 10)%Qc then
        (* Drop of more than 70% *)
        Repository.set_alerts (Alerts.set_commitDrops true (Repository.alerts repo)) repo
      else
        Repository.set_alerts (Alerts.set_commitDrops false (Repository.alerts repo)) repo
    | _, _ =>
      (* not reached when length >= 2; a comparison with undefined is false *)
      Repository.set_alerts (Alerts.set_commitDrops false (Repository.alerts repo)) repo
    end
  else repo.

Definition updateRepoMetrics (repoId : ObjectId) (accessToken : string) : M unit :=
  try_catch
    (let* found := Repository_findById repoId in
     match found with
     | None => throw (Error "Repository not found")
     | Some doc =>
       let repo := fields doc in
       let owner := Repository.owner repo in
       let name := Repository.name repo in
       let* githubRepo := settle (Github.getRepo githubService accessToken owner name) in
       let repo := updateBasicInfo githubRepo repo in
       let* commitActivity :=
         settle (Github.getWeeklyCommitActivity githubService accessToken owner name) in
       let repo := updateCommits commitActivity repo in
       let* openPRs :=
         settle (Github.getRepoPullRequests githubService accessToken owner name Github.open) in
       let* closedPRs :=
         settle (Github.getRepoPullRequests githubService accessToken owner name Github.closed) in
       let repo := updatePullRequests openPRs closedPRs repo in
       let repo := updateMergeTime closedPRs repo in
       let* openIssues :=
         settle (Github.getRepoIssues githubService accessToken owner name Github.open) in
       let* closedIssues :=
         settle (Github.getRepoIssues githubService accessToken owner name Github.closed) in
       let repo := updateIssues openIssues closedIssues repo in
       let* contributors :=
         settle (Github.getRepoContributors githubService accessToken owner name) in
       let repo := updateContributors contributors repo in
       (* Check for alerts *)
       let repo := checkNoActivity repo in
       let* now := Date_now in
       let repo := checkLongOpenPRs now openPRs repo in
       let repo := checkCommitDrops repo in
       (* Update last fetched timestamp *)
       let* now := Date_now in
       let repo := Repository.set_lastFetched now repo in
       Repository_save (_id doc, repo)
     end)
    (λ error,
       exec console_error "Update Repo Metrics Error:" error in
       throw error).

(** *** controllers/repo.controller: disconnecting a repository

    [req_user] is [req.user._id], [id] is [req.params.id].  Mongoose arrays
    of ObjectIds compare by value in [includes]. *)

Definition disconnectRepo (req_user : ObjectId) (id : ObjectId)
    : World → World * Response :=
  controller
    (let* user := User_findById req_user in
     match user with
     | None => ret (mkResponse 404 (Message "User not found"))
     | Some user =>
       (* Find repository *)
       let* repo := Repository_findById id in
       match repo with
       | None => ret (mkResponse 404 (Message "Repository not found"))
       | Some repo =>
         (* Check if user is connected to this repo *)
         if negb (bool_decide (_id user ∈ Repository.users (fields repo))) then
           ret (mkResponse 403 (Message "Not authorized to disconnect this repository"))
         else
           (* Remove user from repository *)
           let repo : Doc Repository.t :=
             (_id repo,
              Repository.set_users
                (filter (λ userId, userId ≠ _id user) (Repository.users (fields repo)))
                (fields repo)) in
           (* Remove repo from user's connected repos *)
           let user : Doc User.t :=
             (_id user,
              User.set_connectedRepos
                (filter (λ repoId, repoId ≠ _id repo) (User.connectedRepos (fields user)))
                (fields user)) in
           (* If no users are connected to the repo, delete it *)
           exec (if bool_decide (length (Repository.users (fields repo)) = 0)%nat
                 then Repository_findByIdAndDelete id
                 else Repository_save repo) in
           exec User_save user in
           ret (mkResponse 200 (Message "Repository disconnected successfully"))
       end
     end)
    "Disconnect Repo Error:" "Failed to disconnect repository".

(** *** controllers/user.controller: deleting the account

    [clearTokens(res)] only clears cookies of the response. *)

Definition deleteUserAccount (req_user : ObjectId) : World → World * Response :=
  controller
    (let* user := User_findById req_user in
     match user with
     | None => ret (mkResponse 404 (Message "User not found"))
     | Some user =>
       (* Delete user *)
       exec User_findByIdAndDelete req_user in
       ret (mkResponse 200 (Message "User account deleted successfully"))
     end)
    "Delete User Account Error:" "Failed to delete user account".

(** *** controllers/alert.controller *)

Definition Alert_findById (id : ObjectId) : M (option (Doc Alert.t)) :=
  await (λ w, (w, Ok (pair id <$> DB.alerts (db w) !! id))).

Definition Alert_save (d : Doc Alert.t) : M unit :=
  await (λ w, (set_db (DB.set_alerts (<[_id d := fields d]> (DB.alerts (db w))) (db w)) w, Ok tt)).

(** [Alert.findOne({ user, repository, type, status })]; a [type] outside
    the enum matches no stored alert. *)
Definition Alert_findOne (user repository : ObjectId) (type : string)
    (status : AlertStatus) : M (option (Doc Alert.t)) :=
  await (λ w,
    (w, Ok (head (filter
                    (λ d : Doc Alert.t,
                       Alert.user (fields d) = user
                       ∧ Alert.repository (fields d) = repository
                       ∧ Some (Alert.type (fields d)) = AlertType_of_string type
                       ∧ Alert.status (fields d) = status)
                    (map_to_list (DB.alerts (db w))))))).

(** [Alert.create({...})]: schema validation of the [type] enum, then an
    insert under a fresh ObjectId; [resolvedAt] is absent. *)
Definition Alert_create (user repository : ObjectId) (type message : string)
    (threshold value : Qc) (status : AlertStatus) : M (Doc Alert.t) :=
  await (λ w,
    match AlertType_of_string type with
    | None => (w, Throw (ValidationError "Alert validation failed: type"))
    | Some ty =>
      let id := fresh (dom (DB.alerts (db w))) in
      let alert := Alert.mk user repository ty message threshold value status None in
      (set_db (DB.set_alerts (<[id := alert]> (DB.alerts (db w))) (db w)) w,
       Ok (id, alert))
    end).

(** [status] is [req.body.status] ([None] when absent). *)
Definition updateAlertStatus (req_user : ObjectId) (id : ObjectId)
    (status : option string) : World → World * Response :=
  match status ≫= AlertStatus_of_string with
  | None => λ w, (w, mkResponse 400 (Message "Invalid status"))
  | Some status =>
    controller
      (let* alert := Alert_findById id in
       match alert with
       | None => ret (mkResponse 404 (Message "Alert not found"))
       | Some alert =>
         (* Check if the alert belongs to the user *)
         if negb (bool_decide (Alert.user (fields alert) = req_user)) then
           ret (mkResponse 403 (Message "Not authorized to update this alert"))
         else
           (* Update alert status *)
           let alert : Doc Alert.t := (_id alert, Alert.set_status status (fields alert)) in
           let* alert :=
             if bool_decide (status = resolved) || bool_decide (status = dismissed) then
               let* now := Date_now in
               ret ((_id alert, Alert.set_resolvedAt (Some now) (fields alert)) : Doc Alert.t)
             else ret alert in
           exec Alert_save alert in
           ret (mkResponse 200 (AlertJson alert))
       end)
      "Update Alert Status Error:" "Failed to update alert status"
  end.

(** The [req.body] of [POST /api/alert]; an absent field is [None]. *)
Record CreateAlertBody := mkCreateAlertBody {
  repositoryId : option ObjectId;
  type : option string;
  message : option string;
  threshold : option Qc;
  value : option Qc
}.

(** [!s] for a possibly-absent string: absent and empty are falsy. *)
Definition falsy (s : option string) : bool :=
  match s with None => true | Some s => bool_decide (s = "") end.

Definition createAlert (req_user : ObjectId) (req_body : CreateAlertBody)
    : World → World * Response :=
  match repositoryId req_body, threshold req_body, value req_body with
  | Some repositoryId, Some threshold, Some value =>
    if falsy (type req_body) || falsy (message req_body) then
      λ w, (w, mkResponse 400 (Message "Missing required fields"))
    else
      let type := default "" (type req_body) in
      let message := default "" (message req_body) in
      controller
        (let* repo := Repository_findById repositoryId in
         match repo with
         | None => ret (mkResponse 404 (Message "Repository not found"))
         | Some repo =>
           (* Check if user is connected to this repo *)
           if negb (bool_decide (req_user ∈ Repository.users (fields repo))) then
             ret (mkResponse 403 (Message "Not authorized to create alerts for this repository"))
           else
             (* Check if alert already exists *)
             let* existingAlert := Alert_findOne req_user repositoryId type active in
             match existingAlert with
             | Some _ => ret (mkResponse 400 (Message "Alert already exists"))
             | None =>
               (* Create new alert *)
               let* alert :=
                 Alert_create req_user repositoryId type message threshold value active in
               ret (mkResponse 201 (AlertJson alert))
             end
         end)
        "Create Alert Error:" "Failed to create alert"
  | _, _, _ => λ w, (w, mkResponse 400 (Message "Missing required fields"))
  end.

(** *** Reports: persistence *)

Variable getStartOfWeek : Date → Date.
Variable getEndOfWeek : Date → Date.
Variable imports : NamedImports.

Definition Report_findById (id : ObjectId) : M (option (Doc Report.t)) :=
  await (λ w, (w, Ok (pair id <$> DB.reports (db w) !! id))).

Definition Report_save (d : Doc Report.t) : M unit :=
  await (λ w, (set_db (DB.set_reports (<[_id d := fields d]> (DB.reports (db w))) (db w)) w, Ok tt)).

(** [User.find({ 'emailReports.enabled': true, 'emailReports.frequency': 'weekly' })] *)
Definition User_find_weekly : M (list (Doc User.t)) :=
  await (λ w,
    (w, Ok (filter
              (λ d : Doc User.t,
                 EmailReports.enabled (User.emailReports (fields d)) = true
                 ∧ EmailReports.frequency (User.emailReports (fields d)) = weekly_)
              (map_to_list (DB.users (db w)))))).

(** [Repository.find({ users: userId })] *)
Definition Repository_find_users (userId : ObjectId) : M (list (Doc Repository.t)) :=
  await (λ w,
    (w, Ok (filter (λ d : Doc Repository.t, userId ∈ Repository.users (fields d))
              (map_to_list (DB.repositories (db w)))))).

(** [new Report(obj)]: a fresh ObjectId; the schema paths present in [obj]
    are taken, absent ones get their schema defaults ([data] all 0,
    [status] ['pending'], no [sentAt]); properties of [obj] that are not
    schema paths are dropped (Mongoose strict mode).  The [createdAt]
    timestamp, which Mongoose writes on the first save, is filled in here:
    every caller saves right after constructing. *)
Definition new_Report (user repository : ObjectId) (reportType : Frequency)
    (startDate endDate : Date) (data : option ReportData.t)
    (status : option ReportStatus) : M (Doc Report.t) :=
  λ w, (w, Ok (fresh (dom (DB.reports (db w))),
               Report.mk user repository reportType startDate endDate
                 (default ReportData.defaults data) None (default pending status)
                 (clock (tick w)))).

(** [report.sent = value]: [sent] is not a path of [reportSchema], so the
    assignment only sets a property on the in-memory object; nothing a later
    [save()] writes changes. *)
Definition assign_sent (value : bool) (report : Doc Report.t) : Doc Report.t := report.

(** *** services/email.service

    The class has two methods, each with one parameter, an object that is
    read property by property.  In the records below [None] is a property
    the object passed does not have. *)

Record EmailOptions := mkEmailOptions {
  options_to : option string;
  options_subject : option string;
  options_html : option string
}.

Record ReportEmailData := mkReportEmailData {
  data_username : option string;
  data_repoName : option string;
  data_startDate : option string;
  data_endDate : option string;
  data_commits : option Z;
  data_pullRequests : option (Z * Z * Z); (* opened, merged, closed *)
  data_issues : option (Z * Z);           (* opened, closed *)
  data_contributors : option Z;
  data_mergeTime : option Qc;
  data_dashboardUrl : option string
}.

(** The static text of the template literal, as a function of the values
    interpolated into it, in the order they appear. *)
Variable reportEmailTemplate : list string → string.

(** [this.transporter.sendMail(mailOptions)]: the transport is external; it
    may reject, and a message it accepts is appended to the outbox. *)
Definition transporter_sendMail (mailOptions : Email) : M unit :=
  await (λ w, (mkWorld (db w) (console w) (outbox w ++ [mailOptions]) (tick w), Ok tt)).

Definition EmailService_sendEmail (options : EmailOptions) : M unit :=
  let mailOptions :=
    mkEmail (options_to options) (options_subject options) (options_html options) in
  try_catch
    (transporter_sendMail mailOptions)
    (λ error,
       exec console_error "Email sending error:" error in
       throw (Error "Failed to send email")).

Definition EmailService_generateReportEmail (data : ReportEmailData) : result string :=
  match data_pullRequests data with
  | None => Throw (TypeError_reading "opened")
  | Some (pr_opened, pr_merged, _) =>
    match data_issues data with
    | None => Throw (TypeError_reading "opened")
    | Some (is_opened, is_closed) =>
      match data_mergeTime data with
      | None => Throw (TypeError_reading "toFixed")
      | Some mergeTime =>
        Ok (reportEmailTemplate
              [ interpolate (data_repoName data);
                interpolate (data_startDate data);
                interpolate (data_endDate data);
                interpolate (data_username data);
                interpolate (data_repoName data);
                interpolate (pretty <$> data_commits data);
                pretty pr_opened;
                pretty pr_merged;
                pretty is_opened;
                pretty is_closed;
                interpolate (pretty <$> data_contributors data);
                toFixed1 mergeTime;
                interpolate (data_dashboardUrl data) ])
      end
    end
  end.

(** What the two methods receive from services/cron.service, which calls
    them with three positional arguments: the parameter is the first
    argument, the others are ignored.  A user document has a [username]
    and none of the other properties the template reads; a string has no
    [to], [subject] or [html]. *)
Definition ReportEmailData_of_user (user : Doc User.t) : ReportEmailData :=
  mkReportEmailData (Some (User.username (fields user)))
    None None None None None None None None None.

Definition EmailOptions_of_string (s : string) : EmailOptions :=
  mkEmailOptions None None None.

(** [for (const x of xs) { await f(x) }] *)
Fixpoint forEach {A} (xs : list A) (f : A → M unit) : M unit :=
  match xs with
  | [] => ret tt
  | x :: xs => exec f x in forEach xs f
  end.

(** *** services/cron.service: the weekly report run

    [User], [Repository], [Report] and [EmailService] are named imports.
    The constructor of [CronService] builds the mail service; the callback
    below is the one that [cron.schedule('0 0 * * 0', ...)] registers on a
    constructed [CronService]. *)

Definition new_CronService : result unit :=
  if EmailService_bound imports then Ok tt else Throw (not_a_constructor "EmailService").

Definition reportForRepository (user : Doc User.t) (repo : Doc Repository.t) : M unit :=
  try_catch
    (let* now := Date_now in
     let startDate := getStartOfWeek now in
     let endDate := getEndOfWeek now in
     (* Create a new report *)
     let* report :=
       if Report_bound imports then
         new_Report (_id user) (_id repo) weekly_ startDate endDate
           None (* reportData: { commits, pullRequests, issues, contributors,
                   mergeTime } is not a schema path; the schema's is [data] *)
           None (* sent: false is not a schema path; the schema's is [status] *)
       else throw (not_a_constructor "Report") in
     exec Report_save report in
     (* Generate and send the email *)
     let* emailContent :=
       settle (EmailService_generateReportEmail (ReportEmailData_of_user user)) in
     exec EmailService_sendEmail (EmailOptions_of_string (User.email (fields user))) in
     (* Update the report as sent *)
     let report := assign_sent true report in
     exec Report_save report in
     console_log ("Report sent for " +:+ Repository.fullName (fields repo)
                  +:+ " to " +:+ User.email (fields user)))
    (λ error,
       console_error ("Error generating report for repository "
                      +:+ Repository.fullName (fields repo) +:+ ":") error).

Definition reportsForUser (user : Doc User.t) : M unit :=
  try_catch
    ((* Get all repositories connected to this user *)
     let* repositories :=
       if Repository_bound imports then Repository_find_users (_id user)
       else throw (TypeError_reading "find") in
     exec console_log ("Generating reports for user " +:+ User.username (fields user)
                       +:+ " (" +:+ pretty (length repositories) +:+ " repositories)") in
     (* Generate a report for each repository *)
     forEach repositories (reportForRepository user))
    (λ error,
       console_error ("Error processing reports for user "
                      +:+ User.username (fields user) +:+ ":") error).

Definition scheduleWeeklyReports : M unit :=
  try_catch
    (exec console_log "Running weekly reports cron job..." in
     (* Find all users with email reports enabled and frequency set to 'weekly' *)
     let* users :=
       if User_bound imports then User_find_weekly
       else throw (TypeError_reading "find") in
     exec console_log ("Found " +:+ pretty (length users)
                       +:+ " users with weekly reports enabled") in
     (* For each user, generate and send reports for all their connected repositories *)
     exec forEach users reportsForUser in
     console_log "Weekly reports cron job completed")
    (λ error, console_error "Error in weekly reports cron job:" error).

(** *** controllers/report.controller: the on-demand report

    [asyncHandler] forwards what the handler throws to the error
    middleware, so the handler is a computation that may throw.  [User],
    [Repository] and [Report] are default imports here; [EmailService] is a
    named import. *)

Variable toLocaleDateString : Date → string.
Variable sevenDaysBefore : Date → Date. (* setDate(getDate() - 7) *)
Variable FRONTEND_URL : string.

(** [Report.create(obj)]: construct, then save. *)
Definition Report_create (user repository : ObjectId) (reportType : Frequency)
    (startDate endDate : Date) (data : ReportData.t) (status : ReportStatus)
    : M (Doc Report.t) :=
  let* report := new_Report user repository reportType startDate endDate
                   (Some data) (Some status) in
  exec Report_save report in
  ret report.

Definition generateReport (req_user : ObjectId) (repoId : ObjectId) : M Response :=
  let* user := User_findById req_user in
  let* repo := Repository_findById repoId in
  match user, repo with
  | None, _ => throw (ApiError 404 "User not found")
  | Some _, None => throw (ApiError 404 "Repository not found")
  | Some user, Some repo =>
    (* Check if user is connected to this repo *)
    if negb (bool_decide (_id user ∈ Repository.users (fields repo))) then
      throw (ApiError 403 "Not authorized to generate report for this repository")
    else
      (* Calculate date range (last 7 days) *)
      let* endDate := Date_now in
      let startDate := sevenDaysBefore endDate in
      (* Create report *)
      let metrics := Repository.metrics (fields repo) in
      let* report :=
        Report_create (_id user) (_id repo) weekly_ startDate endDate
          (ReportData.mk
             (default 0%Z (head (slice_last 1 (Commits.weekly (Metrics.commits metrics)))))
             (PullRequests.open (Metrics.pullRequests metrics))
             (PullRequests.merged (Metrics.pullRequests metrics))
             (PullRequests.closed (Metrics.pullRequests metrics))
             (Issues.open (Metrics.issues metrics))
             (Issues.closed (Metrics.issues metrics))
             (Metrics.contributors metrics)
             (Metrics.mergeTime metrics))
          pending in
      (* Create email service instance *)
      exec (if EmailService_bound imports then ret tt
            else throw (not_a_constructor "EmailService")) in
      (* Generate email HTML *)
      let data := Report.data (fields report) in
      let* emailHtml :=
        settle
          (EmailService_generateReportEmail
             (mkReportEmailData
                (Some (User.username (fields user)))
                (Some (Repository.fullName (fields repo)))
                (Some (toLocaleDateString startDate))
                (Some (toLocaleDateString endDate))
                (Some (ReportData.commits data))
                (Some (ReportData.pr_opened data, ReportData.pr_merged data,
                       ReportData.pr_closed data))
                (Some (ReportData.is_opened data, ReportData.is_closed data))
                (Some (ReportData.contributors data))
                (Some (ReportData.mergeTime data))
                (Some (FRONTEND_URL +:+ "/dashboard/repo/" +:+ pretty (_id repo))))) in
      (* Send email *)
      exec EmailService_sendEmail
             (mkEmailOptions
                (Some (User.email (fields user)))
                (Some ("DevInsight Weekly Report: " +:+ Repository.fullName (fields repo)))
                (Some emailHtml)) in
      (* Update report status *)
      let* now := Date_now in
      let report : Doc Report.t :=
        (_id report, Report.set_sentAt (Some now) (Report.set_status sent (fields report))) in
      exec Report_save report in
      ret (mkResponse 200 (ReportJson "Report generated and sent successfully" report))
  end.

End Backend.

(** ** utils/csvExporter

    [generateReportCsv(report: any, repository: any)] reads the properties
    below off its arguments.  An argument or property that is [undefined]
    (or [null]) is [None]; reading a property of it throws a [TypeError],
    interpolating it into a template prints ["undefined"]. *)

Module Csv.
Record Author := mkAuthor { author_name : string; author_count : Z }.
Record Day := mkDay { day_date : string; day_count : Z }.
Record Commits := mkCommits {
  commits_total : option Z;
  byAuthor : option (list Author);
  byDay : option (list Day)
}.
Record PullRequests := mkPullRequests {
  pr_total : option Z;
  pr_open : option Z;
  pr_closed : option Z;
  pr_merged : option Z
}.
Record Issues := mkIssues {
  issues_total : option Z;
  issues_open : option Z;
  issues_closed : option Z
}.
Record Contributor := mkContributor { contributor_name : string; contributions : Z }.
Record ReportData := mkReportData {
  commits : option Commits;
  pullRequests : option PullRequests;
  issues : option Issues;
  contributors : option (list Contributor);
  mergeTime : option Qc
}.
Record Report := mkReport {
  startDate : Date;
  endDate : Date;
  createdAt : Date;
  reportType : string;
  reportData : option ReportData
}.
Record Repository := mkRepository {
  fullName : string;
  description : option string
}.
End Csv.

Definition Frequency_to_string (f : Frequency) : string :=
  match f with daily => "daily" | weekly_ => "weekly" | monthly => "monthly" end.

(** What the exporter sees of a stored report: the schema's paths.  The
    schema keeps the payload under [data]; it has no [reportData] path, so
    that property of a report document is [undefined]. *)
Definition Csv_of_report (report : Doc Report.t) : Csv.Report :=
  Csv.mkReport
    (Report.startDate (fields report))
    (Report.endDate (fields report))
    (Report.createdAt (fields report))
    (Frequency_to_string (Report.reportType (fields report)))
    None.

(** What the exporter sees of the populated [report.repository]; [None]
    when the referenced repository no longer exists. *)
Definition Csv_of_repository (repo : option (Doc Repository.t)) : option Csv.Repository :=
  (λ d : Doc Repository.t,
     Csv.mkRepository (Repository.fullName (fields d)) (Repository.description (fields d)))
  <$> repo.

Definition nl : string := String (ascii_of_nat 10) EmptyString.

(** [`${x}`] for a possibly-undefined integer. *)
Definition show (x : option Z) : string :=
  match x with None => "undefined" | Some z => pretty z end.

(** [str.split('T')[0]] *)
Fixpoint before_T (s : string) : string :=
  match s with
  | EmptyString => EmptyString
  | String c rest => if decide (c = "T"%char) then EmptyString else String c (before_T rest)
  end.

(** [x.toFixed(2)]: the integer [n] with [n / 100] closest to [x] (the larger
    one on a tie), printed with two decimals; the sign is printed apart. *)
Definition pad2 (s : string) : string :=
  match String.length s with
  | 0 => "00" | 1 => "0" +:+ s | _ => s
  end%nat.

Definition toFixed2 (x : Qc) : string :=
  let neg := bool_decide (x < num 0)%Qc in
  let ax := if neg then (- x)%Qc else x in
  let n := Qfloor (this (ax * num 100 + Q2Qc (1 # 2)%Q)%Qc) in
  (if neg then "-" else "")
  +:+ pretty (n `div` 100)%Z +:+ "." +:+ pad2 (pretty (n `mod` 100)%Z).

Section CsvExporter.

(** [Date.prototype.toISOString] *)
Variable toISOString : Date → string.

Definition formatDate (date : Date) : string := before_T (toISOString date).

Definition generateReportCsv (report : Csv.Report) (repository : option Csv.Repository)
    : result string :=
  (* CSV header *)
  let csv := "Metric,Value,Details" +:+ nl in
  (* Repository information *)
  match repository with
  | None => Throw (TypeError_reading "fullName")
  | Some repository =>
  let csv := csv +:+ "Repository," +:+ Csv.fullName repository +:+ ","
             +:+ (match Csv.description repository with
                  | Some d => if bool_decide (d = "") then "No description" else d
                  | None => "No description"
                  end) +:+ nl in
  let csv := csv +:+ "Report Period," +:+ formatDate (Csv.startDate report) +:+ " to "
             +:+ formatDate (Csv.endDate report) +:+ ","
             +:+ Csv.reportType report +:+ " report" +:+ nl in
  let csv := csv +:+ "Generated On," +:+ formatDate (Csv.createdAt report) +:+ "," +:+ nl in
  let csv := csv +:+ nl in
  (* Metrics section *)
  let csv := csv +:+ "METRICS SUMMARY," +:+ nl in
  match Csv.reportData report with
  | None => Throw (TypeError_reading "commits")
  | Some reportData =>
  (* Commits *)
  let csv :=
    match Csv.commits reportData with
    | None => csv
    | Some commits =>
      let csv := csv +:+ "Total Commits," +:+ show (Csv.commits_total commits) +:+ "," +:+ nl in
      (* Commit authors *)
      let csv :=
        match Csv.byAuthor commits with
        | Some ((_ :: _) as authors) =>
          foldl (λ csv author,
                   csv +:+ "," +:+ Csv.author_name author +:+ ","
                   +:+ pretty (Csv.author_count author) +:+ " commits" +:+ nl)
                (csv +:+ "Commits by Author," +:+ nl) authors
        | _ => csv
        end in
      (* Commit activity by day *)
      match Csv.byDay commits with
      | Some ((_ :: _) as days) =>
        foldl (λ csv day,
                 csv +:+ "," +:+ Csv.day_date day +:+ ","
                 +:+ pretty (Csv.day_count day) +:+ " commits" +:+ nl)
              (csv +:+ "Commits by Day," +:+ nl) days
      | _ => csv
      end
    end in
  (* Pull Requests *)
  let csv :=
    match Csv.pullRequests reportData with
    | None => csv
    | Some pullRequests =>
      csv +:+ nl +:+ "Pull Requests," +:+ show (Csv.pr_total pullRequests) +:+ "," +:+ nl
      +:+ "Open Pull Requests," +:+ show (Csv.pr_open pullRequests) +:+ "," +:+ nl
      +:+ "Closed Pull Requests," +:+ show (Csv.pr_closed pullRequests) +:+ "," +:+ nl
      +:+ "Merged Pull Requests," +:+ show (Csv.pr_merged pullRequests) +:+ "," +:+ nl
      +:+ "Average Merge Time,"
      +:+ (match Csv.mergeTime reportData with
           | Some mergeTime =>
             if bool_decide (mergeTime = num 0) then "N/A"
             else toFixed2 mergeTime +:+ " hours"
           | None => "N/A"
           end) +:+ "," +:+ nl
    end in
  (* Issues *)
  let csv :=
    match Csv.issues reportData with
    | None => csv
    | Some issues =>
      csv +:+ nl +:+ "Issues," +:+ show (Csv.issues_total issues) +:+ "," +:+ nl
      +:+ "Open Issues," +:+ show (Csv.issues_open issues) +:+ "," +:+ nl
      +:+ "Closed Issues," +:+ show (Csv.issues_closed issues) +:+ "," +:+ nl
    end in
  (* Contributors *)
  let csv :=
    match Csv.contributors reportData with
    | Some ((_ :: _) as contributors) =>
      foldl (λ csv contributor,
               csv +:+ "," +:+ Csv.contributor_name contributor +:+ ","
               +:+ pretty (Csv.contributions contributor) +:+ " contributions" +:+ nl)
            (csv +:+ nl +:+ "Contributors," +:+ nl) contributors
    | _ => csv
    end in
  Ok csv
  end
  end.

End CsvExporter.

(** ** Further controllers and utilities *)

(** The answer of [githubService.getRepo] with the identity fields that
    [connectRepo] reads off it. *)
Record GithubRepoAnswer := mkGithubRepoAnswer {
  owner_login : string;           (* owner.login *)
  repo_name : string;             (* name *)
  full_name : string;
  repo_description : option string
}.

(** [req.body] of [PUT /api/alert/config/:repoId]; a number or absent. *)
Record ThresholdsBody := mkThresholdsBody {
  noActivityDays : option Qc;
  longOpenPRsDays : option Qc;
  commitDropPercentage : option Qc
}.

Record Thresholds := mkThresholds {
  th_noActivityDays : Qc;
  th_longOpenPRsDays : Qc;
  th_commitDropPercentage : Qc
}.

(** [x || d] for a possibly-absent number: absent and 0 are falsy. *)
Definition or_default (x : option Qc) (d : Z) : Qc :=
  match x with
  | Some q => if bool_decide (q = num 0) then num d else q
  | None => num d
  end.

Definition Frequency_of_string (s : string) : option Frequency :=
  if decide (s = "daily") then Some daily
  else if decide (s = "weekly") then Some weekly_
  else if decide (s = "monthly") then Some monthly
  else None.

Section MoreBackend.

Variable fault : nat → option exn.
Variable clock : nat → Date.
Variable githubService : Github.Service.
Variable getRepo : string → string → string → result GithubRepoAnswer.

(** *** controllers/repo.controller: repository details

    The document answered is the one loaded before the refresh;
    [updateRepoMetrics] loads and saves a document of its own. *)

Definition getRepoDetails (req_user : ObjectId) (id : ObjectId)
    : World → World * Response :=
  controller
    (let* user := User_findById fault req_user in
     match user with
     | None => ret (mkResponse 404 (Message "User not found"))
     | Some user =>
       (* Find repository *)
       let* repo := Repository_findById fault id in
       match repo with
       | None => ret (mkResponse 404 (Message "Repository not found"))
       | Some repo =>
         (* Check if user is connected to this repo *)
         if negb (bool_decide (_id user ∈ Repository.users (fields repo))) then
           ret (mkResponse 403 (Message "Not authorized to view this repository"))
         else
           (* Update metrics if last fetched more than 1 hour ago *)
           let* now := Date_now clock in
           let oneHourAgo := (now - 60 * 60 * 1000)%Z in
           exec (if bool_decide (Repository.lastFetched (fields repo) < oneHourAgo)%Z
                 then updateRepoMetrics fault clock githubService (_id repo)
                        (User.accessToken (fields user))
                 else ret tt) in
           ret (mkResponse 200 (RepositoryJson repo))
       end
     end)
    "Get Repo Details Error:" "Failed to fetch repository details".

(** *** controllers/repo.controller: connecting a repository *)

(** [Repository.findOne({ fullName })] *)
Definition Repository_findOne_fullName (fullName : string)
    : M (option (Doc Repository.t)) :=
  await fault (λ w,
    (w, Ok (head (filter (λ d : Doc Repository.t, Repository.fullName (fields d) = fullName)
                    (map_to_list (DB.repositories (db w))))))).

(** [Repository.create(obj)]: schema validation, then an insert under a
    fresh ObjectId.  [url] and [apiUrl] are [required] paths without a
    default; the other absent paths take their defaults. *)
Definition Repository_create (owner name fullName : string)
    (description : option string) (url apiUrl : option string)
    (users : list ObjectId) : M (Doc Repository.t) :=
  await fault (λ w,
    match url, apiUrl with
    | Some url, Some apiUrl =>
      let id := fresh (dom (DB.repositories (db w))) in
      let repo :=
        Repository.mk owner name fullName description url apiUrl 0%Z 0%Z 0%Z 0%Z "main"
          (clock (tick w)) users
          (Metrics.mk (Commits.mk 0%Z []) (PullRequests.mk 0%Z 0%Z 0%Z) (Issues.mk 0%Z 0%Z)
             0%Z (num 0))
          (Alerts.mk false false false) in
      (set_db (DB.set_repositories (<[id := repo]> (DB.repositories (db w))) (db w)) w,
       Ok (id, repo))
    | None, _ => (w, Throw (ValidationError "Repository validation failed: url"))
    | Some _, None => (w, Throw (ValidationError "Repository validation failed: apiUrl"))
    end).

(** [req_user] is [req.user] as [getUserFromRequest] accepts it: its [_id]
    and [accessToken], or [None] when the guard throws. *)
Definition getUserFromRequest (req_user : option (ObjectId * string))
    : M (ObjectId * string) :=
  match req_user with
  | None => throw (Error "Invalid user in request")
  | Some user => ret user
  end.

Definition connectRepo (req_user : option (ObjectId * string))
    (owner name : option string) : World → World * Response :=
  if falsy owner || falsy name then
    λ w, (w, mkResponse 400 (Message "Owner and name are required"))
  else
    let owner := default "" owner in
    let name := default "" name in
    controller
      (let* user := getUserFromRequest req_user in
       let* existingRepo := Repository_findOne_fullName (owner +:+ "/" +:+ name) in
       match existingRepo with
       | Some existingRepo =>
         if bool_decide (user.1 ∈ Repository.users (fields existingRepo)) then
           ret (mkResponse 400 (Message "Repository already connected"))
         else
           let existingRepo : Doc Repository.t :=
             (_id existingRepo,
              Repository.set_users (Repository.users (fields existingRepo) ++ [user.1])%list
                (fields existingRepo)) in
           exec Repository_save fault existingRepo in
           let* userDoc := User_findById fault user.1 in
           exec (match userDoc with
                 | Some userDoc =>
                   User_save fault
                     (_id userDoc,
                      User.set_connectedRepos
                        (User.connectedRepos (fields userDoc) ++ [_id existingRepo])%list
                        (fields userDoc))
                 | None => ret tt
                 end) in
           ret (mkResponse 200 (RepositoryJson existingRepo))
       | None =>
         let* githubRepo := settle (getRepo user.2 owner name) in
         let* newRepo :=
           Repository_create (owner_login githubRepo) (repo_name githubRepo)
             (full_name githubRepo) (repo_description githubRepo)
             None None (* the object passed has no url and no apiUrl *)
             [user.1] in
         let* userDoc := User_findById fault user.1 in
         exec (match userDoc with
               | Some userDoc =>
                 User_save fault
                   (_id userDoc,
                    User.set_connectedRepos
                      (User.connectedRepos (fields userDoc) ++ [_id newRepo])%list
                      (fields userDoc))
               | None => ret tt
               end) in
         ret (mkResponse 201 (RepositoryJson newRepo))
       end)
      "Connect Repo Error:" "Failed to connect repository".

(** *** controllers/alert.controller: threshold configuration

    The thresholds are computed and answered; nothing is stored. *)

Definition configureAlertThresholds (req_user : ObjectId) (repoId : ObjectId)
    (req_body : ThresholdsBody) : World → World * (Response * option Thresholds) :=
  λ w,
    let handler : M (Response * option Thresholds) :=
      let* repo := Repository_findById fault repoId in
      match repo with
      | None => ret (mkResponse 404 (Message "Repository not found"), None)
      | Some repo =>
        (* Check if user is connected to this repo *)
        if negb (bool_decide (req_user ∈ Repository.users (fields repo))) then
          ret (mkResponse 403
                 (Message "Not authorized to configure alerts for this repository"), None)
        else
          (* Create or update alert thresholds *)
          let thresholds :=
            mkThresholds (or_default (noActivityDays req_body) 7)
              (or_default (longOpenPRsDays req_body) 14)
              (or_default (commitDropPercentage req_body) 70) in
          ret (mkResponse 200 (Message "Alert thresholds configured successfully"),
               Some thresholds)
      end in
    match handler w with
    | (w', Ok res) => (w', res)
    | (w', Throw error) =>
      (mkWorld (db w') (console w' ++ [LogError "Configure Alert Thresholds Error:" error])
         (outbox w') (tick w'),
       (mkResponse 500 (Message "Failed to configure alert thresholds"), None))
    end.

(** *** controllers/report.controller: report settings

    [enabled] and [frequency] are [req.body.enabled] and
    [req.body.frequency] ([None] when absent); the answer is
    [user.emailReports]. *)

Definition getReportSettings (req_user : ObjectId) : M EmailReports.t :=
  let* user := User_findById fault req_user in
  match user with
  | None => throw (ApiError 404 "User not found")
  | Some user => ret (User.emailReports (fields user))
  end.

Definition updateReportSettings (req_user : ObjectId) (enabled : option bool)
    (frequency : option string) : M EmailReports.t :=
  let* user := User_findById fault req_user in
  match user with
  | None => throw (ApiError 404 "User not found")
  | Some user =>
    let emailReports := User.emailReports (fields user) in
    (* Update email report settings *)
    let emailReports :=
      EmailReports.mk (default (EmailReports.enabled emailReports) enabled)
        (EmailReports.frequency emailReports) (EmailReports.lastSent emailReports) in
    let emailReports :=
      match frequency ≫= Frequency_of_string with
      | Some frequency =>
        EmailReports.mk (EmailReports.enabled emailReports) frequency
          (EmailReports.lastSent emailReports)
      | None => emailReports
      end in
    let user : Doc User.t :=
      (_id user,
       User.mk (User.githubId (fields user)) (User.username (fields user))
         (User.email (fields user)) (User.avatarUrl (fields user))
         (User.accessToken (fields user)) (User.refreshToken (fields user))
         emailReports (User.connectedRepos (fields user))) in
    exec User_save fault user in
    ret (User.emailReports (fields user))
  end.

(** *** middleware/error.middleware and utils/asyncHandler *)

(** [err.message] *)
Definition exn_message (e : exn) : string :=
  match e with
  | Error m | TypeError m | UpstreamError _ m | TransportError m
  | ValidationError m | ApiError _ m => m
  end.

(** [errorHandler]: [production] is [NODE_ENV === 'production']; the
    answered body is reduced to its [message]. *)
Definition errorHandler (production : bool) (err : exn) : World → World * Response :=
  λ w,
    (* If the error is an ApiError, use its status code, otherwise default to 500 *)
    let statusCode := match err with ApiError code _ => code | _ => 500 end in
    let message :=
      if bool_decide (exn_message err = "") then "Internal Server Error" else exn_message err in
    (* Log the error in development *)
    let w :=
      if production then w
      else mkWorld (db w) (console w ++ [LogError "Error:" err]) (outbox w) (tick w) in
    (w, mkResponse statusCode (Message message)).

(** [asyncHandler(fn)] with [errorHandler] as the error middleware behind
    it. *)
Definition asyncHandler (production : bool) (fn : M Response) : World → World * Response :=
  λ w, match fn w with
       | (w', Ok res) => (w', res)
       | (w', Throw err) => errorHandler production err w'
       end.

End MoreBackend.

(** *** utils/dateUtils and utils/validateEnv *)

(** [Math.round(x)]: the integer nearest to [x], the larger one on a tie. *)
Definition Math_round (x : Qc) : Z := Qfloor (this (x + Q2Qc (1 # 2)%Q)%Qc).

(** [Math.abs(x)] *)
Definition Math_abs (x : Qc) : Qc := if bool_decide (x < num 0)%Qc then (- x)%Qc else x.

Definition daysBetween (date1 date2 : Date) : Z :=
  let oneDay := (24 * 60 * 60 * 1000)%Z in (* hours*minutes*seconds*milliseconds *)
  let diffDays := Math_round (Math_abs (num (date1 - date2) / num oneDay)%Qc) in
  diffDays.

Definition requiredEnvVars : list string :=
  [ "PORT"; "MONGODB_URI"; "JWT_SECRET"; "JWT_EXPIRES_IN"; "REFRESH_TOKEN_SECRET";
    "REFRESH_TOKEN_EXPIRES_IN"; "GITHUB_CLIENT_ID"; "GITHUB_CLIENT_SECRET";
    "GITHUB_CALLBACK_URL"; "EMAIL_SERVICE"; "EMAIL_USER"; "EMAIL_PASS"; "FRONTEND_URL" ].

(** [arr.join(', ')] *)
Fixpoint join_comma (l : list string) : string :=
  match l with
  | [] => ""
  | [x] => x
  | x :: rest => x +:+ ", " +:+ join_comma rest
  end.

(** [env] is [process.env]; the normal return is the console line logged. *)
Definition validateEnv (env : string → option string) : result LogLine :=
  let missingEnvVars := filter (λ envVar, falsy (env envVar) = true) requiredEnvVars in
  if bool_decide (0 < length missingEnvVars)%nat then
    Throw (Error ("Missing required environment variables: " +:+ join_comma missingEnvVars
                  +:+ nl +:+ "Please check your .env file or environment configuration."))
  else Ok (Log "✅ Environment variables validated").

(** * Properties *)

(** ** The metrics refresh *)

(** What one successful refresh stores, from the fetched GitHub data. *)
Definition refreshed (githubRepo : Github.Repo) (commitActivity : list Github.Week)
    (openPRs closedPRs : list Github.PullRequest)
    (openIssues closedIssues : list Github.Issue)
    (contributors : list Github.Contributor) (now : Date)
    (repo : Repository.t) : Repository.t :=
  Repository.set_lastFetched now
    (checkCommitDrops
       (checkLongOpenPRs now openPRs
          (checkNoActivity
             (updateContributors contributors
                (updateIssues openIssues closedIssues
                   (updateMergeTime closedPRs
                      (updatePullRequests openPRs closedPRs
                         (updateCommits commitActivity
                            (updateBasicInfo githubRepo repo))))))))).

(** The GitHub calls of one refresh, in the order the refresh awaits them,
    with their payloads forgotten. *)
Definition void {A} (r : result A) : result unit :=
  match r with Ok _ => Ok tt | Throw e => Throw e end.

Definition github_calls (g : Github.Service) (tok owner name : string) : list (result unit) :=
  [ void (Github.getRepo g tok owner name);
    void (Github.getWeeklyCommitActivity g tok owner name);
    void (Github.getRepoPullRequests g tok owner name Github.open);
    void (Github.getRepoPullRequests g tok owner name Github.closed);
    void (Github.getRepoIssues g tok owner name Github.open);
    void (Github.getRepoIssues g tok owner name Github.closed);
    void (Github.getRepoContributors g tok owner name) ].

Fixpoint first_failure (calls : list (result unit)) : option exn :=
  match calls with
  | [] => None
  | Ok _ :: rest => first_failure rest
  | Throw e :: _ => Some e
  end.

(** The specification's reading of the two derived values. *)

(** "The arithmetic mean, in hours, of (mergedAt - createdAt) over the merged
    pull requests". *)
Definition sum_merge_ms (prs : list Github.PullRequest) : Z :=
  foldr (λ pr acc, getTime (Github.merged_at pr) - Github.created_at pr + acc)%Z 0%Z prs.

Definition mean_merge_hours (prs : list Github.PullRequest) : Qc :=
  (num (sum_merge_ms prs) / num (len prs) / num 3600000)%Qc.

(** "The previous week's count > 0 and (the current week's count == 0 or
    current/previous < 0.3)". *)
Definition commit_drop (previous current : Z) : Prop :=
  (0 < previous)%Z ∧
  (current = 0%Z ∨ (num current / num previous < num 3 / num 10)%Qc).

Definition merged (pr : Github.PullRequest) : Prop := is_Some (Github.merged_at pr).

(** *** Frame lemmas for the steps of the refresh *)

Lemma updateMergeTime_alerts cl r :
  Repository.alerts (updateMergeTime cl r) = Repository.alerts r.
Proof. unfold updateMergeTime. by case_bool_decide. Qed.

Lemma updateMergeTime_commits cl r :
  Metrics.commits (Repository.metrics (updateMergeTime cl r))
  = Metrics.commits (Repository.metrics r).
Proof. unfold updateMergeTime. by case_bool_decide. Qed.

Lemma checkCommitDrops_metrics r :
  Repository.metrics (checkCommitDrops r) = Repository.metrics r.
Proof.
  unfold checkCommitDrops.
  repeat (case_bool_decide || case_match); reflexivity.
Qed.

(** *** Projections of the setters

    Each field of a document after a setter, as a rewriting rule. *)

Create Rewrite HintDb repo_fields.

Lemma owner_set_lastFetched d r : Repository.owner (Repository.set_lastFetched d r) = Repository.owner r.
Proof. reflexivity. Qed.
#[global] Hint Rewrite owner_set_lastFetched : repo_fields.

Lemma name_set_lastFetched d r : Repository.name (Repository.set_lastFetched d r) = Repository.name r.
Proof. reflexivity. Qed.
#[global] Hint Rewrite name_set_lastFetched : repo_fields.

Lemma fullName_set_lastFetched d r : Repository.fullName (Repository.set_lastFetched d r) = Repository.fullName r.
Proof. reflexivity. Qed.
#[global] Hint Rewrite fullName_set_lastFetched : repo_fields.

Lemma description_set_lastFetched d r : Repository.description (Repository.set_lastFetched d r) = Repository.description r.
Proof. reflexivity. Qed.
#[global] Hint Rewrite description_set_lastFetched : repo_fields.

Lemma url_set_lastFetched d r : Repository.url (Repository.set_lastFetched d r) = Repository.url r.
Proof. reflexivity. Qed.
#[global] Hint Rewrite url_set_lastFetched : repo_fields.

Lemma apiUrl_set_lastFetched d r : Repository.apiUrl (Repository.set_lastFetched d r) = Repository.apiUrl r.
Proof. reflexivity. Qed.
#[global] Hint Rewrite apiUrl_set_lastFetched : repo_fields.

Lemma stars_set_lastFetched d r : Repository.stars (Repository.set_lastFetched d r) = Repository.stars r.
Proof. reflexivity. Qed.
#[global] Hint Rewrite stars_set_lastFetched : repo_fields.

Lemma forks_set_lastFetched d r : Repository.forks (Repository.set_lastFetched d r) = Repository.forks r.
Proof. reflexivity. Qed.
#[global] Hint Rewrite forks_set_lastFetched : repo_fields.

Lemma openIssues_set_lastFetched d r : Repository.openIssues (Repository.set_lastFetched d r) = Repository.openIssues r.
Proof. reflexivity. Qed.
#[global] Hint Rewrite openIssues_set_lastFetched : repo_fields.

Lemma watchers_set_lastFetched d r : Repository.watchers (Repository.set_lastFetched d r) = Repository.watchers r.
Proof. reflexivity. Qed.
#[global] Hint Rewrite watchers_set_lastFetched : repo_fields.

Lemma defaultBranch_set_lastFetched d r : Repository.defaultBranch (Repository.set_lastFetched d r) = Repository.defaultBranch r.
Proof. reflexivity. Qed.
#[global] Hint Rewrite defaultBranch_set_lastFetched : repo_fields.

Lemma lastFetched_set_lastFetched d r : Repository.lastFetched (Repository.set_lastFetched d r) = d.
Proof. reflexivity. Qed.
#[global] Hint Rewrite lastFetched_set_lastFetched : repo_fields.

Lemma users_set_lastFetched d r : Repository.users (Repository.set_lastFetched d r) = Repository.users r.
Proof. reflexivity. Qed.
#[global] Hint Rewrite users_set_lastFetched : repo_fields.

Lemma metrics_set_lastFetched d r : Repository.metrics (Repository.set_lastFetched d r) = Repository.metrics r.
Proof. reflexivity. Qed.
#[global] Hint Rewrite metrics_set_lastFetched : repo_fields.

Lemma alerts_set_lastFetched d r : Repository.alerts (Repository.set_lastFetched d r) = Repository.alerts r.
Proof. reflexivity. Qed.
#[global] Hint Rewrite alerts_set_lastFetched : repo_fields.

Lemma owner_set_users us r : Repository.owner (Repository.set_users us r) = Repository.owner r.
Proof. reflexivity. Qed.
#[global] Hint Rewrite owner_set_users : repo_fields.

Lemma name_set_users us r : Repository.name (Repository.set_users us r) = Repository.name r.
Proof. reflexivity. Qed.
#[global] Hint Rewrite name_set_users : repo_fields.

Lemma fullName_set_users us r : Repository.fullName (Repository.set_users us r) = Repository.fullName r.
Proof. reflexivity. Qed.
#[global] Hint Rewrite fullName_set_users : repo_fields.

Lemma description_set_users us r : Repository.description (Repository.set_users us r) = Repository.description r.
Proof. reflexivity. Qed.
#[global] Hint Rewrite description_set_users : repo_fields.

Lemma url_set_users us r : Repository.url (Repository.set_users us r) = Repository.url r.
Proof. reflexivity. Qed.
#[global] Hint Rewrite url_set_users : repo_fields.

Lemma apiUrl_set_users us r : Repository.apiUrl (Repository.set_users us r) = Repository.apiUrl r.
Proof. reflexivity. Qed.
#[global] Hint Rewrite apiUrl_set_users : repo_fields.

Lemma stars_set_users us r : Repository.stars (Repository.set_users us r) = Repository.stars r.
Proof. reflexivity. Qed.
#[global] Hint Rewrite stars_set_users : repo_fields.

Lemma forks_set_users us r : Repository.forks (Repository.set_users us r) = Repository.forks r.
Proof. reflexivity. Qed.
#[global] Hint Rewrite forks_set_users : repo_fields.

Lemma openIssues_set_users us r : Repository.openIssues (Repository.set_users us r) = Repository.openIssues r.
Proof. reflexivity. Qed.
#[global] Hint Rewrite openIssues_set_users : repo_fields.

Lemma watchers_set_users us r : Repository.watchers (Repository.set_users us r) = Repository.watchers r.
Proof. reflexivity. Qed.
#[global] Hint Rewrite watchers_set_users : repo_fields.

Lemma defaultBranch_set_users us r : Repository.defaultBranch (Repository.set_users us r) = Repository.defaultBranch r.
Proof. reflexivity. Qed.
#[global] Hint Rewrite defaultBranch_set_users : repo_fields.

Lemma lastFetched_set_users us r : Repository.lastFetched (Repository.set_users us r) = Repository.lastFetched r.
Proof. reflexivity. Qed.
#[global] Hint Rewrite lastFetched_set_users : repo_fields.

Lemma users_set_users us r : Repository.users (Repository.set_users us r) = us.
Proof. reflexivity. Qed.
#[global] Hint Rewrite users_set_users : repo_fields.

Lemma metrics_set_users us r : Repository.metrics (Repository.set_users us r) = Repository.metrics r.
Proof. reflexivity. Qed.
#[global] Hint Rewrite metrics_set_users : repo_fields.

Lemma alerts_set_users us r : Repository.alerts (Repository.set_users us r) = Repository.alerts r.
Proof. reflexivity. Qed.
#[global] Hint Rewrite alerts_set_users : repo_fields.

Lemma owner_set_metrics m r : Repository.owner (Repository.set_metrics m r) = Repository.owner r.
Proof. reflexivity. Qed.
#[global] Hint Rewrite owner_set_metrics : repo_fields.

Lemma name_set_metrics m r : Repository.name (Repository.set_metrics m r) = Repository.name r.
Proof. reflexivity. Qed.
#[global] Hint Rewrite name_set_metrics : repo_fields.

Lemma fullName_set_metrics m r : Repository.fullName (Repository.set_metrics m r) = Repository.fullName r.
Proof. reflexivity. Qed.
#[global] Hint Rewrite fullName_set_metrics : repo_fields.

Lemma description_set_metrics m r : Repository.description (Repository.set_metrics m r) = Repository.description r.
Proof. reflexivity. Qed.
#[global] Hint Rewrite description_set_metrics : repo_fields.

Lemma url_set_metrics m r : Repository.url (Repository.set_metrics m r) = Repository.url r.
Proof. reflexivity. Qed.
#[global] Hint Rewrite url_set_metrics : repo_fields.

Lemma apiUrl_set_metrics m r : Repository.apiUrl (Repository.set_metrics m r) = Repository.apiUrl r.
Proof. reflexivity. Qed.
#[global] Hint Rewrite apiUrl_set_metrics : repo_fields.

Lemma stars_set_metrics m r : Repository.stars (Repository.set_metrics m r) = Repository.stars r.
Proof. reflexivity. Qed.
#[global] Hint Rewrite stars_set_metrics : repo_fields.

Lemma forks_set_metrics m r : Repository.forks (Repository.set_metrics m r) = Repository.forks r.
Proof. reflexivity. Qed.
#[global] Hint Rewrite forks_set_metrics : repo_fields.

Lemma openIssues_set_metrics m r : Repository.openIssues (Repository.set_metrics m r) = Repository.openIssues r.
Proof. reflexivity. Qed.
#[global] Hint Rewrite openIssues_set_metrics : repo_fields.

Lemma watchers_set_metrics m r : Repository.watchers (Repository.set_metrics m r) = Repository.watchers r.
Proof. reflexivity. Qed.
#[global] Hint Rewrite watchers_set_metrics : repo_fields.

Lemma defaultBranch_set_metrics m r : Repository.defaultBranch (Repository.set_metrics m r) = Repository.defaultBranch r.
Proof. reflexivity. Qed.
#[global] Hint Rewrite defaultBranch_set_metrics : repo_fields.

Lemma lastFetched_set_metrics m r : Repository.lastFetched (Repository.set_metrics m r) = Repository.lastFetched r.
Proof. reflexivity. Qed.
#[global] Hint Rewrite lastFetched_set_metrics : repo_fields.

Lemma users_set_metrics m r : Repository.users (Repository.set_metrics m r) = Repository.users r.
Proof. reflexivity. Qed.
#[global] Hint Rewrite users_set_metrics : repo_fields.

Lemma metrics_set_metrics m r : Repository.metrics (Repository.set_metrics m r) = m.
Proof. reflexivity. Qed.
#[global] Hint Rewrite metrics_set_metrics : repo_fields.

Lemma alerts_set_metrics m r : Repository.alerts (Repository.set_metrics m r) = Repository.alerts r.
Proof. reflexivity. Qed.
#[global] Hint Rewrite alerts_set_metrics : repo_fields.

Lemma owner_set_alerts a r : Repository.owner (Repository.set_alerts a r) = Repository.owner r.
Proof. reflexivity. Qed.
#[global] Hint Rewrite owner_set_alerts : repo_fields.

Lemma name_set_alerts a r : Repository.name (Repository.set_alerts a r) = Repository.name r.
Proof. reflexivity. Qed.
#[global] Hint Rewrite name_set_alerts : repo_fields.

Lemma fullName_set_alerts a r : Repository.fullName (Repository.set_alerts a r) = Repository.fullName r.
Proof. reflexivity. Qed.
#[global] Hint Rewrite fullName_set_alerts : repo_fields.

Lemma description_set_alerts a r : Repository.description (Repository.set_alerts a r) = Repository.description r.
Proof. reflexivity. Qed.
#[global] Hint Rewrite description_set_alerts : repo_fields.

Lemma url_set_alerts a r : Repository.url (Repository.set_alerts a r) = Repository.url r.
Proof. reflexivity. Qed.
#[global] Hint Rewrite url_set_alerts : repo_fields.

Lemma apiUrl_set_alerts a r : Repository.apiUrl (Repository.set_alerts a r) = Repository.apiUrl r.
Proof. reflexivity. Qed.
#[global] Hint Rewrite apiUrl_set_alerts : repo_fields.

Lemma stars_set_alerts a r : Repository.stars (Repository.set_alerts a r) = Repository.stars r.
Proof. reflexivity. Qed.
#[global] Hint Rewrite stars_set_alerts : repo_fields.

Lemma forks_set_alerts a r : Repository.forks (Repository.set_alerts a r) = Repository.forks r.
Proof. reflexivity. Qed.
#[global] Hint Rewrite forks_set_alerts : repo_fields.

Lemma openIssues_set_alerts a r : Repository.openIssues (Repository.set_alerts a r) = Repository.openIssues r.
Proof. reflexivity. Qed.
#[global] Hint Rewrite openIssues_set_alerts : repo_fields.

Lemma watchers_set_alerts a r : Repository.watchers (Repository.set_alerts a r) = Repository.watchers r.
Proof. reflexivity. Qed.
#[global] Hint Rewrite watchers_set_alerts : repo_fields.

Lemma defaultBranch_set_alerts a r : Repository.defaultBranch (Repository.set_alerts a r) = Repository.defaultBranch r.
Proof. reflexivity. Qed.
#[global] Hint Rewrite defaultBranch_set_alerts : repo_fields.

Lemma lastFetched_set_alerts a r : Repository.lastFetched (Repository.set_alerts a r) = Repository.lastFetched r.
Proof. reflexivity. Qed.
#[global] Hint Rewrite lastFetched_set_alerts : repo_fields.

Lemma users_set_alerts a r : Repository.users (Repository.set_alerts a r) = Repository.users r.
Proof. reflexivity. Qed.
#[global] Hint Rewrite users_set_alerts : repo_fields.

Lemma metrics_set_alerts a r : Repository.metrics (Repository.set_alerts a r) = Repository.metrics r.
Proof. reflexivity. Qed.
#[global] Hint Rewrite metrics_set_alerts : repo_fields.

Lemma alerts_set_alerts a r : Repository.alerts (Repository.set_alerts a r) = a.
Proof. reflexivity. Qed.
#[global] Hint Rewrite alerts_set_alerts : repo_fields.

Lemma owner_set_counters s f o w r : Repository.owner (Repository.set_counters s f o w r) = Repository.owner r.
Proof. reflexivity. Qed.
#[global] Hint Rewrite owner_set_counters : repo_fields.

Lemma name_set_counters s f o w r : Repository.name (Repository.set_counters s f o w r) = Repository.name r.
Proof. reflexivity. Qed.
#[global] Hint Rewrite name_set_counters : repo_fields.

Lemma fullName_set_counters s f o w r : Repository.fullName (Repository.set_counters s f o w r) = Repository.fullName r.
Proof. reflexivity. Qed.
#[global] Hint Rewrite fullName_set_counters : repo_fields.

Lemma description_set_counters s f o w r : Repository.description (Repository.set_counters s f o w r) = Repository.description r.
Proof. reflexivity. Qed.
#[global] Hint Rewrite description_set_counters : repo_fields.

Lemma url_set_counters s f o w r : Repository.url (Repository.set_counters s f o w r) = Repository.url r.
Proof. reflexivity. Qed.
#[global] Hint Rewrite url_set_counters : repo_fields.

Lemma apiUrl_set_counters s f o w r : Repository.apiUrl (Repository.set_counters s f o w r) = Repository.apiUrl r.
Proof. reflexivity. Qed.
#[global] Hint Rewrite apiUrl_set_counters : repo_fields.

Lemma stars_set_counters s f o w r : Repository.stars (Repository.set_counters s f o w r) = s.
Proof. reflexivity. Qed.
#[global] Hint Rewrite stars_set_counters : repo_fields.

Lemma forks_set_counters s f o w r : Repository.forks (Repository.set_counters s f o w r) = f.
Proof. reflexivity. Qed.
#[global] Hint Rewrite forks_set_counters : repo_fields.

Lemma openIssues_set_counters s f o w r : Repository.openIssues (Repository.set_counters s f o w r) = o.
Proof. reflexivity. Qed.
#[global] Hint Rewrite openIssues_set_counters : repo_fields.

Lemma watchers_set_counters s f o w r : Repository.watchers (Repository.set_counters s f o w r) = w.
Proof. reflexivity. Qed.
#[global] Hint Rewrite watchers_set_counters : repo_fields.

Lemma defaultBranch_set_counters s f o w r : Repository.defaultBranch (Repository.set_counters s f o w r) = Repository.defaultBranch r.
Proof. reflexivity. Qed.
#[global] Hint Rewrite defaultBranch_set_counters : repo_fields.

Lemma lastFetched_set_counters s f o w r : Repository.lastFetched (Repository.set_counters s f o w r) = Repository.lastFetched r.
Proof. reflexivity. Qed.
#[global] Hint Rewrite lastFetched_set_counters : repo_fields.

Lemma users_set_counters s f o w r : Repository.users (Repository.set_counters s f o w r) = Repository.users r.
Proof. reflexivity. Qed.
#[global] Hint Rewrite users_set_counters : repo_fields.

Lemma metrics_set_counters s f o w r : Repository.metrics (Repository.set_counters s f o w r) = Repository.metrics r.
Proof. reflexivity. Qed.
#[global] Hint Rewrite metrics_set_counters : repo_fields.

Lemma alerts_set_counters s f o w r : Repository.alerts (Repository.set_counters s f o w r) = Repository.alerts r.
Proof. reflexivity. Qed.
#[global] Hint Rewrite alerts_set_counters : repo_fields.

Lemma Metrics_commits_set_commits x m : Metrics.commits (Metrics.set_commits x m) = x.
Proof. reflexivity. Qed.
#[global] Hint Rewrite Metrics_commits_set_commits : repo_fields.

Lemma Metrics_pullRequests_set_commits x m : Metrics.pullRequests (Metrics.set_commits x m) = Metrics.pullRequests m.
Proof. reflexivity. Qed.
#[global] Hint Rewrite Metrics_pullRequests_set_commits : repo_fields.

Lemma Metrics_issues_set_commits x m : Metrics.issues (Metrics.set_commits x m) = Metrics.issues m.
Proof. reflexivity. Qed.
#[global] Hint Rewrite Metrics_issues_set_commits : repo_fields.

Lemma Metrics_contributors_set_commits x m : Metrics.contributors (Metrics.set_commits x m) = Metrics.contributors m.
Proof. reflexivity. Qed.
#[global] Hint Rewrite Metrics_contributors_set_commits : repo_fields.

Lemma Metrics_mergeTime_set_commits x m : Metrics.mergeTime (Metrics.set_commits x m) = Metrics.mergeTime m.
Proof. reflexivity. Qed.
#[global] Hint Rewrite Metrics_mergeTime_set_commits : repo_fields.

Lemma Metrics_commits_set_pullRequests x m : Metrics.commits (Metrics.set_pullRequests x m) = Metrics.commits m.
Proof. reflexivity. Qed.
#[global] Hint Rewrite Metrics_commits_set_pullRequests : repo_fields.

Lemma Metrics_pullRequests_set_pullRequests x m : Metrics.pullRequests (Metrics.set_pullRequests x m) = x.
Proof. reflexivity. Qed.
#[global] Hint Rewrite Metrics_pullRequests_set_pullRequests : repo_fields.

Lemma Metrics_issues_set_pullRequests x m : Metrics.issues (Metrics.set_pullRequests x m) = Metrics.issues m.
Proof. reflexivity. Qed.
#[global] Hint Rewrite Metrics_issues_set_pullRequests : repo_fields.

Lemma Metrics_contributors_set_pullRequests x m : Metrics.contributors (Metrics.set_pullRequests x m) = Metrics.contributors m.
Proof. reflexivity. Qed.
#[global] Hint Rewrite Metrics_contributors_set_pullRequests : repo_fields.

Lemma Metrics_mergeTime_set_pullRequests x m : Metrics.mergeTime (Metrics.set_pullRequests x m) = Metrics.mergeTime m.
Proof. reflexivity. Qed.
#[global] Hint Rewrite Metrics_mergeTime_set_pullRequests : repo_fields.

Lemma Metrics_commits_set_issues x m : Metrics.commits (Metrics.set_issues x m) = Metrics.commits m.
Proof. reflexivity. Qed.
#[global] Hint Rewrite Metrics_commits_set_issues : repo_fields.

Lemma Metrics_pullRequests_set_issues x m : Metrics.pullRequests (Metrics.set_issues x m) = Metrics.pullRequests m.
Proof. reflexivity. Qed.
#[global] Hint Rewrite Metrics_pullRequests_set_issues : repo_fields.

Lemma Metrics_issues_set_issues x m : Metrics.issues (Metrics.set_issues x m) = x.
Proof. reflexivity. Qed.
#[global] Hint Rewrite Metrics_issues_set_issues : repo_fields.

Lemma Metrics_contributors_set_issues x m : Metrics.contributors (Metrics.set_issues x m) = Metrics.contributors m.
Proof. reflexivity. Qed.
#[global] Hint Rewrite Metrics_contributors_set_issues : repo_fields.

Lemma Metrics_mergeTime_set_issues x m : Metrics.mergeTime (Metrics.set_issues x m) = Metrics.mergeTime m.
Proof. reflexivity. Qed.
#[global] Hint Rewrite Metrics_mergeTime_set_issues : repo_fields.

Lemma Metrics_commits_set_contributors x m : Metrics.commits (Metrics.set_contributors x m) = Metrics.commits m.
Proof. reflexivity. Qed.
#[global] Hint Rewrite Metrics_commits_set_contributors : repo_fields.

Lemma Metrics_pullRequests_set_contributors x m : Metrics.pullRequests (Metrics.set_contributors x m) = Metrics.pullRequests m.
Proof. reflexivity. Qed.
#[global] Hint Rewrite Metrics_pullRequests_set_contributors : repo_fields.

Lemma Metrics_issues_set_contributors x m : Metrics.issues (Metrics.set_contributors x m) = Metrics.issues m.
Proof. reflexivity. Qed.
#[global] Hint Rewrite Metrics_issues_set_contributors : repo_fields.

Lemma Metrics_contributors_set_contributors x m : Metrics.contributors (Metrics.set_contributors x m) = x.
Proof. reflexivity. Qed.
#[global] Hint Rewrite Metrics_contributors_set_contributors : repo_fields.

Lemma Metrics_mergeTime_set_contributors x m : Metrics.mergeTime (Metrics.set_contributors x m) = Metrics.mergeTime m.
Proof. reflexivity. Qed.
#[global] Hint Rewrite Metrics_mergeTime_set_contributors : repo_fields.

Lemma Metrics_commits_set_mergeTime x m : Metrics.commits (Metrics.set_mergeTime x m) = Metrics.commits m.
Proof. reflexivity. Qed.
#[global] Hint Rewrite Metrics_commits_set_mergeTime : repo_fields.

Lemma Metrics_pullRequests_set_mergeTime x m : Metrics.pullRequests (Metrics.set_mergeTime x m) = Metrics.pullRequests m.
Proof. reflexivity. Qed.
#[global] Hint Rewrite Metrics_pullRequests_set_mergeTime : repo_fields.

Lemma Metrics_issues_set_mergeTime x m : Metrics.issues (Metrics.set_mergeTime x m) = Metrics.issues m.
Proof. reflexivity. Qed.
#[global] Hint Rewrite Metrics_issues_set_mergeTime : repo_fields.

Lemma Metrics_contributors_set_mergeTime x m : Metrics.contributors (Metrics.set_mergeTime x m) = Metrics.contributors m.
Proof. reflexivity. Qed.
#[global] Hint Rewrite Metrics_contributors_set_mergeTime : repo_fields.

Lemma Metrics_mergeTime_set_mergeTime x m : Metrics.mergeTime (Metrics.set_mergeTime x m) = x.
Proof. reflexivity. Qed.
#[global] Hint Rewrite Metrics_mergeTime_set_mergeTime : repo_fields.

Lemma Alerts_noActivity_set_noActivity b a : Alerts.noActivity (Alerts.set_noActivity b a) = b.
Proof. reflexivity. Qed.
#[global] Hint Rewrite Alerts_noActivity_set_noActivity : repo_fields.

Lemma Alerts_longOpenPRs_set_noActivity b a : Alerts.longOpenPRs (Alerts.set_noActivity b a) = Alerts.longOpenPRs a.
Proof. reflexivity. Qed.
#[global] Hint Rewrite Alerts_longOpenPRs_set_noActivity : repo_fields.

Lemma Alerts_commitDrops_set_noActivity b a : Alerts.commitDrops (Alerts.set_noActivity b a) = Alerts.commitDrops a.
Proof. reflexivity. Qed.
#[global] Hint Rewrite Alerts_commitDrops_set_noActivity : repo_fields.

Lemma Alerts_noActivity_set_longOpenPRs b a : Alerts.noActivity (Alerts.set_longOpenPRs b a) = Alerts.noActivity a.
Proof. reflexivity. Qed.
#[global] Hint Rewrite Alerts_noActivity_set_longOpenPRs : repo_fields.

Lemma Alerts_longOpenPRs_set_longOpenPRs b a : Alerts.longOpenPRs (Alerts.set_longOpenPRs b a) = b.
Proof. reflexivity. Qed.
#[global] Hint Rewrite Alerts_longOpenPRs_set_longOpenPRs : repo_fields.

Lemma Alerts_commitDrops_set_longOpenPRs b a : Alerts.commitDrops (Alerts.set_longOpenPRs b a) = Alerts.commitDrops a.
Proof. reflexivity. Qed.
#[global] Hint Rewrite Alerts_commitDrops_set_longOpenPRs : repo_fields.

Lemma Alerts_noActivity_set_commitDrops b a : Alerts.noActivity (Alerts.set_commitDrops b a) = Alerts.noActivity a.
Proof. reflexivity. Qed.
#[global] Hint Rewrite Alerts_noActivity_set_commitDrops : repo_fields.

Lemma Alerts_longOpenPRs_set_commitDrops b a : Alerts.longOpenPRs (Alerts.set_commitDrops b a) = Alerts.longOpenPRs a.
Proof. reflexivity. Qed.
#[global] Hint Rewrite Alerts_longOpenPRs_set_commitDrops : repo_fields.

Lemma Alerts_commitDrops_set_commitDrops b a : Alerts.commitDrops (Alerts.set_commitDrops b a) = b.
Proof. reflexivity. Qed.
#[global] Hint Rewrite Alerts_commitDrops_set_commitDrops : repo_fields.


(** The steps of the refresh that do not branch, as setters. *)
Lemma updateBasicInfo_eq gr r :
  updateBasicInfo gr r
  = Repository.set_counters (Github.stargazers_count gr) (Github.forks_count gr)
      (Github.open_issues_count gr) (Github.watchers_count gr) r.
Proof. reflexivity. Qed.

Lemma updateCommits_eq wk r :
  updateCommits wk r
  = Repository.set_metrics
      (Metrics.set_commits
         (Commits.mk (foldl (λ sum count, sum + count)%Z 0%Z (map Github.total wk))
            (map Github.total wk))
         (Repository.metrics r)) r.
Proof. reflexivity. Qed.

Lemma updatePullRequests_eq op cl r :
  updatePullRequests op cl r
  = Repository.set_metrics
      (Metrics.set_pullRequests
         (PullRequests.mk (len op)
            (len (filter (λ pr, Github.merged_at pr = None) cl))
            (len (filter (λ pr, is_Some (Github.merged_at pr)) cl)))
         (Repository.metrics r)) r.
Proof. reflexivity. Qed.

Lemma updateIssues_eq oi ci r :
  updateIssues oi ci r
  = Repository.set_metrics
      (Metrics.set_issues (Issues.mk (len oi) (len ci)) (Repository.metrics r)) r.
Proof. reflexivity. Qed.

Lemma updateContributors_eq co r :
  updateContributors co r
  = Repository.set_metrics (Metrics.set_contributors (len co) (Repository.metrics r)) r.
Proof. reflexivity. Qed.

Lemma checkNoActivity_eq r :
  checkNoActivity r
  = Repository.set_alerts
      (Alerts.set_noActivity
         (bool_decide
            (head (slice_last 1 (Commits.weekly (Metrics.commits (Repository.metrics r))))
             = Some 0%Z))
         (Repository.alerts r)) r.
Proof. reflexivity. Qed.

Lemma checkLongOpenPRs_eq now op r :
  checkLongOpenPRs now op r
  = Repository.set_alerts
      (Alerts.set_longOpenPRs
         (existsb (λ pr,
                     bool_decide
                       (num 14 < num (now - Github.created_at pr)
                                 / num (1000 * 60 * 60 * 24))%Qc) op)
         (Repository.alerts r)) r.
Proof. reflexivity. Qed.
#[global] Hint Rewrite updateBasicInfo_eq updateCommits_eq updatePullRequests_eq
  updateIssues_eq updateContributors_eq checkNoActivity_eq checkLongOpenPRs_eq
  : repo_fields.

(** The two steps that branch change one field each. *)
Lemma updateMergeTime_shape cl r :
  updateMergeTime cl r
  = Repository.set_metrics
      (Metrics.set_mergeTime
         (Metrics.mergeTime (Repository.metrics (updateMergeTime cl r)))
         (Repository.metrics r)) r.
Proof.
  unfold updateMergeTime. case_bool_decide; [reflexivity|].
  by destruct r as [? ? ? ? ? ? ? ? ? ? ? ? ? [] ?].
Qed.

Lemma checkCommitDrops_shape r :
  checkCommitDrops r
  = Repository.set_alerts
      (Alerts.set_commitDrops
         (Alerts.commitDrops (Repository.alerts (checkCommitDrops r)))
         (Repository.alerts r)) r.
Proof.
  unfold checkCommitDrops.
  repeat (case_bool_decide || case_match); try reflexivity.
  by destruct r as [? ? ? ? ? ? ? ? ? ? ? ? ? ? []].
Qed.

(** Expose a refreshed document as setters over the stored one. *)
Ltac refresh_frame :=
  unfold refreshed;
  rewrite checkCommitDrops_shape;
  rewrite (updateMergeTime_shape _ (updatePullRequests _ _ _));
  autorewrite with repo_fields.

Lemma refreshed_weekly gr wk op cl oi ci co now r :
  Commits.weekly (Metrics.commits (Repository.metrics (refreshed gr wk op cl oi ci co now r)))
  = map Github.total wk.
Proof. refresh_frame. reflexivity. Qed.

Lemma refreshed_mergeTime gr wk op cl oi ci co now r :
  Metrics.mergeTime (Repository.metrics (refreshed gr wk op cl oi ci co now r))
  = Metrics.mergeTime
      (Repository.metrics
         (updateMergeTime cl (updatePullRequests op cl (updateCommits wk (updateBasicInfo gr r))))).
Proof. refresh_frame. reflexivity. Qed.

(** *** The merge-time step *)

Lemma num_0 : num 0 = 0%Qc.
Proof. apply Z2Qc_inj_0. Qed.

Lemma foldl_merge_hours acc prs :
  foldl (λ sum pr,
           sum + num (getTime (Github.merged_at pr) - Github.created_at pr)
                 / num (1000 * 60 * 60))%Qc acc prs
  = (acc + num (sum_merge_ms prs) / num 3600000)%Qc.
Proof.
  revert acc. induction prs as [|pr prs IH]; intros acc; simpl.
  - rewrite num_0. unfold Qcdiv. ring.
  - rewrite IH. unfold num. rewrite Z2Qc_inj_add.
    change (1000 * 60 * 60)%Z with 3600000%Z. unfold Qcdiv. ring.
Qed.

(** With at least one merged pull request the step stores the mean. *)
Lemma updateMergeTime_mean cl r :
  filter merged cl ≠ [] →
  Metrics.mergeTime (Repository.metrics (updateMergeTime cl r))
  = mean_merge_hours (filter merged cl).
Proof.
  intros Hne. unfold updateMergeTime. fold merged.
  case_bool_decide as Hlen.
  - simpl. rewrite foldl_merge_hours. unfold mean_merge_hours.
    rewrite num_0. unfold Qcdiv. ring.
  - destruct (filter merged cl); [done | simpl in Hlen; lia].
Qed.

(** With no merged pull request the step leaves the document as it was:
    the previously stored [mergeTime] stays. *)
Lemma updateMergeTime_none cl r :
  filter merged cl = [] → updateMergeTime cl r = r.
Proof.
  intros He. unfold updateMergeTime. fold merged.
  case_bool_decide as Hlen; [|done].
  rewrite He in Hlen. simpl in Hlen. lia.
Qed.

(** *** The commit-drop step *)

Lemma slice_last_1_head {A} (l : list A) : head (slice_last 1 l) = last l.
Proof.
  unfold slice_last. rewrite head_lookup, lookup_drop, Nat.add_0_r.
  rewrite last_lookup. f_equal. lia.
Qed.

Lemma slice_last_2_head {A} (l : list A) :
  (2 ≤ length l)%nat → head (slice_last 2 l) = l !! (length l - 2)%nat.
Proof.
  intros _. unfold slice_last.
  by rewrite head_lookup, lookup_drop, Nat.add_0_r.
Qed.

Lemma checkCommitDrops_spec r :
  let weekly := Commits.weekly (Metrics.commits (Repository.metrics r)) in
  ((2 ≤ length weekly)%nat →
     ∃ previous current,
       weekly !! (length weekly - 2)%nat = Some previous ∧
       last weekly = Some current ∧
       (Alerts.commitDrops (Repository.alerts (checkCommitDrops r)) = true
        ↔ commit_drop previous current)) ∧
  ((length weekly < 2)%nat → checkCommitDrops r = r).
Proof.
  intros weekly. unfold checkCommitDrops. fold weekly. split.
  - intros Hlen. rewrite bool_decide_true by done.
    rewrite slice_last_1_head, slice_last_2_head by done.
    destruct (lookup_lt_is_Some_2 weekly (length weekly - 2)) as [p Hp]; [lia|].
    destruct (last weekly) as [c|] eqn:Hc.
    2:{ apply last_None in Hc. rewrite Hc in Hlen. simpl in Hlen. lia. }
    exists p, c. rewrite Hp. split_and!; [done..|].
    unfold commit_drop.
    repeat case_bool_decide; simpl; intuition congruence.
  - intros Hlen. rewrite bool_decide_false by lia. done.
Qed.

Section RefreshProperties.

Variable fault : nat → option exn.
Variable clock : nat → Date.
Variable githubService : Github.Service.

Local Arguments updateBasicInfo : simpl never.
Local Arguments updateCommits : simpl never.
Local Arguments updatePullRequests : simpl never.
Local Arguments updateMergeTime : simpl never.
Local Arguments updateIssues : simpl never.
Local Arguments updateContributors : simpl never.
Local Arguments checkNoActivity : simpl never.
Local Arguments checkLongOpenPRs : simpl never.
Local Arguments checkCommitDrops : simpl never.

Ltac refresh_unfold :=
  unfold updateRepoMetrics, try_catch, bind, Repository_findById,
    Repository_save, await, settle, throw, Date_now, console_error.

Ltac refresh_step :=
  match goal with
  | |- context [match fault ?t with _ => _ end] =>
      let F := fresh "F" in destruct (fault t) eqn:F
  | |- context [match ?x with Ok _ => _ | Throw _ => _ end] =>
      let G := fresh "G" in destruct x eqn:G
  | |- context [pair ?k <$> ?m !! ?k] =>
      let L := fresh "L" in destruct (m !! k) eqn:L
  end; simpl.

(** A refresh that returns normally found the repository, had every GitHub
    call settle, and stored exactly the [refreshed] document. *)
Lemma updateRepoMetrics_Ok repoId tok w w' :
  updateRepoMetrics fault clock githubService repoId tok w = (w', Ok tt) →
  ∃ r gr wk op cl oi ci co,
    DB.repositories (db w) !! repoId = Some r ∧
    Github.getRepo githubService tok (Repository.owner r) (Repository.name r) = Ok gr ∧
    Github.getWeeklyCommitActivity githubService tok (Repository.owner r) (Repository.name r) = Ok wk ∧
    Github.getRepoPullRequests githubService tok (Repository.owner r) (Repository.name r) Github.open = Ok op ∧
    Github.getRepoPullRequests githubService tok (Repository.owner r) (Repository.name r) Github.closed = Ok cl ∧
    Github.getRepoIssues githubService tok (Repository.owner r) (Repository.name r) Github.open = Ok oi ∧
    Github.getRepoIssues githubService tok (Repository.owner r) (Repository.name r) Github.closed = Ok ci ∧
    Github.getRepoContributors githubService tok (Repository.owner r) (Repository.name r) = Ok co ∧
    DB.repositories (db w') =
      <[repoId := refreshed gr wk op cl oi ci co (clock (S (tick w))) r]>
        (DB.repositories (db w)) ∧
    DB.users (db w') = DB.users (db w) ∧
    DB.alerts (db w') = DB.alerts (db w) ∧
    DB.reports (db w') = DB.reports (db w).
Proof.
  refresh_unfold.
  repeat refresh_step; try discriminate.
  intros [= <-]. simpl in *.
  repeat esplit; eauto.
Qed.

(** A refresh that throws has written nothing. *)
Lemma updateRepoMetrics_Throw repoId tok w w' e :
  updateRepoMetrics fault clock githubService repoId tok w = (w', Throw e) →
  db w' = db w.
Proof.
  refresh_unfold.
  repeat refresh_step; try discriminate; intros [= <- _]; reflexivity.
Qed.

(** What a successful refresh leaves in [mergeTime]: the mean over the
    merged pull requests it fetched when there is one, and otherwise the
    value that was stored before. *)
Lemma updateRepoMetrics_mergeTime repoId tok w w' r cl :
  updateRepoMetrics fault clock githubService repoId tok w = (w', Ok tt) →
  DB.repositories (db w) !! repoId = Some r →
  Github.getRepoPullRequests githubService tok (Repository.owner r) (Repository.name r)
    Github.closed = Ok cl →
  ∃ r', DB.repositories (db w') !! repoId = Some r' ∧
        (filter merged cl ≠ [] →
           Metrics.mergeTime (Repository.metrics r') = mean_merge_hours (filter merged cl)) ∧
        (filter merged cl = [] →
           Metrics.mergeTime (Repository.metrics r')
           = Metrics.mergeTime (Repository.metrics r)).
Proof.
  intros Hrun Hr Hcl.
  apply updateRepoMetrics_Ok in Hrun
    as (r0 & gr & wk & op & cl0 & oi & ci & co & Hr0 & _ & _ & _ & Hcl0 & _ & _ & _ & Hdb & _).
  assert (r0 = r) as -> by congruence.
  assert (cl0 = cl) as -> by congruence.
  eexists. split.
  { rewrite Hdb. apply lookup_insert_eq. }
  rewrite refreshed_mergeTime. split; intros Hm.
  - by apply updateMergeTime_mean.
  - by rewrite updateMergeTime_none.
Qed.

(** C2: after a refresh whose fetched weekly series has at least two
    entries, the stored [commitDrops] flag is true exactly when the previous
    week's count is positive and the current week's count is zero or less
    than 0.3 of the previous one (and false otherwise); with fewer than two
    entries the flag keeps the value it had before the refresh. *)
Theorem C2_commitDrops_after_refresh repoId tok w w' r wk :
  updateRepoMetrics fault clock githubService repoId tok w = (w', Ok tt) →
  DB.repositories (db w) !! repoId = Some r →
  Github.getWeeklyCommitActivity githubService tok (Repository.owner r) (Repository.name r)
    = Ok wk →
  let weekly := map Github.total wk in
  ∃ r', DB.repositories (db w') !! repoId = Some r' ∧
        Commits.weekly (Metrics.commits (Repository.metrics r')) = weekly ∧
        ((2 ≤ length weekly)%nat →
           ∃ previous current,
             weekly !! (length weekly - 2)%nat = Some previous ∧
             last weekly = Some current ∧
             (Alerts.commitDrops (Repository.alerts r') = true
              ↔ commit_drop previous current)) ∧
        ((length weekly < 2)%nat →
           Alerts.commitDrops (Repository.alerts r')
           = Alerts.commitDrops (Repository.alerts r)).
Proof.
  intros Hrun Hr Hwk weekly.
  apply updateRepoMetrics_Ok in Hrun
    as (r0 & gr & wk0 & op & cl & oi & ci & co & Hr0 & _ & Hwk0 & _ & _ & _ & _ & _ & Hdb & _).
  assert (r0 = r) as -> by congruence.
  assert (wk0 = wk) as -> by congruence.
  eexists. split.
  { rewrite Hdb. apply lookup_insert_eq. }
  split; [apply refreshed_weekly|].
  unfold refreshed.
  set (before :=
         checkLongOpenPRs (clock (S (tick w))) op
           (checkNoActivity
              (updateContributors co
                 (updateIssues oi ci
                    (updateMergeTime cl
                       (updatePullRequests op cl
                          (updateCommits wk (updateBasicInfo gr r)))))))).
  rewrite alerts_set_lastFetched.
  assert (Hweekly : Commits.weekly (Metrics.commits (Repository.metrics before)) = weekly).
  { subst before. rewrite (updateMergeTime_shape _ (updatePullRequests _ _ _)).
    autorewrite with repo_fields. reflexivity. }
  destruct (checkCommitDrops_spec before) as [Hge Hlt].
  rewrite Hweekly in Hge, Hlt. split; [exact Hge|].
  intros Hshort. rewrite (Hlt Hshort). subst before.
  rewrite (updateMergeTime_shape _ (updatePullRequests _ _ _)).
  autorewrite with repo_fields. reflexivity.
Qed.

(** C5: when a GitHub call of a refresh fails, the refresh throws and the
    database is exactly as before; with the repository lookup itself
    unfaulted, the error thrown is the one of the first failing call. *)
Theorem C5_refresh_aborts_on_github_failure repoId tok w r e :
  DB.repositories (db w) !! repoId = Some r →
  first_failure
    (github_calls githubService tok (Repository.owner r) (Repository.name r)) = Some e →
  ∃ w' e',
    updateRepoMetrics fault clock githubService repoId tok w = (w', Throw e') ∧
    db w' = db w ∧
    (fault (tick w) = None → e' = e).
Proof.
  intros Hr Hfail.
  destruct (updateRepoMetrics fault clock githubService repoId tok w)
    as [w' [[]|e']] eqn:Hrun.
  - exfalso.
    apply updateRepoMetrics_Ok in Hrun
      as (r0 & gr & wk & op & cl & oi & ci & co & Hr0 & H1 & H2 & H3 & H4 & H5 & H6 & H7 & _).
    assert (r0 = r) as -> by congruence.
    unfold github_calls in Hfail.
    rewrite H1, H2, H3, H4, H5, H6, H7 in Hfail. discriminate.
  - exists w', e'. split; [done|]. split.
    + by eapply updateRepoMetrics_Throw.
    + intros F0. revert Hrun Hfail. unfold github_calls.
      refresh_unfold. rewrite F0. simpl. rewrite Hr. simpl.
      repeat refresh_step; simpl; try discriminate; congruence.
Qed.

End RefreshProperties.

(** ** The weekly report run *)

(** The users a run selects and the repositories a user subscribes to. *)
Definition weekly_subscribers (users : gmap ObjectId User.t) : list (Doc User.t) :=
  filter
    (λ d : Doc User.t,
       EmailReports.enabled (User.emailReports (fields d)) = true
       ∧ EmailReports.frequency (User.emailReports (fields d)) = weekly_)
    (map_to_list users).

Definition subscribed (repositories : gmap ObjectId Repository.t) (userId : ObjectId)
    : list (Doc Repository.t) :=
  filter (λ d : Doc Repository.t, userId ∈ Repository.users (fields d))
    (map_to_list repositories).





(** *** What processing an item amounts to

    The run is described item by item, without exceptions: each relation
    below gives the world an item leaves behind, in terms of the item's own
    awaited operations only. *)

Definition logged (line : LogLine) (w : World) : World :=
  mkWorld (db w) (console w ++ [line]) (outbox w) (tick w).

(** [stored report w]: the world once the save of [report], awaited in [w],
    has settled. *)
Definition stored (report : Doc Report.t) (w : World) : World :=
  next_tick (set_db (DB.set_reports (<[_id report := fields report]> (DB.reports (db w)))
                       (db w)) w).

(** The record the run constructs for an item in world [w]. *)
Definition weekly_report (clock : nat → Date) (getStartOfWeek getEndOfWeek : Date → Date)
    (user : Doc User.t) (repo : Doc Repository.t) (w : World) : Doc Report.t :=
  (fresh (dom (DB.reports (db w))),
   Report.mk (_id user) (_id repo) weekly_
     (getStartOfWeek (clock (tick w))) (getEndOfWeek (clock (tick w)))
     ReportData.defaults None pending (clock (tick w))).

Definition item_error (repo : Doc Repository.t) (e : exn) : LogLine :=
  LogError ("Error generating report for repository "
            +:+ Repository.fullName (fields repo) +:+ ":") e.

Definition user_error (user : Doc User.t) (e : exn) : LogLine :=
  LogError ("Error processing reports for user "
            +:+ User.username (fields user) +:+ ":") e.

(** [each step xs w w']: the elements of [xs] are processed one after the
    other, each from the world its predecessor left. *)
Inductive each {A} (step : A → World → World → Prop) : list A → World → World → Prop :=
| each_nil w : each step [] w w
| each_cons x xs w w1 w2 :
    step x w w1 → each step xs w1 w2 → each step (x :: xs) w w2.

Section ReportRun.

Variable fault : nat → option exn.
Variable clock : nat → Date.
Variable getStartOfWeek getEndOfWeek : Date → Date.
Variable imports : NamedImports.

(** One (user, repository) item, started in [w]: the record cannot be
    constructed; or its save is rejected with [e]; or the record is stored,
    ['pending'], and rendering the mail throws.  In each case the error is
    logged on the item's own line and nothing is sent. *)
Inductive item_processed (user : Doc User.t) (repo : Doc Repository.t) (w : World)
    : World → Prop :=
| item_not_constructed :
    Report_bound imports = false →
    item_processed user repo w (logged (item_error repo (not_a_constructor "Report")) w)
| item_save_rejected e :
    Report_bound imports = true →
    fault (tick w) = Some e →
    item_processed user repo w (logged (item_error repo e) (next_tick w))
| item_stored_not_rendered :
    Report_bound imports = true →
    fault (tick w) = None →
    item_processed user repo w
      (logged (item_error repo (TypeError_reading "opened"))
         (stored (weekly_report clock getStartOfWeek getEndOfWeek user repo w) w)).

(** One user, started in [w]: the repository query cannot be made, or is
    rejected with [e], and the error is logged on the user's own line; or it
    answers, and every repository the user subscribes to is processed. *)
Inductive user_processed (user : Doc User.t) (w : World) : World → Prop :=
| user_not_queried :
    Repository_bound imports = false →
    user_processed user w (logged (user_error user (TypeError_reading "find")) w)
| user_query_rejected e :
    Repository_bound imports = true →
    fault (tick w) = Some e →
    user_processed user w (logged (user_error user e) (next_tick w))
| user_repositories w' :
    Repository_bound imports = true →
    fault (tick w) = None →
    each (item_processed user) (subscribed (DB.repositories (db w)) (_id user))
      (logged (Log ("Generating reports for user " +:+ User.username (fields user)
                    +:+ " (" +:+ pretty (length (subscribed (DB.repositories (db w))
                                                   (_id user)))
                    +:+ " repositories)"))
         (next_tick w)) w' →
    user_processed user w w'.

(** A whole run, started in [w]. *)
Inductive run_processed (w : World) : World → Prop :=
| run_not_queried :
    User_bound imports = false →
    run_processed w
      (logged (LogError "Error in weekly reports cron job:" (TypeError_reading "find"))
         (logged (Log "Running weekly reports cron job...") w))
| run_query_rejected e :
    User_bound imports = true →
    fault (tick w) = Some e →
    run_processed w
      (logged (LogError "Error in weekly reports cron job:" e)
         (next_tick (logged (Log "Running weekly reports cron job...") w)))
| run_users w' :
    User_bound imports = true →
    fault (tick w) = None →
    each user_processed (weekly_subscribers (DB.users (db w)))
      (logged (Log ("Found " +:+ pretty (length (weekly_subscribers (DB.users (db w))))
                    +:+ " users with weekly reports enabled"))
         (next_tick (logged (Log "Running weekly reports cron job...") w))) w' →
    run_processed w (logged (Log "Weekly reports cron job completed") w').

End ReportRun.





Section ReportRunProperties.

Variable fault : nat → option exn.
Variable clock : nat → Date.
Variable getStartOfWeek getEndOfWeek : Date → Date.
Variable imports : NamedImports.
Variable reportEmailTemplate : list string → string.

Local Abbreviation run_repository :=
  (reportForRepository fault clock getStartOfWeek getEndOfWeek imports reportEmailTemplate).
Local Abbreviation run_user :=
  (reportsForUser fault clock getStartOfWeek getEndOfWeek imports reportEmailTemplate).
Local Abbreviation run_job :=
  (scheduleWeeklyReports fault clock getStartOfWeek getEndOfWeek imports
     reportEmailTemplate).

Lemma reportForRepository_processed user repo w :
  ∃ w', run_repository user repo w = (w', Ok tt) ∧
        item_processed fault clock getStartOfWeek getEndOfWeek imports user repo w w'.
Proof.
  unfold reportForRepository, try_catch, bind, Date_now, Report_save, new_Report, await,
    settle, throw, console_error.
  destruct (Report_bound imports) eqn:B.
  - destruct (fault (tick w)) as [e|] eqn:F.
    + eexists. split; [reflexivity|]. by apply item_save_rejected.
    + eexists. split; [reflexivity|]. by apply item_stored_not_rendered.
  - eexists. split; [reflexivity|]. by apply item_not_constructed.
Qed.

(** A loop whose body always returns normally, as [step] describes,
    processes every element. *)
Lemma forEach_each {A} (f : A → M unit) (step : A → World → World → Prop) xs :
  (∀ x w, ∃ w', f x w = (w', Ok tt) ∧ step x w w') →
  ∀ w, ∃ w', forEach xs f w = (w', Ok tt) ∧ each step xs w w'.
Proof.
  intros Hf. induction xs as [|x xs IH]; intros w.
  - exists w. split; [done | constructor].
  - destruct (Hf x w) as (w1 & Hrun1 & Hstep1).
    destruct (IH w1) as (w2 & Hrun2 & Hstep2).
    exists w2. split; [|by econstructor].
    simpl. unfold bind. by rewrite Hrun1, Hrun2.
Qed.

Lemma reportsForUser_processed user w :
  ∃ w', run_user user w = (w', Ok tt) ∧
        user_processed fault clock getStartOfWeek getEndOfWeek imports user w w'.
Proof.
  unfold reportsForUser, try_catch. unfold bind at 1.
  destruct (Repository_bound imports) eqn:B.
  - unfold Repository_find_users, await. cbv beta.
    destruct (fault (tick w)) as [e|] eqn:F.
    + eexists. split; [reflexivity|]. by apply user_query_rejected.
    + change (db (next_tick w)) with (db w).
      fold (subscribed (DB.repositories (db w)) (_id user)).
      unfold bind at 1. unfold console_log at 1.
      set (w1 := mkWorld _ _ _ _).
      destruct (forEach_each (run_repository user)
                  (item_processed fault clock getStartOfWeek getEndOfWeek imports user)
                  (subscribed (DB.repositories (db w)) (_id user))
                  (reportForRepository_processed user) w1) as (w2 & Hrun2 & Heach).
      rewrite Hrun2. eexists. split; [reflexivity|]. by apply user_repositories.
  - eexists. split; [reflexivity|]. by apply user_not_queried.
Qed.

Lemma scheduleWeeklyReports_processed w :
  ∃ w', run_job w = (w', Ok tt) ∧
        run_processed fault clock getStartOfWeek getEndOfWeek imports w w'.
Proof.
  unfold scheduleWeeklyReports, try_catch. unfold bind at 1. unfold console_log at 1.
  unfold bind at 1.
  destruct (User_bound imports) eqn:B.
  - unfold User_find_weekly, await. cbv beta.
    cbn [tick db console outbox next_tick].
    destruct (fault (tick w)) as [e|] eqn:F.
    + eexists. split; [reflexivity|]. by apply run_query_rejected.
    + fold (weekly_subscribers (DB.users (db w))).
      unfold bind at 1. unfold console_log at 1.
      set (w1 := mkWorld _ _ _ _).
      destruct (forEach_each run_user
                  (user_processed fault clock getStartOfWeek getEndOfWeek imports)
                  (weekly_subscribers (DB.users (db w)))
                  reportsForUser_processed w1) as (w2 & Hrun2 & Heach).
      unfold bind at 1. rewrite Hrun2. unfold console_log.
      eexists. split; [reflexivity|]. by apply run_users.
  - eexists. split; [reflexivity|]. by apply run_not_queried.
Qed.




(** C3: whatever the awaited operations of a weekly report run do, and
    whatever the named imports are bound to, the run returns normally and
    processes every item.  Once the user query has answered, each selected
    user is processed in turn; once a user's repository query has answered,
    each of the user's repositories is processed in turn; and what an item
    does -- whether its record is stored, and the error its own line
    carries -- depends on the item's own operations only, never on an error
    of an earlier item. *)
Theorem C3_weekly_run_isolates_failures w :
  ∃ w', scheduleWeeklyReports fault clock getStartOfWeek getEndOfWeek imports
          reportEmailTemplate w = (w', Ok tt) ∧
        run_processed fault clock getStartOfWeek getEndOfWeek imports w w'.
Proof. apply scheduleWeeklyReports_processed. Qed.


End ReportRunProperties.

(** ** Sample data *)

Definition no_fault : nat → option exn := λ _, None.
Definition sample_clock : nat → Date := λ n, (1700000000000 + 1000 * Z.of_nat n)%Z.

Definition ada : User.t :=
  User.mk "583231" "ada" "ada@example.org" None "gho_token" None
    (EmailReports.mk true weekly_ None) [10].

Definition empty_metrics : Metrics.t :=
  Metrics.mk (Commits.mk 0%Z []) (PullRequests.mk 0%Z 0%Z 0%Z) (Issues.mk 0%Z 0%Z)
    0%Z (num 0).

Definition demo : Repository.t :=
  Repository.mk "octo" "demo" "octo/demo" None "https://github.com/octo/demo"
    "https://api.github.com/repos/octo/demo" 0%Z 0%Z 0%Z 0%Z "main" 0%Z [1]
    empty_metrics (Alerts.mk false false false).

Definition sample_db : DB.t :=
  DB.mk {[ 1 := ada ]} {[ 10 := demo ]} ∅ ∅.

Definition sample_world : World := mkWorld sample_db [] [] 0.

(** A GitHub that answers every call, with the given weekly totals and
    closed pull requests. *)
Definition sample_github (weeks : list Z) (closedPRs : list Github.PullRequest)
    : Github.Service :=
  Github.mkService
    (λ _ _ _, Ok (Github.mkRepo 3%Z 1%Z 0%Z 3%Z))
    (λ _ _ _, Ok (map Github.mkWeek weeks))
    (λ _ _ _ state,
       match state with Github.open => Ok [] | Github.closed => Ok closedPRs end)
    (λ _ _ _ _, Ok [])
    (λ _ _ _, Ok [Github.mkContributor "ada"]).

Example sample_refresh :
  Metrics.mergeTime <$>
    (Repository.metrics <$>
       DB.repositories
         (db (updateRepoMetrics no_fault sample_clock
                (sample_github [5; 5; 0]%Z [Github.mkPullRequest 0%Z (Some 36000000%Z)])
                10 "gho_token" sample_world).1) !! 10)
  = Some (num 10).
Proof. vm_compute. f_equal. by apply Qc_is_canon. Qed.

(** ** Alerts *)

(** The operations of the alert API that write alert records. *)
Inductive AlertOp :=
| OpCreateAlert (req_user : ObjectId) (req_body : CreateAlertBody)
| OpUpdateAlertStatus (req_user : ObjectId) (id : ObjectId) (status : option string).

Definition alert_step (fault : nat → option exn) (clock : nat → Date) (op : AlertOp)
    : World → World * Response :=
  match op with
  | OpCreateAlert req_user req_body => createAlert fault req_user req_body
  | OpUpdateAlertStatus req_user id status => updateAlertStatus fault clock req_user id status
  end.

(** An alert is the active alert of a (user, repository, type) triple. *)
Definition active_for (user repository : ObjectId) (type : AlertType) (a : Alert.t) : Prop :=
  Alert.user a = user ∧ Alert.repository a = repository ∧ Alert.type a = type
  ∧ Alert.status a = active.

(** At most one active alert per (user, repository, type). *)
Definition at_most_one_active (alerts : gmap ObjectId Alert.t) : Prop :=
  ∀ i j a b user repository type,
    alerts !! i = Some a → alerts !! j = Some b →
    active_for user repository type a → active_for user repository type b →
    i = j.

Lemma AlertStatus_of_string_active s :
  AlertStatus_of_string s = Some active → s = "active".
Proof. unfold AlertStatus_of_string. repeat case_decide; congruence. Qed.

Lemma head_filter_None {A} (P : A → Prop) `{∀ x, Decision (P x)} (l : list A) :
  head (filter P l) = None → ∀ x, x ∈ l → ¬ P x.
Proof.
  intros Hhead x Hx HP.
  assert (x ∈ filter P l) as Hin by (apply list_elem_of_filter; done).
  destruct (filter P l); [by apply elem_of_nil in Hin | discriminate].
Qed.

Lemma head_filter_Some {A} (P : A → Prop) `{∀ x, Decision (P x)} (l : list A) x :
  x ∈ l → P x → is_Some (head (filter P l)).
Proof.
  intros Hx HP.
  assert (x ∈ filter P l) as Hin by (apply list_elem_of_filter; done).
  destruct (filter P l); [by apply elem_of_nil in Hin | by eexists].
Qed.

Section AlertProperties.

Variable fault : nat → option exn.
Variable clock : nat → Date.

Ltac alert_unfold :=
  unfold createAlert, updateAlertStatus, controller, bind, ret, throw,
    Repository_findById, Alert_findById, Alert_findOne, Alert_create, Alert_save,
    Date_now, await.

Ltac alert_step_tac :=
  match goal with
  | |- context [match fault ?t with _ => _ end] =>
      let F := fresh "F" in destruct (fault t) eqn:F
  | |- context [pair ?k <$> ?m !! ?k] =>
      let L := fresh "L" in destruct (m !! k) eqn:L
  | |- context [bool_decide ?P] =>
      let B := fresh "B" in destruct (bool_decide_reflect P) as [B|B]
  | |- context [match head ?l with _ => _ end] =>
      let E := fresh "E" in destruct (head l) eqn:E
  | |- context [match AlertType_of_string ?s with _ => _ end] =>
      let T := fresh "T" in destruct (AlertType_of_string s) eqn:T
  end; simpl.

(** What [createAlert] does to the alert collection: nothing, unless it
    answers 201, in which case no active alert of the requested triple was
    stored and one is added under a fresh identifier. *)
Lemma createAlert_alerts req_user req_body w w' res :
  createAlert fault req_user req_body w = (w', res) →
  (DB.alerts (db w') = DB.alerts (db w) ∧ statusCode res ≠ 201)
  ∨ (∃ repository ty kind message threshold value,
       repositoryId req_body = Some repository ∧
       type req_body = Some ty ∧
       AlertType_of_string ty = Some kind ∧
       (∀ i a, DB.alerts (db w) !! i = Some a → ¬ active_for req_user repository kind a) ∧
       statusCode res = 201 ∧
       DB.alerts (db w') =
         <[fresh (dom (DB.alerts (db w))) :=
             Alert.mk req_user repository kind message threshold value active None]>
           (DB.alerts (db w))).
Proof.
  destruct req_body as [[rid|] ty msg [th|] [v|]]; alert_unfold; simpl;
    try (intros [= <- <-]; left; simpl; by split).
  destruct (falsy ty || falsy msg) eqn:Hfalsy; simpl.
  { intros [= <- <-]. left. simpl. by split. }
  repeat alert_step_tac; intros [= <- <-]; simpl;
    try (left; by split).
  right. destruct ty as [ty|]; [|done]. simpl in *.
  exists rid, ty, a, (default "" msg), th, v. split_and!; try done.
  intros i al Hi (Hu & Hr & Ht & Hs).
  eapply (head_filter_None _ _ E (i, al)).
  - by apply elem_of_map_to_list.
  - simpl. split_and!; congruence.
Qed.

(** What [updateAlertStatus] does to the alert collection: nothing, or it
    rewrites the addressed record of the requesting owner with the
    requested status. *)
Lemma updateAlertStatus_alerts req_user id status w w' res :
  updateAlertStatus fault clock req_user id status w = (w', res) →
  DB.alerts (db w') = DB.alerts (db w)
  ∨ (∃ st a resolvedAt,
       status ≫= AlertStatus_of_string = Some st ∧
       DB.alerts (db w) !! id = Some a ∧
       Alert.user a = req_user ∧
       statusCode res = 200 ∧
       DB.alerts (db w') =
         <[id := Alert.set_resolvedAt resolvedAt (Alert.set_status st a)]>
           (DB.alerts (db w))).
Proof.
  alert_unfold.
  destruct (status ≫= AlertStatus_of_string) as [st|] eqn:Hst; simpl.
  2:{ intros [= <- <-]. by left. }
  repeat alert_step_tac; intros [= <- <-]; simpl; try (by left).
  all: right; eexists st, _, _; split_and!; try done.
  all: destruct st; simpl in *; try done.
Qed.

Lemma bind_of_string_active status :
  status ≫= AlertStatus_of_string = Some active → status = Some "active".
Proof.
  destruct status as [s|]; simpl; [|done].
  intros H. by rewrite (AlertStatus_of_string_active s H).
Qed.

(** C7 (amended): a resolved or dismissed alert record stays stored, and an
    operation of the alert API leaves it active again only when that
    operation is its owner's [updateAlertStatus] request for ['active'];
    [createAlert] never changes it, and when it answers 201 the new active
    alert is a different record, stored under an identifier that was free. *)
Theorem C7_reactivation_only_on_owner_request op w w' res id a :
  alert_step fault clock op w = (w', res) →
  DB.alerts (db w) !! id = Some a →
  Alert.status a = resolved ∨ Alert.status a = dismissed →
  ∃ a', DB.alerts (db w') !! id = Some a' ∧
    (Alert.status a' = active →
       op = OpUpdateAlertStatus (Alert.user a) id (Some "active")) ∧
    (∀ req_user req_body, op = OpCreateAlert req_user req_body →
       a' = a ∧
       (statusCode res = 201 →
          ∃ id' new,
            id' ≠ id ∧
            DB.alerts (db w) !! id' = None ∧
            DB.alerts (db w') !! id' = Some new ∧
            Alert.status new = active ∧
            Alert.user new = req_user ∧
            repositoryId req_body = Some (Alert.repository new) ∧
            type req_body ≫= AlertType_of_string = Some (Alert.type new))).
Proof.
  intros Hstep Ha Hterminal.
  assert (Hnot : Alert.status a ≠ active) by (destruct Hterminal; congruence).
  destruct op as [req_user req_body | req_user id0 status]; simpl in Hstep.
  - apply createAlert_alerts in Hstep
      as [[Hsame Hcode] | (rid & ty & type & msg & th & v & Hrid & Hty & Htype & _ & Hcode & Hnew)].
    + exists a. rewrite Hsame. split_and!; [done|done|].
      intros ? ? _. split; [done|]. intros; congruence.
    + assert (Hfresh : fresh (dom (DB.alerts (db w))) ≠ id).
      { intros <-. eapply (is_fresh (dom (DB.alerts (db w)))).
        apply elem_of_dom. by eexists. }
      exists a. rewrite Hnew, lookup_insert_ne by done.
      split_and!; [done|done|].
      intros u b [= <- <-]. split; [done|]. intros _.
      eexists _, _. split_and!; [exact Hfresh| |apply lookup_insert_eq|..].
      all: simpl; try done.
      * apply not_elem_of_dom, is_fresh.
      * by rewrite Hty.
  - apply updateAlertStatus_alerts in Hstep
      as [Hsame | (st & a0 & rAt & Hst & Ha0 & Huser & _ & Hnew)].
    + exists a. rewrite Hsame. split_and!; [done|done|]. intros; discriminate.
    + destruct (decide (id0 = id)) as [->|Hne].
      * assert (a0 = a) as -> by congruence.
        eexists. rewrite Hnew, lookup_insert_eq. split_and!; [done| |intros; discriminate].
        simpl. intros ->. by rewrite Huser, (bind_of_string_active _ Hst).
      * exists a. rewrite Hnew, lookup_insert_ne by done.
        split_and!; [done|done|]. intros; discriminate.
Qed.

(** C8 (amended): [createAlert], asked for a (user, repository, type)
    triple of which an active alert is stored, is rejected and stores
    nothing, whatever else the store holds; and, the handlers running one
    at a time, every operation of the alert API other than an
    [updateAlertStatus] request for ['active'] keeps at most one active
    alert per (user, repository, type). *)
Theorem C8_one_active_alert_kept op w w' res :
  alert_step fault clock op w = (w', res) →
  (∀ req_user req_body i a repository ty kind,
     op = OpCreateAlert req_user req_body →
     repositoryId req_body = Some repository →
     type req_body = Some ty →
     AlertType_of_string ty = Some kind →
     DB.alerts (db w) !! i = Some a →
     active_for req_user repository kind a →
     DB.alerts (db w') = DB.alerts (db w) ∧ statusCode res ≠ 201)
  ∧ (at_most_one_active (DB.alerts (db w)) →
     (∀ req_user id, op ≠ OpUpdateAlertStatus req_user id (Some "active")) →
     at_most_one_active (DB.alerts (db w'))).
Proof.
  intros Hstep.
  destruct op as [req_user req_body | req_user id0 status]; simpl in Hstep.
  - apply createAlert_alerts in Hstep
      as [[Hsame Hcode] | (rid & ty & type & msg & th & v & Hrid & Hty & Htype & Hnone & Hcode & Hnew)].
    + rewrite Hsame. split; [intros; by split | done].
    + split.
      * intros u b i a r s t [= <- <-] Hr Hs Ht Hi Hact.
        assert (r = rid) as -> by congruence.
        assert (s = ty) as -> by congruence.
        assert (t = type) as -> by congruence.
        by destruct (Hnone i a Hi).
      * intros Hone _.
        rewrite Hnew. intros i j x y u r t Hi Hj Hx Hy.
        set (k := fresh (dom (DB.alerts (db w)))) in *.
        destruct (decide (i = k)) as [->|Hik], (decide (j = k)) as [->|Hjk]; [done|..].
        -- rewrite lookup_insert_eq in Hi. rewrite lookup_insert_ne in Hj by done.
           simplify_eq. destruct Hx as (<- & <- & <- & _). simpl in Hy.
           by destruct (Hnone j y Hj).
        -- rewrite lookup_insert_eq in Hj. rewrite lookup_insert_ne in Hi by done.
           simplify_eq. destruct Hy as (<- & <- & <- & _). simpl in Hx.
           by destruct (Hnone i x Hi).
        -- rewrite lookup_insert_ne in Hi, Hj by done. by eapply Hone.
  - split; [intros; discriminate|]. intros Hone Hop.
    apply updateAlertStatus_alerts in Hstep
      as [Hsame | (st & a0 & rAt & Hst & Ha0 & Huser & _ & Hnew)].
    + by rewrite Hsame.
    + assert (Hst' : st ≠ active).
      { intros ->. eapply Hop. by rewrite (bind_of_string_active _ Hst). }
      rewrite Hnew. intros i j x y u r t Hi Hj Hx Hy.
      destruct (decide (i = id0)) as [->|Hi0].
      { rewrite lookup_insert_eq in Hi. simplify_eq.
        destruct Hx as (_ & _ & _ & Hx). by simpl in Hx. }
      destruct (decide (j = id0)) as [->|Hj0].
      { rewrite lookup_insert_eq in Hj. simplify_eq.
        destruct Hy as (_ & _ & _ & Hy). by simpl in Hy. }
      rewrite lookup_insert_ne in Hi, Hj by done. by eapply Hone.
Qed.

End AlertProperties.

(** ** Subscriptions *)

Section SubscriptionProperties.

Variable fault : nat → option exn.

Ltac subscription_unfold :=
  unfold disconnectRepo, deleteUserAccount, controller, bind, ret, throw,
    User_findById, User_save, User_findByIdAndDelete, Repository_findById,
    Repository_save, Repository_findByIdAndDelete, await.

Ltac subscription_step :=
  match goal with
  | |- context [match fault ?t with _ => _ end] =>
      let F := fresh "F" in destruct (fault t) eqn:F
  | |- context [pair ?k <$> ?m !! ?k] =>
      let L := fresh "L" in destruct (m !! k) eqn:L
  | |- context [bool_decide ?P] =>
      let B := fresh "B" in destruct (bool_decide_reflect P) as [B|B]
  end; simpl.

(** C9: a disconnect that answers 200 was asked by a subscriber; when that
    user was the only subscriber the repository record is deleted, and
    otherwise the record stays, with that user removed from its subscriber
    list and every other field (metrics included) as before. *)
Theorem C9_disconnect_last_subscriber_deletes req_user id w w' res repo :
  disconnectRepo fault req_user id w = (w', res) →
  statusCode res = 200 →
  DB.repositories (db w) !! id = Some repo →
  let remaining := filter (λ userId, userId ≠ req_user) (Repository.users repo) in
  req_user ∈ Repository.users repo ∧
  (remaining = [] →
     DB.repositories (db w') = delete id (DB.repositories (db w))) ∧
  (remaining ≠ [] →
     DB.repositories (db w')
     = <[id := Repository.set_users remaining repo]> (DB.repositories (db w))).
Proof.
  intros Hrun Hcode Hrepo remaining. revert Hrun.
  subscription_unfold.
  repeat subscription_step; intros [= <- <-]; simpl in *; try discriminate.
  all: assert (t0 = repo) as -> by congruence.
  all: split; [done|]; fold remaining in B0 |- *.
  - split; [done|]. intros Hne. destruct remaining; [done | discriminate].
  - split; [|done]. intros He. rewrite He in B0. done.
Qed.

(** Deleting an account never touches the repository collection. *)
Lemma deleteUserAccount_repositories req_user w :
  DB.repositories (db (deleteUserAccount fault req_user w).1)
  = DB.repositories (db w).
Proof.
  subscription_unfold.
  repeat subscription_step; reflexivity.
Qed.

End SubscriptionProperties.

(** ** The CSV export *)

(** C10: on every stored report the exporter throws a [TypeError]: it reads
    the payload under [reportData], which a report document does not have. *)
Theorem C10_generateReportCsv_throws_on_stored_reports
    (toISOString : Date → string) (report : Doc Report.t)
    (repository : option (Doc Repository.t)) :
  ∃ message,
    generateReportCsv toISOString (Csv_of_report report) (Csv_of_repository repository)
    = Throw (TypeError message).
Proof.
  unfold generateReportCsv, TypeError_reading.
  destruct repository as [repo|]; simpl; eauto.
Qed.

(** ** The properties on the sample data *)

Definition sample_token : string := "gho_token".

(** Two successive states of GitHub: one merged pull request (merged ten
    hours after its creation), then the closed list holding only a pull
    request that was closed without merging. *)
Definition github_one_merged : Github.Service :=
  sample_github [5; 5; 0]%Z [Github.mkPullRequest 0%Z (Some 36000000%Z)].
Definition github_none_merged : Github.Service :=
  sample_github [5; 5; 0]%Z [Github.mkPullRequest 0%Z None].

Definition stored_metrics (w : World) (id : ObjectId) : option Metrics.t :=
  Repository.metrics <$> DB.repositories (db w) !! id.

(** C1: a refresh that fetches no merged pull request leaves the
    [mergeTime] of the refresh before it in place -- here 10 hours, next to a
    merged count of 0 -- where the specification asks for 0. *)
Theorem C1_mergeTime_stale_without_merged_prs :
  let r1 := updateRepoMetrics no_fault sample_clock github_one_merged 10
              sample_token sample_world in
  let r2 := updateRepoMetrics no_fault sample_clock github_none_merged 10
              sample_token r1.1 in
  r1.2 = Ok tt ∧ r2.2 = Ok tt ∧
  PullRequests.merged <$> (Metrics.pullRequests <$> stored_metrics r2.1 10) = Some 0%Z ∧
  Metrics.mergeTime <$> stored_metrics r2.1 10 = Some (num 10) ∧
  num 10 ≠ num 0.
Proof.
  vm_compute. split_and!; try reflexivity.
  - f_equal. by apply Qc_is_canon.
  - discriminate.
Qed.

(** The weekly run over the sample data, with no awaited operation
    rejecting: with the imports as the modules have them, and with every
    named import bound. *)
Definition all_bound : NamedImports := mkNamedImports true true true true.

Definition sample_run (imports : NamedImports) : World * result unit :=
  scheduleWeeklyReports no_fault sample_clock (λ now, now - 1000)%Z (λ now, now + 1000)%Z
    imports (λ _, "<html>weekly report</html>") sample_world.

Example sample_run_src_imports :
  sample_run src_imports
  = (mkWorld sample_db
       [ Log "Running weekly reports cron job...";
         LogError "Error in weekly reports cron job:" (TypeError_reading "find") ]
       [] 0,
     Ok tt).
Proof. vm_compute. reflexivity. Qed.

Example sample_run_all_bound :
  (sample_run all_bound).2 = Ok tt ∧
  console (sample_run all_bound).1
  = [ Log "Running weekly reports cron job...";
      Log "Found 1 users with weekly reports enabled";
      Log "Generating reports for user ada (1 repositories)";
      LogError "Error generating report for repository octo/demo:"
        (TypeError_reading "opened");
      Log "Weekly reports cron job completed" ] ∧
  outbox (sample_run all_bound).1 = [] ∧
  map (λ d : Doc Report.t, (Report.status (fields d), Report.sentAt (fields d)))
      (map_to_list (DB.reports (db (sample_run all_bound).1)))
  = [(pending, None)].
Proof. vm_compute. split_and!; reflexivity. Qed.

(** The on-demand report of the same item: with the imports as the modules
    have them the handler stores the ['pending'] record and then throws;
    were [EmailService] bound to the class, the record would end up
    ['sent'] with its [sentAt]. *)
Definition sample_generateReport (imports : NamedImports) : World * result Response :=
  generateReport no_fault sample_clock imports (λ _, "<html>report</html>")
    (λ _, "1/1/2024") (λ now, now - 604800000)%Z "https://devinsight.example"
    1 10 sample_world.

Example generateReport_src_imports :
  (sample_generateReport src_imports).2 = Throw (not_a_constructor "EmailService") ∧
  outbox (sample_generateReport src_imports).1 = [] ∧
  map (λ d : Doc Report.t, (Report.status (fields d), Report.sentAt (fields d)))
      (map_to_list (DB.reports (db (sample_generateReport src_imports).1)))
  = [(pending, None)].
Proof. vm_compute. split_and!; reflexivity. Qed.

Example generateReport_all_bound :
  outbox (sample_generateReport all_bound).1
  = [ mkEmail (Some "ada@example.org") (Some "DevInsight Weekly Report: octo/demo")
        (Some "<html>report</html>") ] ∧
  map (λ d : Doc Report.t, (Report.status (fields d), Report.sentAt (fields d)))
      (map_to_list (DB.reports (db (sample_generateReport all_bound).1)))
  = [(sent, Some 1700000004000%Z)].
Proof. vm_compute. split_and!; reflexivity. Qed.

(** C6: deleting the account of the only subscriber of a repository
    answers 200 and removes the user, and the repository is still stored
    with the deleted user in its subscriber list. *)
Theorem C6_deleted_user_stays_subscribed :
  let r := deleteUserAccount no_fault 1 sample_world in
  statusCode r.2 = 200 ∧
  DB.users (db r.1) !! 1 = None ∧
  Repository.users <$> DB.repositories (db r.1) !! 10 = Some [1].
Proof. vm_compute. split_and!; reflexivity. Qed.

(** The same user leaving through [disconnectRepo] does remove the
    repository. *)
Example disconnectRepo_removes_orphan :
  let r := disconnectRepo no_fault 1 10 sample_world in
  statusCode r.2 = 200 ∧ DB.repositories (db r.1) !! 10 = None.
Proof. vm_compute. split; reflexivity. Qed.

(** A world with one resolved alert of [ada] on [demo]. *)
Definition resolved_alert : Alert.t :=
  Alert.mk 1 10 noActivity_ "No commits this week" (num 7) (num 0) resolved
    (Some 1690000000000%Z).

Definition alert_world : World :=
  mkWorld (DB.set_alerts {[ 7 := resolved_alert ]} sample_db) [] [] 0.

Definition fresh_trigger : CreateAlertBody :=
  mkCreateAlertBody (Some 10) (Some "noActivity") (Some "No commits this week")
    (Some (num 7)) (Some (num 0)).

Definition alert_statuses (w : World) : list (ObjectId * AlertStatus) :=
  map (λ d : Doc Alert.t, (_id d, Alert.status (fields d))) (map_to_list (DB.alerts (db w))).

(** C7, as stated, fails: the owner's [updateAlertStatus] request for
    ['active'] puts a resolved record back to ['active']. *)
Lemma C7_resolved_alert_reactivated :
  let r := updateAlertStatus no_fault sample_clock 1 7 (Some "active") alert_world in
  Alert.status <$> DB.alerts (db alert_world) !! 7 = Some resolved ∧
  statusCode r.2 = 200 ∧
  Alert.status <$> DB.alerts (db r.1) !! 7 = Some active.
Proof. vm_compute. split_and!; reflexivity. Qed.

(** C8, as stated, fails: after a fresh trigger has created a new active
    alert, re-activating the resolved one leaves two active alerts of the
    same (user, repository, type). *)
Lemma C8_two_active_alerts :
  let r1 := createAlert no_fault 1 fresh_trigger alert_world in
  let r2 := updateAlertStatus no_fault sample_clock 1 7 (Some "active") r1.1 in
  at_most_one_active (DB.alerts (db alert_world)) ∧
  statusCode r1.2 = 201 ∧ statusCode r2.2 = 200 ∧
  ¬ at_most_one_active (DB.alerts (db r2.1)).
Proof.
  split_and!.
  - intros i j a b u r t Hi Hj (_ & _ & _ & Ha) _.
    simpl in Hi. apply lookup_singleton_Some in Hi as [_ <-]. discriminate.
  - vm_compute. reflexivity.
  - vm_compute. reflexivity.
  - intros Hone.
    assert (8 = 7) as H; [|discriminate].
    eapply (Hone 8 7 _ _ 1 10 noActivity_).
    + vm_compute. reflexivity.
    + vm_compute. reflexivity.
    + vm_compute. split_and!; reflexivity.
    + vm_compute. split_and!; reflexivity.
Qed.

(** ** The general theorems at the sample data *)

Lemma C2_commitDrops_after_refresh_witness :
  ∃ r', DB.repositories
          (db (updateRepoMetrics no_fault sample_clock github_one_merged 10
                 sample_token sample_world).1) !! 10 = Some r' ∧
        Alerts.commitDrops (Repository.alerts r') = true.
Proof.
  destruct (C2_commitDrops_after_refresh no_fault sample_clock github_one_merged
              10 sample_token sample_world
              (updateRepoMetrics no_fault sample_clock github_one_merged 10
                 sample_token sample_world).1
              demo (map Github.mkWeek [5; 5; 0]%Z))
    as (r' & Hr' & _ & Hge & _).
  - vm_compute. reflexivity.
  - reflexivity.
  - reflexivity.
  - exists r'. split; [exact Hr'|].
    destruct Hge as (previous & current & Hp & Hc & Hiff); [simpl; lia|].
    simpl in Hp, Hc. injection Hp as <-. injection Hc as <-.
    apply Hiff. split; [lia | by left].
Defined.

(** A GitHub whose issue listing is refused. *)
Definition github_issues_down : Github.Service :=
  Github.mkService
    (λ _ _ _, Ok (Github.mkRepo 3%Z 1%Z 0%Z 3%Z))
    (λ _ _ _, Ok (map Github.mkWeek [5; 5; 0]%Z))
    (λ _ _ _ _, Ok [])
    (λ _ _ _ _, Throw (UpstreamError 502 "Bad Gateway"))
    (λ _ _ _, Ok []).

Lemma C5_refresh_aborts_on_github_failure_witness :
  ∃ w' e',
    updateRepoMetrics no_fault sample_clock github_issues_down 10 sample_token sample_world
    = (w', Throw e') ∧
    db w' = db sample_world ∧
    (no_fault (tick sample_world) = None → e' = UpstreamError 502 "Bad Gateway").
Proof.
  apply (C5_refresh_aborts_on_github_failure no_fault sample_clock github_issues_down
           10 sample_token sample_world demo (UpstreamError 502 "Bad Gateway")).
  - reflexivity.
  - reflexivity.
Defined.

Lemma C7_reactivation_only_on_owner_request_witness :
  ∃ a', DB.alerts (db (createAlert no_fault 1 fresh_trigger alert_world).1) !! 7 = Some a' ∧
        Alert.status a' ≠ active.
Proof.
  destruct (C7_reactivation_only_on_owner_request no_fault sample_clock
              (OpCreateAlert 1 fresh_trigger) alert_world
              (createAlert no_fault 1 fresh_trigger alert_world).1
              (createAlert no_fault 1 fresh_trigger alert_world).2
              7 resolved_alert)
    as (a' & Ha' & Honly & _).
  - simpl. by destruct (createAlert no_fault 1 fresh_trigger alert_world).
  - reflexivity.
  - by left.
  - exists a'. split; [exact Ha'|]. intros Hact. specialize (Honly Hact). discriminate.
Defined.

(** A world in which the alert of [ada] on [demo] is active. *)
Definition active_alert : Alert.t :=
  Alert.mk 1 10 noActivity_ "No commits this week" (num 7) (num 0) active None.

Definition active_alert_world : World :=
  mkWorld (DB.set_alerts {[ 7 := active_alert ]} sample_db) [] [] 0.

Lemma C8_one_active_alert_kept_witness :
  let r := createAlert no_fault 1 fresh_trigger active_alert_world in
  at_most_one_active (DB.alerts (db r.1)) ∧
  DB.alerts (db r.1) = DB.alerts (db active_alert_world) ∧
  statusCode r.2 ≠ 201.
Proof.
  intros r.
  destruct (C8_one_active_alert_kept no_fault sample_clock
              (OpCreateAlert 1 fresh_trigger) active_alert_world r.1 r.2)
    as [Hreject Hone].
  - simpl. subst r. by destruct (createAlert no_fault 1 fresh_trigger active_alert_world).
  - split.
    + apply Hone; [|intros; discriminate].
      intros i j a b u rp t Hi Hj _ _. simpl in Hi, Hj.
      apply lookup_singleton_Some in Hi as [<- _].
      by apply lookup_singleton_Some in Hj as [<- _].
    + apply (Hreject 1 fresh_trigger 7 active_alert 10 "noActivity" noActivity_);
        try reflexivity.
      by split_and!.
Defined.

Lemma C9_disconnect_last_subscriber_deletes_witness :
  DB.repositories (db (disconnectRepo no_fault 1 10 sample_world).1)
  = delete 10 (DB.repositories (db sample_world)).
Proof.
  destruct (C9_disconnect_last_subscriber_deletes no_fault 1 10 sample_world
              (disconnectRepo no_fault 1 10 sample_world).1
              (disconnectRepo no_fault 1 10 sample_world).2 demo)
    as (_ & Hlast & _).
  - by destruct (disconnectRepo no_fault 1 10 sample_world).
  - vm_compute. reflexivity.
  - reflexivity.
  - apply Hlast. reflexivity.
Defined.

(** * Further properties *)

(** ** More on the metrics refresh *)

Lemma foldl_Zadd acc (l : list Z) :
  foldl (λ sum count, sum + count)%Z acc l = (acc + foldr Z.add 0 l)%Z.
Proof.
  revert acc. induction l as [|x l IH]; intros acc; simpl; [lia|].
  rewrite IH. lia.
Qed.

Lemma filter_merged_split (prs : list Github.PullRequest) :
  (len (filter (λ pr, Github.merged_at pr = None) prs)
   + len (filter (λ pr, is_Some (Github.merged_at pr)) prs) = len prs)%Z.
Proof.
  unfold len. induction prs as [|pr prs IH]; [done|].
  rewrite !filter_cons. destruct (Github.merged_at pr) as [d|] eqn:Hm.
  - rewrite decide_False by done. rewrite decide_True by (by eexists).
    simpl. lia.
  - rewrite decide_True by done. rewrite decide_False by (by intros [? ?]).
    simpl. lia.
Qed.

Lemma refreshed_metrics gr wk op cl oi ci co now r :
  Repository.metrics (refreshed gr wk op cl oi ci co now r)
  = Metrics.set_contributors (len co)
      (Metrics.set_issues (Issues.mk (len oi) (len ci))
         (Repository.metrics
            (updateMergeTime cl
               (updatePullRequests op cl (updateCommits wk (updateBasicInfo gr r)))))).
Proof. refresh_frame. reflexivity. Qed.

Lemma updateMergeTime_pullRequests cl r :
  Metrics.pullRequests (Repository.metrics (updateMergeTime cl r))
  = Metrics.pullRequests (Repository.metrics r).
Proof. unfold updateMergeTime. by case_bool_decide. Qed.

Lemma updateMergeTime_identity cl r :
  let r' := updateMergeTime cl r in
  Repository.owner r' = Repository.owner r ∧ Repository.name r' = Repository.name r ∧
  Repository.fullName r' = Repository.fullName r ∧
  Repository.description r' = Repository.description r ∧
  Repository.url r' = Repository.url r ∧ Repository.apiUrl r' = Repository.apiUrl r ∧
  Repository.defaultBranch r' = Repository.defaultBranch r ∧
  Repository.users r' = Repository.users r ∧
  Repository.stars r' = Repository.stars r ∧ Repository.forks r' = Repository.forks r ∧
  Repository.openIssues r' = Repository.openIssues r ∧
  Repository.watchers r' = Repository.watchers r.
Proof. unfold updateMergeTime. by case_bool_decide. Qed.

Lemma checkCommitDrops_identity r :
  let r' := checkCommitDrops r in
  Repository.owner r' = Repository.owner r ∧ Repository.name r' = Repository.name r ∧
  Repository.fullName r' = Repository.fullName r ∧
  Repository.description r' = Repository.description r ∧
  Repository.url r' = Repository.url r ∧ Repository.apiUrl r' = Repository.apiUrl r ∧
  Repository.defaultBranch r' = Repository.defaultBranch r ∧
  Repository.users r' = Repository.users r ∧
  Repository.stars r' = Repository.stars r ∧ Repository.forks r' = Repository.forks r ∧
  Repository.openIssues r' = Repository.openIssues r ∧
  Repository.watchers r' = Repository.watchers r ∧
  Repository.lastFetched r' = Repository.lastFetched r ∧
  Alerts.noActivity (Repository.alerts r') = Alerts.noActivity (Repository.alerts r) ∧
  Alerts.longOpenPRs (Repository.alerts r') = Alerts.longOpenPRs (Repository.alerts r).
Proof.
  unfold checkCommitDrops.
  repeat (case_bool_decide || case_match); simpl; by split_and!.
Qed.

(** [14 < d / 86400000] over the rationals, read on the integers. *)
Lemma days_gt_14 (d : Z) :
  (num 14 < num d / num (1000 * 60 * 60 * 24))%Qc ↔ (1209600000 < d)%Z.
Proof.
  change (1000 * 60 * 60 * 24)%Z with 86400000%Z.
  assert (Hk : (0 < num 86400000)%Qc) by (unfold num; by apply (Z2Qc_inj_lt 0 86400000)).
  assert (Hk' : num 86400000 ≠ 0%Qc).
  { intros H. rewrite H in Hk. by apply Qclt_not_eq in Hk. }
  assert (Hmul : (num 14 * num 86400000 = num 1209600000)%Qc).
  { unfold num. by rewrite <- Z2Qc_inj_mul. }
  split; intros H.
  - apply (Qcmult_lt_compat_r _ _ _ Hk) in H.
    assert (Hd : (num d / num 86400000 * num 86400000 = num d)%Qc) by (by field).
    rewrite Hd, Hmul in H. by apply Z2Qc_inj_lt.
  - apply Z2Qc_inj_lt in H. fold (num 1209600000) (num d) in H. rewrite <- Hmul in H.
    assert (Hinv : (0 < / num 86400000)%Qc) by (by apply Qcinv_pos).
    apply (Qcmult_lt_compat_r _ _ _ Hinv) in H.
    assert (H14 : (num 14 * num 86400000 * / num 86400000 = num 14)%Qc) by (by field).
    by rewrite H14 in H.
Qed.

Lemma num_nonneg (z : Z) : (0 ≤ z)%Z → (0 ≤ num z)%Qc.
Proof. intros H. unfold num. rewrite <- Z2Qc_inj_0. by apply -> Z2Qc_inj_le. Qed.

Lemma Qcdiv_nonneg (x : Qc) (z : Z) : (0 ≤ x)%Qc → (0 ≤ z)%Z → (0 ≤ x / num z)%Qc.
Proof.
  intros Hx Hz. unfold Qcdiv. apply Qcmult_nonneg_nonneg; [done|].
  destruct (decide (z = 0%Z)) as [->|Hne].
  - rewrite num_0. unfold Qcle. simpl. apply Qle_refl.
  - apply Qclt_le_weak, Qcinv_pos. unfold num. rewrite <- Z2Qc_inj_0.
    apply -> Z2Qc_inj_lt. lia.
Qed.

Lemma mean_merge_hours_nonneg (prs : list Github.PullRequest) :
  (∀ pr, pr ∈ prs → (Github.created_at pr ≤ getTime (Github.merged_at pr))%Z) →
  (0 ≤ mean_merge_hours prs)%Qc.
Proof.
  intros Hall. unfold mean_merge_hours.
  apply Qcdiv_nonneg; [apply Qcdiv_nonneg| lia]; [|unfold len; lia].
  apply num_nonneg. unfold sum_merge_ms.
  induction prs as [|pr prs IH]; simpl; [lia|].
  assert (Github.created_at pr ≤ getTime (Github.merged_at pr))%Z
    by (apply Hall; left).
  assert (0 ≤ foldr (λ pr acc, getTime (Github.merged_at pr) - Github.created_at pr + acc) 0 prs)%Z
    by (apply IH; intros; apply Hall; by right).
  lia.
Qed.

Section RefreshMore.

Variable fault : nat → option exn.
Variable clock : nat → Date.
Variable githubService : Github.Service.

Ltac refresh_inv Hrun :=
  apply updateRepoMetrics_Ok in Hrun
    as (r0 & gr & wk0 & op0 & cl0 & oi & ci & co
        & Hr0 & Hgr & Hwk0 & Hop0 & Hcl0 & Hoi & Hci & Hco & Hdb & Hus & Hal & Hrp).

(** X1: a refresh that throws -- the repository is missing, a persistence
    operation or a GitHub call rejects -- leaves the database and the outbox
    as they were and logs the error once, before rethrowing it. *)
Theorem X1_refresh_failure_writes_nothing repoId tok w w' e :
  updateRepoMetrics fault clock githubService repoId tok w = (w', Throw e) →
  db w' = db w ∧ outbox w' = outbox w ∧
  console w' = (console w ++ [LogError "Update Repo Metrics Error:" e])%list.
Proof.
  unfold updateRepoMetrics, try_catch, bind, Repository_findById,
    Repository_save, await, settle, throw, Date_now, console_error.
  repeat match goal with
  | |- context [match fault ?t with _ => _ end] =>
      let F := fresh "F" in destruct (fault t) eqn:F; simpl
  | |- context [match ?x with Ok _ => _ | Throw _ => _ end] =>
      let G := fresh "G" in destruct x eqn:G; simpl
  | |- context [pair ?k <$> ?m !! ?k] =>
      let L := fresh "L" in destruct (m !! k) eqn:L; simpl
  end; try discriminate; intros [= <- <-]; done.
Qed.

(** X2: after a successful refresh the stored weekly series is the fetched
    per-week totals and [commits.total] is their sum. *)
Theorem X2_refresh_commit_total_is_sum repoId tok w w' r wk :
  updateRepoMetrics fault clock githubService repoId tok w = (w', Ok tt) →
  DB.repositories (db w) !! repoId = Some r →
  Github.getWeeklyCommitActivity githubService tok (Repository.owner r) (Repository.name r)
    = Ok wk →
  ∃ r', DB.repositories (db w') !! repoId = Some r' ∧
        Commits.weekly (Metrics.commits (Repository.metrics r')) = map Github.total wk ∧
        Commits.total (Metrics.commits (Repository.metrics r'))
        = foldr Z.add 0%Z (Commits.weekly (Metrics.commits (Repository.metrics r'))).
Proof.
  intros Hrun Hr Hwk. refresh_inv Hrun.
  assert (r0 = r) as -> by congruence. assert (wk0 = wk) as -> by congruence.
  eexists. split; [rewrite Hdb; apply lookup_insert_eq|].
  refresh_frame. cbn [Commits.weekly Commits.total].
  split; [done|]. by rewrite foldl_Zadd.
Qed.

(** X3: after a successful refresh the pull-request counters partition what
    was fetched: [open] counts the open list, [merged] the closed pull
    requests with a merge timestamp, and [closed] the remaining ones. *)
Theorem X3_refresh_pull_request_counts repoId tok w w' r op cl :
  updateRepoMetrics fault clock githubService repoId tok w = (w', Ok tt) →
  DB.repositories (db w) !! repoId = Some r →
  Github.getRepoPullRequests githubService tok (Repository.owner r) (Repository.name r)
    Github.open = Ok op →
  Github.getRepoPullRequests githubService tok (Repository.owner r) (Repository.name r)
    Github.closed = Ok cl →
  ∃ r', DB.repositories (db w') !! repoId = Some r' ∧
        let prs := Metrics.pullRequests (Repository.metrics r') in
        PullRequests.open prs = len op ∧
        PullRequests.merged prs = len (filter merged cl) ∧
        (PullRequests.closed prs + PullRequests.merged prs = len cl)%Z.
Proof.
  intros Hrun Hr Hop Hcl. refresh_inv Hrun.
  assert (r0 = r) as -> by congruence. assert (op0 = op) as -> by congruence.
  assert (cl0 = cl) as -> by congruence.
  eexists. split; [rewrite Hdb; apply lookup_insert_eq|].
  refresh_frame. cbn [PullRequests.open PullRequests.closed PullRequests.merged].
  split_and!; [done|done|apply filter_merged_split].
Qed.

(** X4: after a successful refresh [mergeTime] is the mean, in hours, of
    (mergedAt - createdAt) over the merged pull requests fetched, when there
    is one; when there is none it is the value stored before the refresh. *)
Theorem X4_refresh_mergeTime_mean_or_kept repoId tok w w' r cl :
  updateRepoMetrics fault clock githubService repoId tok w = (w', Ok tt) →
  DB.repositories (db w) !! repoId = Some r →
  Github.getRepoPullRequests githubService tok (Repository.owner r) (Repository.name r)
    Github.closed = Ok cl →
  ∃ r', DB.repositories (db w') !! repoId = Some r' ∧
        (filter merged cl ≠ [] →
           Metrics.mergeTime (Repository.metrics r') = mean_merge_hours (filter merged cl)) ∧
        (filter merged cl = [] →
           Metrics.mergeTime (Repository.metrics r')
           = Metrics.mergeTime (Repository.metrics r)).
Proof. apply updateRepoMetrics_mergeTime. Qed.

(** X5: when no merged pull request fetched was merged before it was created
    (the pull requests closed without a merge are free) and the stored
    [mergeTime] was not negative, the [mergeTime] after a successful refresh
    is not negative. *)
Theorem X5_refresh_mergeTime_nonneg repoId tok w w' r cl :
  updateRepoMetrics fault clock githubService repoId tok w = (w', Ok tt) →
  DB.repositories (db w) !! repoId = Some r →
  Github.getRepoPullRequests githubService tok (Repository.owner r) (Repository.name r)
    Github.closed = Ok cl →
  (∀ pr mergedAt, pr ∈ cl → Github.merged_at pr = Some mergedAt →
     (Github.created_at pr ≤ mergedAt)%Z) →
  (0 ≤ Metrics.mergeTime (Repository.metrics r))%Qc →
  ∃ r', DB.repositories (db w') !! repoId = Some r' ∧
        (0 ≤ Metrics.mergeTime (Repository.metrics r'))%Qc.
Proof.
  intros Hrun Hr Hcl Hord Hold.
  destruct (updateRepoMetrics_mergeTime _ _ _ _ _ _ _ _ _ Hrun Hr Hcl)
    as (r' & Hr' & Hmean & Hkept).
  exists r'. split; [done|].
  destruct (decide (filter merged cl = [])) as [He|Hne].
  - by rewrite Hkept.
  - rewrite Hmean by done. apply mean_merge_hours_nonneg.
    intros pr Hpr. apply list_elem_of_filter in Hpr as [[mergedAt Hm] Hin].
    rewrite Hm. simpl. by eapply Hord.
Qed.

(** X6: after a successful refresh [noActivity] is true exactly when the
    fetched weekly series is not empty and its last entry is 0. *)
Theorem X6_refresh_noActivity repoId tok w w' r wk :
  updateRepoMetrics fault clock githubService repoId tok w = (w', Ok tt) →
  DB.repositories (db w) !! repoId = Some r →
  Github.getWeeklyCommitActivity githubService tok (Repository.owner r) (Repository.name r)
    = Ok wk →
  ∃ r', DB.repositories (db w') !! repoId = Some r' ∧
        (Alerts.noActivity (Repository.alerts r') = true
         ↔ last (map Github.total wk) = Some 0%Z).
Proof.
  intros Hrun Hr Hwk. refresh_inv Hrun.
  assert (r0 = r) as -> by congruence. assert (wk0 = wk) as -> by congruence.
  eexists. split; [rewrite Hdb; apply lookup_insert_eq|].
  refresh_frame. cbn [Commits.weekly].
  rewrite slice_last_1_head. apply bool_decide_eq_true.
Qed.

(** X7: after a successful refresh [longOpenPRs] is true exactly when some
    fetched open pull request was created more than 14 days
    (1 209 600 000 ms) before the time of the refresh. *)
Theorem X7_refresh_longOpenPRs repoId tok w w' r op :
  updateRepoMetrics fault clock githubService repoId tok w = (w', Ok tt) →
  DB.repositories (db w) !! repoId = Some r →
  Github.getRepoPullRequests githubService tok (Repository.owner r) (Repository.name r)
    Github.open = Ok op →
  ∃ r', DB.repositories (db w') !! repoId = Some r' ∧
        (Alerts.longOpenPRs (Repository.alerts r') = true
         ↔ ∃ pr, pr ∈ op ∧ (1209600000 < clock (S (tick w)) - Github.created_at pr)%Z).
Proof.
  intros Hrun Hr Hop. refresh_inv Hrun.
  assert (r0 = r) as -> by congruence. assert (op0 = op) as -> by congruence.
  eexists. split; [rewrite Hdb; apply lookup_insert_eq|].
  refresh_frame.
  rewrite existsb_exists. split.
  - intros (pr & Hin & Hlt). exists pr. split; [by apply list_elem_of_In|].
    apply bool_decide_eq_true in Hlt. by apply days_gt_14.
  - intros (pr & Hin & Hlt). exists pr. split; [by apply list_elem_of_In|].
    apply bool_decide_eq_true. by apply days_gt_14.
Qed.

(** X8: a successful refresh rewrites only the refreshed repository: the
    other repositories, the users, the alerts and the reports are as before,
    and the refreshed document keeps its identity and subscriber list, takes
    the four counters GitHub answered, and is stamped with the time of the
    refresh. *)
Theorem X8_refresh_frame repoId tok w w' r g :
  updateRepoMetrics fault clock githubService repoId tok w = (w', Ok tt) →
  DB.repositories (db w) !! repoId = Some r →
  Github.getRepo githubService tok (Repository.owner r) (Repository.name r) = Ok g →
  (∀ other, other ≠ repoId →
     DB.repositories (db w') !! other = DB.repositories (db w) !! other) ∧
  DB.users (db w') = DB.users (db w) ∧
  DB.alerts (db w') = DB.alerts (db w) ∧
  DB.reports (db w') = DB.reports (db w) ∧
  ∃ r', DB.repositories (db w') !! repoId = Some r' ∧
        Repository.users r' = Repository.users r ∧
        Repository.owner r' = Repository.owner r ∧
        Repository.name r' = Repository.name r ∧
        Repository.fullName r' = Repository.fullName r ∧
        Repository.stars r' = Github.stargazers_count g ∧
        Repository.forks r' = Github.forks_count g ∧
        Repository.openIssues r' = Github.open_issues_count g ∧
        Repository.watchers r' = Github.watchers_count g ∧
        Repository.lastFetched r' = clock (S (tick w)).
Proof.
  intros Hrun Hr Hgr'. refresh_inv Hrun.
  assert (r0 = r) as -> by congruence. assert (gr = g) as -> by congruence.
  split_and!; try done.
  { intros other Hne. rewrite Hdb. by apply lookup_insert_ne. }
  eexists. split; [rewrite Hdb; apply lookup_insert_eq|].
  refresh_frame. by split_and!.
Qed.

End RefreshMore.

(** *** The refresh properties at the sample data *)

Definition sample_refreshed : World :=
  (updateRepoMetrics no_fault sample_clock github_one_merged 10 sample_token sample_world).1.

Lemma X1_refresh_failure_writes_nothing_witness :
  let w' := (updateRepoMetrics no_fault sample_clock github_issues_down 10 sample_token
               sample_world).1 in
  db w' = db sample_world ∧ outbox w' = outbox sample_world ∧
  console w'
  = (console sample_world
     ++ [LogError "Update Repo Metrics Error:" (UpstreamError 502 "Bad Gateway")])%list.
Proof.
  apply (X1_refresh_failure_writes_nothing no_fault sample_clock github_issues_down 10
           sample_token sample_world).
  vm_compute. reflexivity.
Defined.

Lemma X2_refresh_commit_total_is_sum_witness :
  ∃ r', DB.repositories (db sample_refreshed) !! 10 = Some r' ∧
        Commits.weekly (Metrics.commits (Repository.metrics r'))
        = map Github.total (map Github.mkWeek [5; 5; 0]%Z) ∧
        Commits.total (Metrics.commits (Repository.metrics r'))
        = foldr Z.add 0%Z (Commits.weekly (Metrics.commits (Repository.metrics r'))).
Proof.
  apply (X2_refresh_commit_total_is_sum no_fault sample_clock github_one_merged 10
           sample_token sample_world sample_refreshed demo).
  - vm_compute. reflexivity.
  - reflexivity.
  - reflexivity.
Defined.

Lemma X3_refresh_pull_request_counts_witness :
  ∃ r', DB.repositories (db sample_refreshed) !! 10 = Some r' ∧
        let prs := Metrics.pullRequests (Repository.metrics r') in
        PullRequests.open prs = len (@nil Github.PullRequest) ∧
        PullRequests.merged prs
        = len (filter merged [Github.mkPullRequest 0%Z (Some 36000000%Z)]) ∧
        (PullRequests.closed prs + PullRequests.merged prs
         = len [Github.mkPullRequest 0%Z (Some 36000000%Z)])%Z.
Proof.
  apply (X3_refresh_pull_request_counts no_fault sample_clock github_one_merged 10
           sample_token sample_world sample_refreshed demo).
  - vm_compute. reflexivity.
  - reflexivity.
  - reflexivity.
  - reflexivity.
Defined.

Lemma X4_refresh_mergeTime_mean_or_kept_witness :
  ∃ r', DB.repositories (db sample_refreshed) !! 10 = Some r' ∧
        (filter merged [Github.mkPullRequest 0%Z (Some 36000000%Z)] ≠ [] →
           Metrics.mergeTime (Repository.metrics r')
           = mean_merge_hours (filter merged [Github.mkPullRequest 0%Z (Some 36000000%Z)])) ∧
        (filter merged [Github.mkPullRequest 0%Z (Some 36000000%Z)] = [] →
           Metrics.mergeTime (Repository.metrics r')
           = Metrics.mergeTime (Repository.metrics demo)).
Proof.
  apply (X4_refresh_mergeTime_mean_or_kept no_fault sample_clock github_one_merged 10
           sample_token sample_world sample_refreshed demo).
  - vm_compute. reflexivity.
  - reflexivity.
  - reflexivity.
Defined.

(** GitHub answering a closed list that holds a pull request merged ten
    hours after its creation and one that was closed without a merge. *)
Definition closed_mixed : list Github.PullRequest :=
  [ Github.mkPullRequest 1699000000000%Z (Some 1699036000000%Z);
    Github.mkPullRequest 1699500000000%Z None ].

Definition github_closed_mixed : Github.Service := sample_github [5; 5; 0]%Z closed_mixed.

Lemma X5_refresh_mergeTime_nonneg_witness :
  ∃ r', DB.repositories
          (db (updateRepoMetrics no_fault sample_clock github_closed_mixed 10
                 sample_token sample_world).1) !! 10 = Some r' ∧
        (0 ≤ Metrics.mergeTime (Repository.metrics r'))%Qc.
Proof.
  apply (X5_refresh_mergeTime_nonneg no_fault sample_clock github_closed_mixed 10
           sample_token sample_world _ demo closed_mixed).
  - vm_compute. reflexivity.
  - reflexivity.
  - reflexivity.
  - intros pr mergedAt Hpr Hm.
    apply elem_of_cons in Hpr as [->|Hpr].
    + injection Hm as <-. simpl. lia.
    + apply list_elem_of_singleton in Hpr as ->. discriminate.
  - cbn [demo empty_metrics Repository.metrics Metrics.mergeTime].
    rewrite num_0. apply Qcle_refl.
Defined.

Lemma X6_refresh_noActivity_witness :
  ∃ r', DB.repositories (db sample_refreshed) !! 10 = Some r' ∧
        (Alerts.noActivity (Repository.alerts r') = true
         ↔ last (map Github.total (map Github.mkWeek [5; 5; 0]%Z)) = Some 0%Z).
Proof.
  apply (X6_refresh_noActivity no_fault sample_clock github_one_merged 10
           sample_token sample_world sample_refreshed demo).
  - vm_compute. reflexivity.
  - reflexivity.
  - reflexivity.
Defined.

(** GitHub answering two open pull requests: one opened a day before the
    sample clock's time, one opened twenty days before it. *)
Definition open_one_old : list Github.PullRequest :=
  [ Github.mkPullRequest 1699913600000%Z None;
    Github.mkPullRequest 1698272000000%Z None ].

Definition github_old_open_pr : Github.Service :=
  Github.mkService
    (λ _ _ _, Ok (Github.mkRepo 3%Z 1%Z 0%Z 3%Z))
    (λ _ _ _, Ok (map Github.mkWeek [5; 5; 0]%Z))
    (λ _ _ _ state,
       match state with Github.open => Ok open_one_old | Github.closed => Ok [] end)
    (λ _ _ _ _, Ok [])
    (λ _ _ _, Ok [Github.mkContributor "ada"]).

Lemma X7_refresh_longOpenPRs_witness :
  ∃ r', DB.repositories
          (db (updateRepoMetrics no_fault sample_clock github_old_open_pr 10
                 sample_token sample_world).1) !! 10 = Some r' ∧
        Alerts.longOpenPRs (Repository.alerts r') = true.
Proof.
  destruct (X7_refresh_longOpenPRs no_fault sample_clock github_old_open_pr 10
              sample_token sample_world
              (updateRepoMetrics no_fault sample_clock github_old_open_pr 10
                 sample_token sample_world).1 demo open_one_old)
    as (r' & Hr' & Hflag).
  - vm_compute. reflexivity.
  - reflexivity.
  - reflexivity.
  - exists r'. split; [exact Hr'|]. apply Hflag.
    exists (Github.mkPullRequest 1698272000000%Z None). split.
    + apply list_elem_of_further, list_elem_of_here.
    + vm_compute. reflexivity.
Defined.

Lemma X8_refresh_frame_witness :
  DB.users (db sample_refreshed) = DB.users (db sample_world) ∧
  ∃ r', DB.repositories (db sample_refreshed) !! 10 = Some r' ∧
        Repository.users r' = [1] ∧ Repository.stars r' = 3%Z.
Proof.
  destruct (X8_refresh_frame no_fault sample_clock github_one_merged 10
              sample_token sample_world sample_refreshed demo (Github.mkRepo 3%Z 1%Z 0%Z 3%Z))
    as (_ & Husers & _ & _ & r' & Hr' & Hu & _ & _ & _ & Hs & _).
  - vm_compute. reflexivity.
  - reflexivity.
  - reflexivity.
  - split; [exact Husers|]. exists r'. by split_and!.
Defined.

(** ** More on subscriptions *)

Lemma head_filter_Some_inv {A} (P : A → Prop) `{∀ x, Decision (P x)} (l : list A) x :
  head (filter P l) = Some x → P x ∧ x ∈ l.
Proof.
  intros Hhead. apply (list_elem_of_filter P l x).
  destruct (filter P l) as [|y l']; [discriminate|].
  simpl in Hhead. injection Hhead as ->. left.
Qed.

Section SubscriptionMore.

Variable fault : nat → option exn.
Variable clock : nat → Date.
Variable githubService : Github.Service.
Variable getRepo : string → string → string → result GithubRepoAnswer.

Ltac sub_unfold :=
  unfold disconnectRepo, deleteUserAccount, connectRepo, getRepoDetails, controller,
    getUserFromRequest, bind, ret, throw, settle,
    User_findById, User_save, User_findByIdAndDelete, Repository_findById,
    Repository_save, Repository_findByIdAndDelete, Repository_findOne_fullName,
    Repository_create, Date_now, await.

Ltac sub_step :=
  match goal with
  | |- context [match fault ?t with _ => _ end] =>
      let F := fresh "F" in destruct (fault t) eqn:F
  | |- context [pair ?k <$> ?m !! ?k] =>
      let L := fresh "L" in destruct (m !! k) eqn:L
  | |- context [bool_decide ?P] =>
      let B := fresh "B" in destruct (bool_decide_reflect P) as [B|B]
  | |- context [match head ?l with _ => _ end] =>
      let E := fresh "E" in destruct (head l) eqn:E
  | |- context [match ?x with Ok _ => _ | Throw _ => _ end] =>
      let G := fresh "G" in destruct x eqn:G
  end; simpl.

(** X9: a disconnect asked by a user who is not in the repository's
    subscriber list never answers 200 and changes nothing in the database,
    whatever the persistence layer does. *)
Theorem X9_disconnect_rejects_non_subscriber req_user id w repo :
  DB.repositories (db w) !! id = Some repo →
  req_user ∉ Repository.users repo →
  let r := disconnectRepo fault req_user id w in
  db r.1 = db w ∧ statusCode r.2 ≠ 200.
Proof.
  intros Hrepo Hnot. sub_unfold.
  repeat sub_step; simpl in *; split; try done; congruence.
Qed.

(** X10: a disconnect that answers 200 removes the repository from the
    requesting user's [connectedRepos], leaves every other user as stored,
    and does not touch alerts or reports. *)
Theorem X10_disconnect_updates_user req_user id w w' res :
  disconnectRepo fault req_user id w = (w', res) →
  statusCode res = 200 →
  ∃ user, DB.users (db w) !! req_user = Some user ∧
          DB.users (db w')
          = <[req_user :=
                User.set_connectedRepos
                  (filter (λ repoId, repoId ≠ id) (User.connectedRepos user)) user]>
              (DB.users (db w)) ∧
          DB.alerts (db w') = DB.alerts (db w) ∧
          DB.reports (db w') = DB.reports (db w).
Proof.
  sub_unfold.
  repeat sub_step; intros [= <- <-]; simpl in *; try discriminate; intros _;
    eexists; by split_and!.
Qed.

(** X11: the two writes of a disconnect are not atomic: when the save of the
    user rejects after the repository write went through, the answer is 500
    although the repository has already been deleted (last subscriber) or
    stored without the user. *)
Theorem X11_disconnect_not_atomic req_user id w user repo e :
  DB.users (db w) !! req_user = Some user →
  DB.repositories (db w) !! id = Some repo →
  req_user ∈ Repository.users repo →
  fault (tick w) = None → fault (S (tick w)) = None → fault (S (S (tick w))) = None →
  fault (S (S (S (tick w)))) = Some e →
  let r := disconnectRepo fault req_user id w in
  let remaining := filter (λ userId, userId ≠ req_user) (Repository.users repo) in
  statusCode r.2 = 500 ∧
  DB.users (db r.1) = DB.users (db w) ∧
  DB.repositories (db r.1)
  = (if bool_decide (remaining = [])
     then delete id (DB.repositories (db w))
     else <[id := Repository.set_users remaining repo]> (DB.repositories (db w))).
Proof.
  intros Huser Hrepo Hin F0 F1 F2 F3. sub_unfold.
  rewrite F0. simpl. rewrite Huser. simpl. rewrite F1. simpl. rewrite Hrepo. simpl.
  rewrite bool_decide_true by done. simpl.
  destruct (filter (λ userId, userId ≠ req_user) (Repository.users repo)) as [|x l] eqn:Hf;
    simpl; rewrite F2; simpl; rewrite F3; simpl; by split_and!.
Qed.

(** X12: deleting an account either changes nothing in the database or
    answers 200 having removed exactly the requesting user's record; the
    repositories, alerts and reports are never touched. *)
Theorem X12_deleteUserAccount_only_removes_user req_user w :
  let r := deleteUserAccount fault req_user w in
  db r.1 = db w
  ∨ (statusCode r.2 = 200 ∧
     is_Some (DB.users (db w) !! req_user) ∧
     db r.1 = DB.set_users (delete req_user (DB.users (db w))) (db w)).
Proof.
  sub_unfold.
  repeat sub_step; simpl; try (by left).
  right. split_and!; [done|by eexists|done].
Qed.

(** X13: [connectRepo] never creates a repository: whatever the request, the
    answer is not 201 and the set of stored repository identifiers is the
    one before the call.  (For a repository not yet stored the object passed
    to [Repository.create] lacks the required [url] and [apiUrl].) *)
Theorem X13_connectRepo_never_creates req_user owner name w :
  let r := connectRepo fault clock getRepo req_user owner name w in
  statusCode r.2 ≠ 201 ∧
  dom (DB.repositories (db r.1)) = dom (DB.repositories (db w)).
Proof.
  sub_unfold.
  destruct (falsy owner || falsy name); simpl; [done|].
  destruct req_user as [[uid tok]|]; simpl; [|done].
  repeat sub_step; simpl; split; try done.
  all: match goal with
       | E : head _ = Some ?d |- _ =>
         apply head_filter_Some_inv in E as [_ Hin]; destruct d as [rid rr]
       end.
  all: apply elem_of_map_to_list in Hin.
  all: rewrite dom_insert_L; apply elem_of_dom_2 in Hin.
  all: by apply subseteq_union_1_L, singleton_subseteq_l.
Qed.

(** X14: connecting to a repository that is already stored: when the answer
    is 200, the requester was not yet a subscriber and is appended to the
    subscriber list of the repository with the requested full name; no other
    repository changes. *)
Theorem X14_connectRepo_appends_subscriber uid tok owner name w w' res :
  connectRepo fault clock getRepo (Some (uid, tok)) (Some owner) (Some name) w = (w', res) →
  statusCode res = 200 →
  ∃ id repo,
    DB.repositories (db w) !! id = Some repo ∧
    Repository.fullName repo = (owner +:+ "/" +:+ name) ∧
    (uid ∉ Repository.users repo) ∧
    DB.repositories (db w')
    = <[id := Repository.set_users (Repository.users repo ++ [uid])%list repo]>
        (DB.repositories (db w)).
Proof.
  sub_unfold. simpl.
  destruct (bool_decide (owner = "") || bool_decide (name = "")); simpl;
    [intros [= <- <-]; discriminate|].
  repeat sub_step; intros [= <- <-]; simpl in *; try discriminate; intros _.
  all: match goal with
       | E : head _ = Some ?d |- _ =>
         apply head_filter_Some_inv in E as [Hname Hin]; destruct d as [rid rr]
       end.
  all: apply elem_of_map_to_list in Hin; simpl in *.
  all: exists rid, rr; by split_and!.
Qed.

Lemma filter_ne_app_self (us : list ObjectId) (u : ObjectId) :
  u ∉ us → filter (λ x, x ≠ u) (us ++ [u])%list = us.
Proof.
  intros Hnot. rewrite filter_app.
  rewrite (filter_cons (λ x, x ≠ u) u []). rewrite decide_False by (intros H; by apply H).
  rewrite filter_nil, app_nil_r.
  induction us as [|x us IH]; [done|].
  rewrite filter_cons. apply not_elem_of_cons in Hnot as [Hne Hnot].
  rewrite decide_True by done. by rewrite IH.
Qed.

Lemma set_users_same (r : Repository.t) : Repository.set_users (Repository.users r) r = r.
Proof. by destruct r. Qed.

Lemma connectRepo_200 uid tok owner name w w' res :
  connectRepo fault clock getRepo (Some (uid, tok)) (Some owner) (Some name) w = (w', res) →
  statusCode res = 200 →
  ∃ id repo,
    DB.repositories (db w) !! id = Some repo ∧
    (uid ∉ Repository.users repo) ∧
    body res
    = RepositoryJson
        (id, Repository.set_users (Repository.users repo ++ [uid])%list repo) ∧
    DB.repositories (db w')
    = <[id := Repository.set_users (Repository.users repo ++ [uid])%list repo]>
        (DB.repositories (db w)).
Proof.
  sub_unfold. simpl.
  destruct (bool_decide (owner = "") || bool_decide (name = "")); simpl;
    [intros [= <- <-]; discriminate|].
  repeat sub_step; intros [= <- <-]; simpl in *; try discriminate; intros _.
  all: match goal with
       | E : head _ = Some ?d |- _ =>
         apply head_filter_Some_inv in E as [Hname Hin]; destruct d as [rid rr]
       end.
  all: apply elem_of_map_to_list in Hin; simpl in *.
  all: exists rid, rr; by split_and!.
Qed.

Lemma disconnectRepo_200 req_user id w w' res repo :
  disconnectRepo fault req_user id w = (w', res) →
  statusCode res = 200 →
  DB.repositories (db w) !! id = Some repo →
  let remaining := filter (λ userId, userId ≠ req_user) (Repository.users repo) in
  (remaining = [] → DB.repositories (db w') = delete id (DB.repositories (db w))) ∧
  (remaining ≠ [] →
     DB.repositories (db w')
     = <[id := Repository.set_users remaining repo]> (DB.repositories (db w))).
Proof.
  intros Hrun Hcode Hrepo remaining. revert Hrun. sub_unfold.
  repeat sub_step; intros [= <- <-]; simpl in *; try discriminate.
  all: repeat match goal with
       | H : _ !! id = Some ?t |- _ =>
         assert_fails (constr_eq t repo); assert (t = repo) as -> by congruence
       end.
  all: subst remaining; simplify_eq; split; intros Hx; try done; exfalso.
  all: first [ apply Hx; by apply nil_length_inv
             | match goal with B : length _ ≠ 0 |- _ => apply B; by rewrite Hx end ].
Qed.

(** X15: connecting to a stored repository and then disconnecting from it,
    both answered 200, restores the repository collection when the
    repository had a subscriber before; a repository that had none is gone
    after the round trip. *)
Theorem X15_connect_then_disconnect uid tok owner name w w1 res1 d w2 res2 :
  connectRepo fault clock getRepo (Some (uid, tok)) (Some owner) (Some name) w = (w1, res1) →
  statusCode res1 = 200 →
  body res1 = RepositoryJson d →
  disconnectRepo fault uid (_id d) w1 = (w2, res2) →
  statusCode res2 = 200 →
  ∃ repo, DB.repositories (db w) !! _id d = Some repo ∧
    (Repository.users repo ≠ [] → DB.repositories (db w2) = DB.repositories (db w)) ∧
    (Repository.users repo = [] →
       DB.repositories (db w2) = delete (_id d) (DB.repositories (db w))).
Proof.
  intros Hc Hc200 Hbody Hd Hd200.
  destruct (connectRepo_200 _ _ _ _ _ _ _ Hc Hc200) as (id & repo & Hrepo & Hnot & Hb & Hdb1).
  rewrite Hb in Hbody. injection Hbody as <-. simpl in *.
  exists repo. split; [done|].
  destruct (disconnectRepo_200 uid id w1 w2 res2
              (Repository.set_users (Repository.users repo ++ [uid])%list repo) Hd Hd200)
    as [Hlast Hmore].
  { rewrite Hdb1. apply lookup_insert_eq. }
  simpl in Hlast, Hmore. rewrite filter_ne_app_self in Hlast, Hmore by done.
  split; intros Hus.
  - rewrite (Hmore Hus), Hdb1, insert_insert_eq.
    replace (Repository.set_users (Repository.users repo)
               (Repository.set_users (Repository.users repo ++ [uid])%list repo))
      with repo by (by destruct repo).
    by apply insert_id.
  - rewrite (Hlast Hus), Hdb1. by rewrite delete_insert_eq.
Qed.

(** X16: [getRepoDetails] answers 200 only to a subscriber of a stored
    repository, and the document it answers is the one stored before the
    call -- also when the call refreshed the metrics. *)
Theorem X16_getRepoDetails_answers_stored_document req_user id w w' res :
  getRepoDetails fault clock githubService req_user id w = (w', res) →
  statusCode res = 200 →
  ∃ repo, DB.repositories (db w) !! id = Some repo ∧
          req_user ∈ Repository.users repo ∧
          body res = RepositoryJson (id, repo).
Proof.
  sub_unfold.
  repeat sub_step; try (intros [= <- <-]; simpl; discriminate).
  - destruct (updateRepoMetrics _ _ _ _ _ _) as [w2 [[]|e]]; simpl;
      intros [= <- <-]; [|discriminate]. intros _. eexists. by split_and!.
  - intros [= <- <-] _. eexists. by split_and!.
Qed.

(** X17: [getRepoDetails] serves a repository fetched within the last hour
    from the store: the database is left as it was. *)
Theorem X17_getRepoDetails_fresh_is_read_only req_user id w repo :
  DB.repositories (db w) !! id = Some repo →
  (clock (S (S (tick w))) - 60 * 60 * 1000 ≤ Repository.lastFetched repo)%Z →
  db (getRepoDetails fault clock githubService req_user id w).1 = db w.
Proof.
  intros Hrepo Hfresh. sub_unfold.
  repeat sub_step; try reflexivity.
  all: simplify_eq/=; lia.
Qed.

(** X18: whenever [getRepoDetails] does not answer 200 -- a missing user or
    repository, a non-subscriber, a rejected query or a failed refresh --
    the database is as it was. *)
Theorem X18_getRepoDetails_failure_writes_nothing req_user id w w' res :
  getRepoDetails fault clock githubService req_user id w = (w', res) →
  statusCode res ≠ 200 →
  db w' = db w.
Proof.
  sub_unfold.
  repeat sub_step; try (intros [= <- <-]; simpl; done).
  destruct (updateRepoMetrics _ _ _ _ _ _) as [w2 [[]|e]] eqn:Hup; simpl;
    intros [= <- <-]; [done|]. intros _. simpl.
  by apply updateRepoMetrics_Throw in Hup.
Qed.

End SubscriptionMore.

(** *** The subscription properties at the sample data *)

Definition bob : User.t :=
  User.mk "771902" "bob" "bob@example.org" None "gho_bob" None
    (EmailReports.mk false weekly_ None) [].

Definition two_user_world : World :=
  mkWorld (DB.set_users {[ 1 := ada; 2 := bob ]} sample_db) [] [] 0.

(** The oracle that rejects the [n]-th awaited operation only. *)
Definition fault_at (n : nat) (e : exn) : nat → option exn :=
  λ k, if decide (k = n) then Some e else None.

Definition no_github_repo : string → string → string → result GithubRepoAnswer :=
  λ _ _ _, Throw (UpstreamError 404 "Not Found").

Lemma X9_disconnect_rejects_non_subscriber_witness :
  let r := disconnectRepo no_fault 2 10 two_user_world in
  db r.1 = db two_user_world ∧ statusCode r.2 ≠ 200.
Proof.
  apply (X9_disconnect_rejects_non_subscriber no_fault 2 10 two_user_world demo).
  - reflexivity.
  - intros Hin. apply list_elem_of_singleton in Hin. discriminate.
Defined.

Lemma X10_disconnect_updates_user_witness :
  ∃ user, DB.users (db sample_world) !! 1 = Some user ∧
          DB.users (db (disconnectRepo no_fault 1 10 sample_world).1)
          = <[1 := User.set_connectedRepos
                     (filter (λ repoId, repoId ≠ 10) (User.connectedRepos user)) user]>
              (DB.users (db sample_world)) ∧
          DB.alerts (db (disconnectRepo no_fault 1 10 sample_world).1)
          = DB.alerts (db sample_world) ∧
          DB.reports (db (disconnectRepo no_fault 1 10 sample_world).1)
          = DB.reports (db sample_world).
Proof.
  apply (X10_disconnect_updates_user no_fault 1 10 sample_world
           (disconnectRepo no_fault 1 10 sample_world).1
           (disconnectRepo no_fault 1 10 sample_world).2).
  - apply surjective_pairing.
  - vm_compute. reflexivity.
Defined.

Lemma X11_disconnect_not_atomic_witness :
  let r := disconnectRepo (fault_at 3 (TransportError "connection lost")) 1 10
             sample_world in
  statusCode r.2 = 500 ∧
  DB.users (db r.1) = DB.users (db sample_world) ∧
  DB.repositories (db r.1) = delete 10 (DB.repositories (db sample_world)).
Proof.
  apply (X11_disconnect_not_atomic (fault_at 3 (TransportError "connection lost")) 1 10
           sample_world ada demo (TransportError "connection lost"));
    try reflexivity.
  apply list_elem_of_here.
Defined.

Lemma X14_connectRepo_appends_subscriber_witness :
  ∃ id repo,
    DB.repositories (db two_user_world) !! id = Some repo ∧
    Repository.fullName repo = ("octo" +:+ "/" +:+ "demo") ∧
    (2 ∉ Repository.users repo) ∧
    DB.repositories
      (db (connectRepo no_fault sample_clock no_github_repo (Some (2, "gho_bob"))
             (Some "octo") (Some "demo") two_user_world).1)
    = <[id := Repository.set_users (Repository.users repo ++ [2])%list repo]>
        (DB.repositories (db two_user_world)).
Proof.
  apply (X14_connectRepo_appends_subscriber no_fault sample_clock no_github_repo
           2 "gho_bob" "octo" "demo" two_user_world
           (connectRepo no_fault sample_clock no_github_repo (Some (2, "gho_bob"))
              (Some "octo") (Some "demo") two_user_world).1
           (connectRepo no_fault sample_clock no_github_repo (Some (2, "gho_bob"))
              (Some "octo") (Some "demo") two_user_world).2).
  - apply surjective_pairing.
  - vm_compute. reflexivity.
Defined.

Lemma X15_connect_then_disconnect_witness :
  let r1 := connectRepo no_fault sample_clock no_github_repo (Some (2, "gho_bob"))
              (Some "octo") (Some "demo") two_user_world in
  let r2 := disconnectRepo no_fault 2 10 r1.1 in
  DB.repositories (db r2.1) = DB.repositories (db two_user_world).
Proof.
  intros r1 r2.
  destruct (X15_connect_then_disconnect no_fault sample_clock no_github_repo
              2 "gho_bob" "octo" "demo" two_user_world r1.1 r1.2
              (10, Repository.set_users [1; 2] demo) r2.1 r2.2)
    as (repo & Hrepo & Hsome & _).
  - apply surjective_pairing.
  - vm_compute. reflexivity.
  - vm_compute. reflexivity.
  - apply surjective_pairing.
  - vm_compute. reflexivity.
  - simpl in Hrepo. apply lookup_singleton_Some in Hrepo as [_ <-].
    apply Hsome. discriminate.
Defined.

Lemma X16_getRepoDetails_answers_stored_document_witness :
  let r := getRepoDetails no_fault sample_clock github_one_merged 1 10 sample_world in
  ∃ repo, DB.repositories (db sample_world) !! 10 = Some repo ∧
          1 ∈ Repository.users repo ∧
          body r.2 = RepositoryJson (10, repo).
Proof.
  intros r.
  apply (X16_getRepoDetails_answers_stored_document no_fault sample_clock github_one_merged
           1 10 sample_world r.1 r.2).
  - apply surjective_pairing.
  - vm_compute. reflexivity.
Defined.

(** The sample repository, fetched at the time the sample clock starts. *)
Definition fresh_world : World :=
  mkWorld
    (DB.set_repositories {[ 10 := Repository.set_lastFetched 1700000000000%Z demo ]}
       sample_db) [] [] 0.

Lemma X17_getRepoDetails_fresh_is_read_only_witness :
  db (getRepoDetails no_fault sample_clock github_one_merged 1 10 fresh_world).1
  = db fresh_world.
Proof.
  apply (X17_getRepoDetails_fresh_is_read_only no_fault sample_clock github_one_merged
           1 10 fresh_world (Repository.set_lastFetched 1700000000000%Z demo)).
  - reflexivity.
  - vm_compute. discriminate.
Defined.

Lemma X18_getRepoDetails_failure_writes_nothing_witness :
  db (getRepoDetails no_fault sample_clock github_issues_down 1 10 sample_world).1
  = db sample_world.
Proof.
  apply (X18_getRepoDetails_failure_writes_nothing no_fault sample_clock github_issues_down
           1 10 sample_world
           (getRepoDetails no_fault sample_clock github_issues_down 1 10 sample_world).1
           (getRepoDetails no_fault sample_clock github_issues_down 1 10 sample_world).2).
  - apply surjective_pairing.
  - vm_compute. discriminate.
Defined.

(** ** More on alerts *)

Section AlertMore.

Variable fault : nat → option exn.
Variable clock : nat → Date.

Ltac alert_more_unfold :=
  unfold createAlert, updateAlertStatus, configureAlertThresholds, controller, bind, ret,
    throw, Repository_findById, Alert_findById, Alert_findOne, Alert_create, Alert_save,
    Date_now, await.

Ltac alert_more_step :=
  match goal with
  | |- context [match fault ?t with _ => _ end] =>
      let F := fresh "F" in destruct (fault t) eqn:F
  | |- context [pair ?k <$> ?m !! ?k] =>
      let L := fresh "L" in destruct (m !! k) eqn:L
  | |- context [bool_decide ?P] =>
      let B := fresh "B" in destruct (bool_decide_reflect P) as [B|B]
  | |- context [match head ?l with _ => _ end] =>
      let E := fresh "E" in destruct (head l) eqn:E
  | |- context [match AlertType_of_string ?s with _ => _ end] =>
      let T := fresh "T" in destruct (AlertType_of_string s) eqn:T
  end; simpl.

(** X19: [updateAlertStatus] writes only for the owner of a stored alert and
    a status among ['active'], ['resolved'], ['dismissed']: with any other
    status, an unknown alert or another user's alert, the answer is not 200
    and the database is unchanged. *)
Theorem X19_updateAlertStatus_guards req_user id status w :
  status ≫= AlertStatus_of_string = None
  ∨ DB.alerts (db w) !! id = None
  ∨ (∃ a, DB.alerts (db w) !! id = Some a ∧ Alert.user a ≠ req_user) →
  let r := updateAlertStatus fault clock req_user id status w in
  db r.1 = db w ∧ statusCode r.2 ≠ 200.
Proof.
  intros Hguard. alert_more_unfold.
  destruct (status ≫= AlertStatus_of_string) as [st|] eqn:Hst; simpl; [|done].
  destruct Hguard as [?|[Hnone|(a & Ha & Hne)]]; [done|..].
  - repeat alert_more_step; simplify_eq; done.
  - repeat alert_more_step; simplify_eq; done.
Qed.

(** X20: an [updateAlertStatus] answered 200 rewrites the addressed alert
    only: it keeps its user, repository, type, message, threshold and value,
    takes the requested status, and gets [resolvedAt] set to the current
    time when the status is ['resolved'] or ['dismissed'] -- while a request
    for ['active'] keeps whatever [resolvedAt] it had. *)
Theorem X20_updateAlertStatus_rewrites_status req_user id status w w' res :
  updateAlertStatus fault clock req_user id status w = (w', res) →
  statusCode res = 200 →
  ∃ st a,
    status ≫= AlertStatus_of_string = Some st ∧
    DB.alerts (db w) !! id = Some a ∧
    DB.alerts (db w')
    = <[id := Alert.mk (Alert.user a) (Alert.repository a) (Alert.type a)
                 (Alert.message a) (Alert.threshold a) (Alert.value a) st
                 (if bool_decide (st = active) then Alert.resolvedAt a
                  else Some (clock (S (tick w))))]>
        (DB.alerts (db w)) ∧
    DB.users (db w') = DB.users (db w) ∧
    DB.repositories (db w') = DB.repositories (db w) ∧
    DB.reports (db w') = DB.reports (db w).
Proof.
  alert_more_unfold.
  destruct (status ≫= AlertStatus_of_string) as [st|] eqn:Hst; simpl.
  2:{ intros [= <- <-]. discriminate. }
  repeat alert_more_step; intros [= <- <-]; simpl; try discriminate; intros _.
  all: eexists st, _; split_and!; try done.
  all: destruct st; simpl in *; try done.
Qed.

(** X21: [createAlert] stores nothing and does not answer 201 when the
    requester is not a subscriber of the stored target repository, or when
    the posted type is not one of the three alert types. *)
Theorem X21_createAlert_guards req_user req_body w :
  (∃ rid repo, repositoryId req_body = Some rid ∧
               DB.repositories (db w) !! rid = Some repo ∧
               req_user ∉ Repository.users repo)
  ∨ type req_body ≫= AlertType_of_string = None →
  let r := createAlert fault req_user req_body w in
  DB.alerts (db r.1) = DB.alerts (db w) ∧ statusCode r.2 ≠ 201.
Proof.
  intros Hguard. alert_more_unfold.
  destruct req_body as [[rid|] ty msg [th|] [v|]]; simpl; try done.
  destruct (falsy ty || falsy msg) eqn:Hfalsy; simpl; [done|].
  destruct Hguard as [(rid' & repo & Hrid & Hrepo & Hnot)|Hty]; simpl in *.
  - injection Hrid as <-. repeat alert_more_step; simpl; try done.
    all: simplify_eq; done.
  - destruct ty as [ty|]; simpl in *; [|done].
    repeat alert_more_step; simpl; done.
Qed.

End AlertMore.

Lemma or_default_nonzero (x : option Qc) (d : Z) : d ≠ 0%Z → or_default x d ≠ num 0.
Proof.
  intros Hd. unfold or_default.
  assert (num d ≠ num 0) by (unfold num; intros H; by apply Z2Qc_inj in H).
  destruct x as [q|]; [|done]. by case_bool_decide.
Qed.

Lemma or_default_given (q : Qc) (d : Z) : q ≠ num 0 → or_default (Some q) d = q.
Proof. intros Hq. unfold or_default. by rewrite bool_decide_false. Qed.

Section ThresholdProperties.

Variable fault : nat → option exn.

(** X22: [configureAlertThresholds] stores nothing, whatever it answers; the
    thresholds it answers are never 0: a posted value that is absent or 0 is
    replaced by the default (7, 14, 70) and any other posted value is
    answered as posted. *)
Theorem X22_configureAlertThresholds_stores_nothing req_user repoId req_body w :
  let r := configureAlertThresholds fault req_user repoId req_body w in
  db r.1 = db w ∧
  ∀ t, r.2.2 = Some t →
    statusCode r.2.1 = 200 ∧
    t = mkThresholds (or_default (noActivityDays req_body) 7)
          (or_default (longOpenPRsDays req_body) 14)
          (or_default (commitDropPercentage req_body) 70) ∧
    th_noActivityDays t ≠ num 0 ∧ th_longOpenPRsDays t ≠ num 0 ∧
    th_commitDropPercentage t ≠ num 0 ∧
    (∀ q, noActivityDays req_body = Some q → q ≠ num 0 → th_noActivityDays t = q) ∧
    (noActivityDays req_body = None ∨ noActivityDays req_body = Some (num 0) →
       th_noActivityDays t = num 7).
Proof.
  unfold configureAlertThresholds, bind, ret, Repository_findById, await.
  destruct (fault (tick w)); simpl; [by split|].
  destruct (DB.repositories (db w) !! repoId) as [repo|]; simpl; [|by split].
  destruct (bool_decide_reflect (req_user ∈ Repository.users repo)); simpl; [|by split].
  split; [done|]. intros t [= <-]. simpl.
  split_and!; try done; try (by apply or_default_nonzero).
  - intros q -> Hq. by apply or_default_given.
  - intros [->| ->]; [done|]. unfold or_default. by rewrite bool_decide_true.
Qed.

End ThresholdProperties.

(** *** The alert properties at the sample data *)

Lemma X19_updateAlertStatus_guards_witness :
  let r := updateAlertStatus no_fault sample_clock 1 7 (Some "reopened") alert_world in
  db r.1 = db alert_world ∧ statusCode r.2 ≠ 200.
Proof.
  apply (X19_updateAlertStatus_guards no_fault sample_clock 1 7 (Some "reopened")
           alert_world).
  left. reflexivity.
Defined.

Lemma X20_updateAlertStatus_rewrites_status_witness :
  let r := updateAlertStatus no_fault sample_clock 1 7 (Some "dismissed")
             active_alert_world in
  ∃ st a,
    Some "dismissed" ≫= AlertStatus_of_string = Some st ∧
    DB.alerts (db active_alert_world) !! 7 = Some a ∧
    DB.alerts (db r.1)
    = <[7 := Alert.mk (Alert.user a) (Alert.repository a) (Alert.type a)
                (Alert.message a) (Alert.threshold a) (Alert.value a) st
                (if bool_decide (st = active) then Alert.resolvedAt a
                 else Some (sample_clock (S (tick active_alert_world))))]>
        (DB.alerts (db active_alert_world)) ∧
    DB.users (db r.1) = DB.users (db active_alert_world) ∧
    DB.repositories (db r.1) = DB.repositories (db active_alert_world) ∧
    DB.reports (db r.1) = DB.reports (db active_alert_world).
Proof.
  intros r.
  apply (X20_updateAlertStatus_rewrites_status no_fault sample_clock 1 7
           (Some "dismissed") active_alert_world r.1 r.2).
  - apply surjective_pairing.
  - vm_compute. reflexivity.
Defined.

Lemma X21_createAlert_guards_witness :
  let r := createAlert no_fault 2 fresh_trigger alert_world in
  DB.alerts (db r.1) = DB.alerts (db alert_world) ∧ statusCode r.2 ≠ 201.
Proof.
  apply (X21_createAlert_guards no_fault 2 fresh_trigger alert_world).
  left. exists 10, demo. split_and!; try reflexivity.
  intros Hin. apply list_elem_of_singleton in Hin. discriminate.
Defined.

(** ** More on reports *)

(** The payload [generateReport] builds from a metrics snapshot. *)
Definition report_data_of (m : Metrics.t) : ReportData.t :=
  ReportData.mk
    (default 0%Z (last (Commits.weekly (Metrics.commits m))))
    (PullRequests.open (Metrics.pullRequests m))
    (PullRequests.merged (Metrics.pullRequests m))
    (PullRequests.closed (Metrics.pullRequests m))
    (Issues.open (Metrics.issues m))
    (Issues.closed (Metrics.issues m))
    (Metrics.contributors m)
    (Metrics.mergeTime m).

Section OnDemandReport.

Variable fault : nat → option exn.
Variable clock : nat → Date.
Variable reportEmailTemplate : list string → string.
Variable toLocaleDateString : Date → string.
Variable sevenDaysBefore : Date → Date.
Variable FRONTEND_URL : string.

Ltac report_unfold :=
  unfold generateReport, Report_create, new_Report, asyncHandler, errorHandler, bind, ret,
    throw, settle, User_findById, Repository_findById, Report_save, Date_now, await.

(** X23: with the named imports as the modules have them, an on-demand
    report asked by a subscriber, whose lookups and whose record creation
    are answered, stores the ['pending'] record -- for the week before the
    request, its payload taken from the repository's metrics (the commits
    of the last week of the series, 0 for an empty series) -- and then
    throws, because [EmailService] is not bound to a class: nothing is
    sent, and the record stays ['pending'] without [sentAt]. *)
Theorem X23_generateReport_stops_after_create req_user repoId w user repo :
  DB.users (db w) !! req_user = Some user →
  DB.repositories (db w) !! repoId = Some repo →
  req_user ∈ Repository.users repo →
  fault (tick w) = None → fault (S (tick w)) = None → fault (S (S (tick w))) = None →
  let r := generateReport fault clock src_imports reportEmailTemplate toLocaleDateString
             sevenDaysBefore FRONTEND_URL req_user repoId w in
  r.2 = Throw (not_a_constructor "EmailService") ∧
  outbox r.1 = outbox w ∧
  DB.reports (db r.1)
  = <[fresh (dom (DB.reports (db w))) :=
        Report.mk req_user repoId weekly_
          (sevenDaysBefore (clock (S (S (tick w))))) (clock (S (S (tick w))))
          (report_data_of (Repository.metrics repo)) None pending
          (clock (S (S (tick w))))]>
      (DB.reports (db w)).
Proof.
  intros Huser Hrepo Hin F0 F1 F2. report_unfold.
  rewrite F0. simpl. rewrite Huser. simpl. rewrite F1. simpl. rewrite Hrepo. simpl.
  rewrite bool_decide_true by done. simpl. rewrite F2. simpl.
  split_and!; try done. unfold report_data_of. by rewrite slice_last_1_head.
Qed.

(** X24: an on-demand report asked by a user who is not a subscriber of the
    stored repository stores nothing and sends nothing, whatever the named
    imports are bound to; when both lookups answer, [asyncHandler] and the
    error middleware turn the controller's [ApiError] into a 403 answer
    with its message. *)
Theorem X24_generateReport_rejects_non_subscriber imports production req_user repoId w
    user repo :
  DB.users (db w) !! req_user = Some user →
  DB.repositories (db w) !! repoId = Some repo →
  req_user ∉ Repository.users repo →
  let r := asyncHandler production
             (generateReport fault clock imports reportEmailTemplate toLocaleDateString
                sevenDaysBefore FRONTEND_URL req_user repoId) w in
  db r.1 = db w ∧ outbox r.1 = outbox w ∧
  (fault (tick w) = None → fault (S (tick w)) = None →
   r.2 = mkResponse 403 (Message "Not authorized to generate report for this repository")).
Proof.
  intros Huser Hrepo Hnot. report_unfold.
  destruct (fault (tick w)) eqn:F0; simpl.
  { destruct production; simpl; by split_and!. }
  rewrite Huser. simpl.
  destruct (fault (S (tick w))) eqn:F1; simpl.
  { destruct production; simpl; by split_and!. }
  rewrite Hrepo. simpl. rewrite bool_decide_false by done. simpl.
  destruct production; simpl; by split_and!.
Qed.

End OnDemandReport.

(** *** The on-demand report at the sample data *)

Lemma X23_generateReport_stops_after_create_witness :
  (sample_generateReport src_imports).2 = Throw (not_a_constructor "EmailService") ∧
  outbox (sample_generateReport src_imports).1 = outbox sample_world ∧
  DB.reports (db (sample_generateReport src_imports).1)
  = <[fresh (dom (DB.reports (db sample_world))) :=
        Report.mk 1 10 weekly_ (sample_clock 2 - 604800000)%Z (sample_clock 2)
          (report_data_of (Repository.metrics demo)) None pending
          (sample_clock 2)]>
      (DB.reports (db sample_world)).
Proof.
  apply (X23_generateReport_stops_after_create no_fault sample_clock
           (λ _, "<html>report</html>") (λ _, "1/1/2024") (λ now, now - 604800000)%Z
           "https://devinsight.example" 1 10 sample_world ada demo);
    try reflexivity.
  apply list_elem_of_here.
Defined.

(** [bob] is stored and is not a subscriber of [demo]. *)
Lemma X24_generateReport_rejects_non_subscriber_witness :
  let r := asyncHandler false
             (generateReport no_fault sample_clock src_imports (λ _, "<html>report</html>")
                (λ _, "1/1/2024") (λ now, now - 604800000)%Z "https://devinsight.example"
                2 10) two_user_world in
  db r.1 = db two_user_world ∧ outbox r.1 = outbox two_user_world ∧
  r.2 = mkResponse 403 (Message "Not authorized to generate report for this repository").
Proof.
  intros r.
  destruct (X24_generateReport_rejects_non_subscriber no_fault sample_clock
              (λ _, "<html>report</html>") (λ _, "1/1/2024") (λ now, now - 604800000)%Z
              "https://devinsight.example" src_imports false 2 10 two_user_world
              bob demo)
    as (Hdb & Hout & Hres).
  - reflexivity.
  - reflexivity.
  - intros Hin. apply list_elem_of_singleton in Hin. discriminate.
  - split_and!; [exact Hdb | exact Hout | by apply Hres].
Defined.
